(** * pyrfu: a shallow embedding of the numeric routines and their properties

    The development follows the layout of the Python package:
    - a small model of the Python runtime (exceptions, list indexing, slices);
    - two models of numpy floats: rationals with NaN, used where the code
      only adds, multiplies and divides, and reals with NaN and infinities,
      used where the code takes square roots or calls trigonometric
      functions.  Rounding and overflow are outside both models;
    - labeled arrays ([xarray.DataArray]) as records;
    - one block of definitions per source file, named after its function;
    - the properties, proved after all definitions. *)

From Stdlib Require Import ZArith QArith Qround Qabs Reals Lra Lia Psatz RNsatz.
From Stdlib Require Import List String Ascii Bool DecimalString Sorting.Sorted.
From Stdlib Require Import Sorting.Permutation.
From Equations Require Import Equations.
From stdpp Require Import base option list gmap strings.

(** ** Python runtime *)

Inductive exn :=
| TypeError | ValueError | KeyError | IndexError | AttributeError
| NameError | RuntimeError | SystemError | AssertionError.

Inductive result (A : Type) :=
| Ok (a : A)
| Raise (e : exn).
Arguments Ok {A} a.
Arguments Raise {A} e.

#[global] Instance exn_eq_dec : EqDecision exn.
Proof. solve_decision. Defined.

#[global] Instance result_ret : MRet result := fun A a => Ok a.
#[global] Instance result_bind : MBind result :=
  fun A B f m => match m with Ok a => f a | Raise e => Raise e end.
#[global] Instance result_fmap : FMap result :=
  fun A B f m => match m with Ok a => Ok (f a) | Raise e => Raise e end.

(** [d[k]] on a dict, [l[i]] on a list: a missing key or index raises. *)
Definition of_option {A} (e : exn) (o : option A) : result A :=
  match o with Some a => Ok a | None => Raise e end.

(** [l[i]] with Python's negative indices. *)
Definition py_index {A} (l : list A) (i : Z) : result A :=
  if (i <? 0)%Z
  then (if (i + Z.of_nat (length l) <? 0)%Z then Raise IndexError
        else of_option IndexError (l !! Z.to_nat (i + Z.of_nat (length l))))
  else of_option IndexError (l !! Z.to_nat i).

(** [for x in xs: s = body(s, x)], stopping at the first exception. *)
Fixpoint for_loop {S X} (body : S -> X -> result S) (xs : list X) (s : S)
  : result S :=
  match xs with
  | [] => Ok s
  | x :: xs => s' ← body s x; for_loop body xs s'
  end.

(** [l[a:b]] for non-negative bounds. *)
Definition py_slice {A} (a b : nat) (l : list A) : list A :=
  take (b - a) (drop a l).

(** [s.split("_")] *)
Fixpoint split_on (sep : ascii) (s : string) : list string :=
  match s with
  | EmptyString => [EmptyString]
  | String c s' =>
      if Ascii.eqb c sep then EmptyString :: split_on sep s'
      else match split_on sep s' with
           | w :: ws => String c w :: ws
           | [] => [String c EmptyString]
           end
  end.

(** [f"{n:d}"] *)
Definition format_d (n : Z) : string := NilZero.string_of_int (Z.to_int n).

(** ** Floats as reals with NaN and infinities

    Zero is unsigned: a non-zero number over zero takes the sign of the
    numerator. *)

Inductive fnum :=
| Fin (x : R)
| PInf
| NInf
| NaN.

Definition Rsign_inf (x : R) : fnum :=
  if Req_dec_T x 0 then NaN else if Rlt_dec 0 x then PInf else NInf.

Definition fneg (a : fnum) : fnum :=
  match a with
  | Fin x => Fin (- x)
  | PInf => NInf
  | NInf => PInf
  | NaN => NaN
  end.

Definition fadd (a b : fnum) : fnum :=
  match a, b with
  | Fin x, Fin y => Fin (x + y)
  | NaN, _ | _, NaN => NaN
  | PInf, NInf | NInf, PInf => NaN
  | PInf, _ | _, PInf => PInf
  | NInf, _ | _, NInf => NInf
  end.

Definition fsub (a b : fnum) : fnum := fadd a (fneg b).

Definition fmul (a b : fnum) : fnum :=
  match a, b with
  | Fin x, Fin y => Fin (x * y)
  | NaN, _ | _, NaN => NaN
  | PInf, Fin y | Fin y, PInf => Rsign_inf y
  | NInf, Fin y | Fin y, NInf => fneg (Rsign_inf y)
  | PInf, PInf | NInf, NInf => PInf
  | PInf, NInf | NInf, PInf => NInf
  end.

Definition fdiv (a b : fnum) : fnum :=
  match a, b with
  | Fin x, Fin y => if Req_dec_T y 0 then Rsign_inf x else Fin (x / y)
  | NaN, _ | _, NaN => NaN
  | Fin _, (PInf | NInf) => Fin 0
  | PInf, Fin y => if Rlt_dec y 0 then NInf else PInf
  | NInf, Fin y => if Rlt_dec y 0 then PInf else NInf
  | (PInf | NInf), (PInf | NInf) => NaN
  end.

Definition fsqrt (a : fnum) : fnum :=
  match a with
  | Fin x => if Rlt_dec x 0 then NaN else Fin (sqrt x)
  | PInf => PInf
  | NInf | NaN => NaN
  end.

Definition fabs (a : fnum) : fnum :=
  match a with
  | Fin x => Fin (Rabs x)
  | PInf | NInf => PInf
  | NaN => NaN
  end.

Definition fatan (a : fnum) : fnum :=
  match a with
  | Fin x => Fin (atan x)
  | PInf => Fin (PI / 2)
  | NInf => Fin (- (PI / 2))
  | NaN => NaN
  end.

Definition fcos (a : fnum) : fnum :=
  match a with Fin x => Fin (cos x) | _ => NaN end.

Definition fsin (a : fnum) : fnum :=
  match a with Fin x => Fin (sin x) | _ => NaN end.

(** [np.log10] *)
Definition flog10 (a : fnum) : fnum :=
  match a with
  | Fin x => if Rlt_dec x 0 then NaN
             else if Req_dec_T x 0 then NInf else Fin (ln x / ln 10)
  | PInf => PInf
  | NInf | NaN => NaN
  end.

(** [np.isnan] *)
Definition fisnan (a : fnum) : bool :=
  match a with NaN => true | _ => false end.

(** [np.sum] over one axis *)
Definition fsum (l : list fnum) : fnum := foldl fadd (Fin 0) l.

Definition is_fin (a : fnum) : Prop :=
  match a with Fin _ => True | _ => False end.

(** ** Floats as rationals with NaN *)

Abbreviation qnum := (option Q).

Definition qnan : qnum := None.

(** [np.nanmean] over one axis: the mean of the entries that are not NaN,
    NaN when there is none. *)
Definition nan_drop (l : list qnum) : list Q := omap (fun a => a) l.

Definition Qsum (l : list Q) : Q := foldl Qplus 0%Q l.

Definition np_mean (l : list Q) : qnum :=
  match l with
  | [] => None
  | _ => Some (Qsum l / inject_Z (Z.of_nat (length l)))%Q
  end.

Definition np_nanmean (l : list qnum) : qnum := np_mean (nan_drop l).

(** [a * c] for a float [a] that may be NaN *)
Definition qscale (c : Q) (a : qnum) : qnum := (fun x => (x * c)%Q) <$> a.

(** [a == 1] *)
Definition q_is_one (a : qnum) : bool :=
  match a with Some x => Qeq_bool x 1 | None => false end.

(** ** Labeled arrays *)

Abbreviation attrs := (gmap string string).

Record coord := Coord { c_data : list Q; c_attrs : attrs }.

(** A time series: [D] is the type of the data array; the time coordinate
    holds [datetime64] instants as integer ticks; [da_coords] holds the
    coordinates other than time. *)
Record DataArray (D : Type) := mkDataArray {
  da_data : D;
  da_dims : list string;
  da_time : list Z;
  da_time_attrs : attrs;
  da_coords : gmap string coord;
  da_attrs : attrs
}.
Arguments mkDataArray {D} _ _ _ _ _ _.
Arguments da_data {D} _.
Arguments da_dims {D} _.
Arguments da_time {D} _.
Arguments da_time_attrs {D} _.
Arguments da_coords {D} _.
Arguments da_attrs {D} _.

(** Python values that reach the argument checks. *)
Inductive scalar :=
| SNone
| SStr (s : string)
| SInt (z : Z)
| SFloat (q : Q)
| SDatetime (t : Z)
| SDatetime64 (t : Z).

Inductive pyval (D : Type) :=
| PScalar (s : scalar)
| PList (l : list scalar)
| PNdarray (l : list scalar)
| PDataArray (d : DataArray D).
Arguments PScalar {D} s.
Arguments PList {D} l.
Arguments PNdarray {D} l.
Arguments PDataArray {D} d.

Definition is_datetime (s : scalar) : bool :=
  match s with SDatetime _ => true | _ => false end.

(** ** [bisect] (Python standard library) *)

Equations? bisect_left_loop (a : list Z) (x : Z) (lo hi : nat) : nat
  by wf (hi - lo) lt :=
bisect_left_loop a x lo hi with lt_dec lo hi := {
  | left _ with Z.ltb (nth ((lo + hi) / 2) a 0%Z) x := {
      | true := bisect_left_loop a x (S ((lo + hi) / 2)) hi;
      | false := bisect_left_loop a x lo ((lo + hi) / 2) };
  | right _ := lo }.
Proof.
  all: assert (lo <= (lo + hi) / 2 < hi)
    by (split; [apply Nat.div_le_lower_bound | apply Nat.Div0.div_lt_upper_bound]; lia);
    lia.
Qed.

Equations? bisect_right_loop (a : list Z) (x : Z) (lo hi : nat) : nat
  by wf (hi - lo) lt :=
bisect_right_loop a x lo hi with lt_dec lo hi := {
  | left _ with Z.ltb x (nth ((lo + hi) / 2) a 0%Z) := {
      | true := bisect_right_loop a x lo ((lo + hi) / 2);
      | false := bisect_right_loop a x (S ((lo + hi) / 2)) hi };
  | right _ := lo }.
Proof.
  all: assert (lo <= (lo + hi) / 2 < hi)
    by (split; [apply Nat.div_le_lower_bound | apply Nat.Div0.div_lt_upper_bound]; lia);
    lia.
Qed.

Definition bisect_left (a : list Z) (x : Z) : nat :=
  bisect_left_loop a x 0 (length a).

Definition bisect_right (a : list Z) (x : Z) : nat :=
  bisect_right_loop a x 0 (length a).

(** ** External time libraries

    [parser_parse] is [dateutil.parser.parse], which returns a
    [datetime.datetime] or raises; [astropy_datetime64 t] is
    [astropy.time.Time(t, format="datetime").datetime64]; [astropy_unix t] is
    [Time(t, format="datetime").unix] and [astropy_iso u] is
    [Time(u, format="unix").iso]. *)
Class TimeLib := {
  parser_parse : scalar -> result scalar;
  astropy_datetime64 : scalar -> result Z;
  astropy_unix : scalar -> result Q;
  astropy_iso : Q -> string
}.

(** ** pyrf/time_clip.py *)

(** The [if]/[elif] chain on [type(tint)]: the two bounds of the interval. *)
Definition time_clip_bounds `{TimeLib} {B} (tint : pyval B)
  : result (scalar * scalar) :=
  match tint with
  | PDataArray tint =>
      a ← py_index (da_time tint) 0;
      b ← py_index (da_time tint) (-1);
      Ok (SDatetime64 a, SDatetime64 b)
  | PNdarray tint =>
      a ← py_index tint 0;
      if is_datetime a then
        b ← py_index tint (-1);
        if is_datetime b then Raise AttributeError (* tint.time *)
        else Raise TypeError
      else Raise TypeError
  | PList tint =>
      a ← py_index tint 0;
      t_start ← parser_parse a;
      b ← py_index tint (-1);
      t_stop ← parser_parse b;
      Ok (t_start, t_stop)
  | PScalar _ => Raise TypeError
  end.

(** [xr.DataArray(data, coords=coord, dims=dims, attrs=attrs)] with [coord]
    a list whose first entry is the time axis, followed by
    [out.time.attrs = time_attrs].  The constructor pairs the coordinates
    with the dimensions in order; the check of the coordinate lengths
    against the shape of [data] is not modelled. *)
Definition DataArray_of_coords {D} (data : D) (time : list Z)
    (coord : list (list Q)) (dims : list string) (attrs_ time_attrs : attrs)
  : result (DataArray D) :=
  if decide (S (length coord) = length dims) then
    if decide (head dims = Some "time"%string) then
      Ok (mkDataArray data dims time time_attrs
            (list_to_map (zip (tail dims) (map (fun d => Coord d ∅) coord)))
            attrs_)
    else Raise AttributeError
  else Raise ValueError.

Definition time_clip `{TimeLib} {A B} (inp : pyval (list A)) (tint : pyval B)
  : result (DataArray (list A)) :=
  match inp with
  | PDataArray inp =>
      '(t_start, t_stop) ← time_clip_bounds tint;
      t_min ← astropy_datetime64 t_start;
      let idx_min := bisect_left (da_time inp) t_min in
      t_max ← astropy_datetime64 t_stop;
      let idx_max := bisect_right (da_time inp) t_max in
      let time := py_slice idx_min idx_max (da_time inp) in
      coord ← (if decide (1 < S (size (da_coords inp)))
               then mapM (fun k => c ← of_option KeyError (da_coords inp !! k);
                                   Ok (c_data c))
                         (tail (da_dims inp))
               else Ok []);
      DataArray_of_coords (py_slice idx_min idx_max (da_data inp)) time coord
        (da_dims inp) (da_attrs inp) (da_time_attrs inp)
  | _ => Raise TypeError
  end.

(** ** pyrf/norm.py *)


(** ** pyrf/extend_tint.py *)

(** [Time(date_parse(tint_bound), format="datetime").unix] *)
Definition unix_of_bound `{TimeLib} (tint_bound : scalar) : result Q :=
  d ← parser_parse tint_bound; astropy_unix d.

Definition extend_tint `{TimeLib} (tint : list scalar) (ext : option (list Q))
  : result (list string) :=
  let ext := match ext with None => [-60; 60]%Q | Some ext => ext end in
  bounds ← mapM unix_of_bound tint;
  match bounds with
  | [start_time; end_time] =>
      e0 ← py_index ext 0;
      e1 ← py_index ext 1;
      let start_time := (start_time + e0)%Q in
      let end_time := (end_time + e1)%Q in
      Ok [astropy_iso start_time; astropy_iso end_time]
  | _ => Raise ValueError
  end.

(** A time library whose date strings are decimal counts of seconds; it is
    used to run the functions above on examples. *)
Definition seconds_parse (s : scalar) : result scalar :=
  match s with
  | SStr s => match NilZero.int_of_string s with
              | Some n => Ok (SDatetime (Z.of_int n))
              | None => Raise ValueError
              end
  | _ => Raise TypeError
  end.

Definition seconds_of_datetime (s : scalar) : result Z :=
  match s with SDatetime t => Ok t | _ => Raise ValueError end.

Definition seconds_clock : TimeLib := {|
  parser_parse := seconds_parse;
  astropy_datetime64 := seconds_of_datetime;
  astropy_unix := fun s => inject_Z <$> seconds_of_datetime s;
  astropy_iso := fun u => format_d (Qfloor u)
|}.

(** ** numpy arrays with a shape *)

(** The elements in row-major order. *)
Record ndarray := mkArray { shape : list nat; flat : list Q }.

Definition ndim (a : ndarray) : nat := length (shape a).

Definition prod_list (l : list nat) : nat := foldr Nat.mul 1 l.

(** [np.reshape(a, s)] *)
Definition reshape (a : ndarray) (s : list nat) : result ndarray :=
  if decide (prod_list s = prod_list (shape a)) then Ok (mkArray s (flat a))
  else Raise ValueError.

(** [np.zeros(shape)] *)
Definition zeros (s : list nat) : ndarray := mkArray s (replicate (prod_list s) 0%Q).

(** Consecutive blocks of [n] elements. *)
Fixpoint chunks_fuel (fuel n : nat) (l : list Q) : list (list Q) :=
  match fuel, l with
  | 0, _ | _, [] => []
  | S fuel, _ => take n l :: chunks_fuel fuel n (drop n l)
  end.

Definition chunks (n : nat) (l : list Q) : list (list Q) :=
  chunks_fuel (length l) n l.

(** [a[:, i]] for an array of at least two dimensions: the shape loses its
    second entry. *)
Definition axis1_get (i : nat) (a : ndarray) : ndarray :=
  match shape a with
  | n0 :: n1 :: rest =>
      mkArray (n0 :: rest)
        (concat (map (fun row => py_slice (i * prod_list rest)
                                   (S i * prod_list rest) row)
                     (chunks (n1 * prod_list rest) (flat a))))
  | _ => a
  end.

(** [out[:, i] = w] for [w] of the shape of [out[:, i]]; anything else
    raises (numpy's broadcasting of size-one axes is not modelled). *)
Definition axis1_set (i : nat) (w out : ndarray) : result ndarray :=
  match shape out with
  | n0 :: n1 :: rest =>
      if decide (shape w = n0 :: rest) then
        if decide (i < n1) then
          Ok (mkArray (shape out)
                (concat (zip_with
                           (fun row wrow =>
                              take (i * prod_list rest) row ++ wrow
                              ++ drop (S i * prod_list rest) row)
                           (chunks (n1 * prod_list rest) (flat out))
                           (chunks (prod_list rest) (flat w)))))
        else Raise IndexError
      else Raise ValueError
  | _ => Raise IndexError
  end.

(** ** scipy *)

(** [signal_medfilt v k] is [scipy.signal.medfilt(v, k)]. *)
Class SciPy := {
  signal_medfilt : ndarray -> Z -> result ndarray
}.

(** ** build/lib/pyrfu/pyrf/medfilt.py *)

(** The checks and conversions of [n_pts] before the filter is called. *)
Definition medfilt_window (n_pts : scalar) : result Z :=
  n_pts ← match n_pts with
          | SInt n => Ok n
          | SFloat x => Ok (Qfloor x)
          | _ => Raise TypeError
          end;
  let n_pts := if (n_pts mod 2 =? 0)%Z then (n_pts + 1)%Z else n_pts in
  Ok n_pts.

(** [xr.DataArray(data, coords=inp.coords, dims=inp.dims)] followed by
    [out.attrs = inp.attrs]: the constructor checks the number of
    dimensions and the length of every dimension coordinate. *)
Definition coords_fit_b (s : list nat) (dims : list string) (time : list Z)
    (coords : gmap string coord) : bool :=
  bool_decide (length dims = length s) &&
  bool_decide (head s = Some (length time)) &&
  forallb (fun '(k, n) => match coords !! k with
                          | Some c => bool_decide (n = length (c_data c))
                          | None => true
                          end) (zip dims s).

Definition DataArray_like {D} (data : ndarray) (inp : DataArray D)
  : result (DataArray ndarray) :=
  if coords_fit_b (shape data) (da_dims inp) (da_time inp) (da_coords inp)
  then Ok (mkDataArray data (da_dims inp) (da_time inp) (da_time_attrs inp)
             (da_coords inp) (da_attrs inp))
  else Raise ValueError.

(** The loop [for i in range(n_comp): out_data[:, i] = ...]. *)
Definition medfilt_columns `{SciPy} (inp_data : ndarray) (n_pts : Z)
    (n_comp : nat) (out_data : ndarray) : result ndarray :=
  for_loop (fun out_data i =>
              w ← signal_medfilt (axis1_get i inp_data) n_pts;
              axis1_set i w out_data)
           (seq 0 n_comp) out_data.

Definition medfilt `{SciPy} (inp : pyval ndarray) (n_pts : scalar)
  : result (DataArray ndarray) :=
  match inp with
  | PScalar SNone => Raise ValueError
  | PDataArray inp =>
      n_pts ← medfilt_window n_pts;
      nt ← of_option TypeError (head (shape (da_data inp)));
      inp_data ← (if decide (ndim (da_data inp) = 3)
                  then reshape (da_data inp) [nt; 9]
                  else Ok (da_data inp));
      '(n_comp, inp_data) ←
        match shape inp_data !! 1 with
        | Some n_comp => Ok (n_comp, inp_data)
        | None => Ok (1, mkArray (shape inp_data ++ [1]) (flat inp_data))
        end;
      let out_data := zeros (shape inp_data) in
      let n_pts := if negb (n_pts mod 2 =? 0)%Z then n_pts else (n_pts + 1)%Z in
      out_data ← medfilt_columns inp_data n_pts n_comp out_data;
      out_data ← (if decide (n_comp = 9) then reshape out_data [nt; 3; 3]
                  else Ok out_data);
      out_data ← (match shape out_data with
                  | n0 :: 1 :: rest =>
                      Ok (axis1_get 0 out_data)
                  | _ :: _ :: _ => Ok out_data
                  | _ => Raise IndexError
                  end);
      DataArray_like out_data inp
  | _ => Raise TypeError
  end.

(** A one-dimensional median filter with zero padding, as an instance of
    the filter on which to run [medfilt]. *)
Fixpoint Qinsert (x : Q) (l : list Q) : list Q :=
  match l with
  | [] => [x]
  | y :: l' => if Qle_bool x y then x :: l else y :: Qinsert x l'
  end.

Definition Qsort (l : list Q) : list Q := foldr Qinsert [] l.

Definition median_window (half : nat) (padded : list Q) (i : nat) : Q :=
  nth half (Qsort (py_slice i (i + 2 * half + 1) padded)) 0%Q.

Definition medfilt1d (v : ndarray) (k : Z) : result ndarray :=
  if (k <? 1)%Z || Z.even k then Raise ValueError
  else match shape v with
       | [n] =>
           let half := Z.to_nat (k / 2) in
           let padded := replicate half 0%Q ++ flat v ++ replicate half 0%Q in
           Ok (mkArray [n] (map (median_window half padded) (seq 0 (length (flat v)))))
       | _ => Raise ValueError
       end.

Definition scipy_1d : SciPy := {| signal_medfilt := medfilt1d |}.

(** ** numpy reductions on rationals *)

(** [np.sqrt] on the floats modelled as rationals is left to the library. *)
Class FloatLib := {
  np_sqrt : Q -> Q
}.

(** [np.median]: the middle of the sorted values, the mean of the two
    middle values for an even count, NaN for none. *)
Definition np_median (l : list Q) : qnum :=
  let s := Qsort l in
  let n := length s in
  match n with
  | 0 => None
  | _ => if Nat.even n
         then Some ((nth (n / 2 - 1) s 0 + nth (n / 2) s 0) / 2)%Q
         else Some (nth (n / 2) s 0%Q)
  end.

(** [np.std]: the square root of the mean squared deviation from the mean. *)
Definition np_std `{FloatLib} (l : list Q) : qnum :=
  match np_mean l with
  | Some mu =>
      np_sqrt <$> np_mean (map (fun v => (Qabs (v - mu) * Qabs (v - mu))%Q) l)
  | None => None
  end.

(** [np.diff] *)
Fixpoint np_diff (l : list Q) : list Q :=
  match l with
  | a :: (b :: _) as l' => (b - a)%Q :: np_diff l'
  | _ => []
  end.

(** [np.linspace(start, stop, num)] for [num = div + 1]: the last sample is
    set to [stop]. *)
Definition np_linspace (start stop : Q) (div : nat) : list Q :=
  match div with
  | 0 => [start]
  | _ => let step := ((stop - start) / inject_Z (Z.of_nat div))%Q in
         map (fun i => (inject_Z (Z.of_nat i) * step + start)%Q) (seq 0 div)
         ++ [stop]
  end.

(** ** pyrf/mean_bins.py and pyrf/median_bins.py *)

Record BinsDataset := mkBins {
  ds_bins : list qnum;
  ds_data : list qnum;
  ds_sigma : list qnum
}.

(** [y[idx_l * idx_r]] for the boolean arrays [idx_l = x > lo] and
    [idx_r = x < hi], then [np.abs]. *)
Definition idx_l (x : list Q) (lo : Q) : list bool :=
  map (fun v => negb (Qle_bool v lo)) x.

Definition idx_r (x : list Q) (hi : Q) : list bool :=
  map (fun v => negb (Qle_bool hi v)) x.

Definition bool_index (y : list Q) (mask : list bool) : list Q :=
  map fst (filter (fun p => p.2 = true) (zip y mask)).

Definition y_bins (x y : list Q) (lo hi : Q) : list Q :=
  map Qabs (bool_index y (zip_with andb (idx_l x lo) (idx_r x hi))).

(** [x_edge = np.linspace(x_sort[0], x_sort[-1], bins + 1)] *)
Definition x_edge (x : list Q) (bins : Z) : result (list Q) :=
  let x_sort := Qsort x in
  lo ← py_index x_sort 0;
  hi ← py_index x_sort (-1);
  if (bins <? 0)%Z then Raise ValueError
  else Ok (np_linspace lo hi (Z.to_nat bins)).

(** [x_edge[:-1] + np.median(np.diff(x_edge)) / 2] *)
Definition bin_centres (edges : list Q) : list qnum :=
  let half := (fun d => (d / 2)%Q) <$> np_median (np_diff edges) in
  map (fun e => (fun h => (e + h)%Q) <$> half) (take (length edges - 1) edges).

Definition mean_bins `{FloatLib} (x y : pyval (list Q)) (bins : Z)
  : result (list qnum * list qnum * BinsDataset) :=
  match x, y with
  | PDataArray x, (PScalar SNone | PDataArray _) =>
      let y := match y with PDataArray y => da_data y | _ => da_data x end in
      let x := da_data x in
      edges ← x_edge x bins;
      if decide (length y = length x) then
        let ms := map (fun i =>
                         let yb := y_bins x y (nth i edges 0%Q)
                                     (nth (S i) edges 0%Q) in
                         (np_mean yb, np_std yb))
                      (seq 0 (Z.to_nat bins)) in
        let centres := bin_centres edges in
        Ok (centres, map fst ms, mkBins centres (map fst ms) (map snd ms))
      else if decide (bins = 0%Z)
        then Ok ([], [], mkBins [] [] [])
        else Raise IndexError
  | _, _ => Raise AssertionError
  end.

Definition scalar_num (s : scalar) : result Q :=
  match s with
  | SInt n => Ok (inject_Z n)
  | SFloat v => Ok v
  | _ => Raise TypeError
  end.

(** [x.data] for a DataArray, the array itself otherwise; a plain list
    fails when it is compared with a bin edge. *)
Definition array_data (v : pyval (list Q)) : result (list Q) :=
  match v with
  | PDataArray d => Ok (da_data d)
  | PNdarray l => mapM scalar_num l
  | _ => Raise TypeError
  end.

Definition median_bins `{FloatLib} (x y : pyval (list Q)) (bins : Z)
  : result BinsDataset :=
  match x with
  | PScalar SNone => Raise ValueError
  | _ =>
      let y := match y with PScalar SNone => x | _ => y end in
      x ← array_data x;
      y ← array_data y;
      edges ← x_edge x bins;
      if decide (length y = length x) then
        let ms := map (fun i =>
                         let yb := y_bins x y (nth i edges 0%Q)
                                     (nth (S i) edges 0%Q) in
                         (np_median yb, np_std yb))
                      (seq 0 (Z.to_nat bins)) in
        Ok (mkBins (bin_centres edges) (map fst ms) (map snd ms))
      else if decide (bins = 0%Z)
        then Ok (mkBins [] [] [])
        else Raise IndexError
  end.

(** ** mms/get_feeps_omni.py *)

Abbreviation matrix := (list (list qnum)).

(** The loaders of the package that this file calls:
    [get_feeps_active_eyes(var, tint, mms_id)] returns the dict of the
    active sensors, [get_feeps_oneeye(tar_var, mms_id, eye, tint)] the time
    series of one eye (time by energy). *)
Record FeepsVar := mkVar { v_dtype : string; v_tmmode : string; v_lev : string }.

Class Feeps := {
  get_feeps_active_eyes : FeepsVar -> list string -> Z -> result (gmap string (list Z));
  get_feeps_oneeye : string -> Z -> string -> list string -> result (DataArray matrix)
}.

Definition energies_electron : list Q :=
  [33.2; 51.90; 70.6; 89.4; 107.1; 125.2; 146.5; 171.3;
   200.2; 234.0; 273.4; 319.4; 373.2; 436.0; 509.2; 575.8]%Q.

Definition energies_ion : list Q :=
  [57.9; 76.8; 95.4; 114.1; 133.0; 153.7; 177.6;
   205.1; 236.7; 273.2; 315.4; 363.8; 419.7; 484.2; 558.6; 609.9]%Q.

Definition e_corr : gmap string (list Q) :=
  {[ "e"%string := [14.0; -1.0; -3.0; -3.0]%Q;
     "i"%string := [0.0; 0.0; 0.0; 0.0]%Q ]}.

Definition g_fact : gmap string (list Q) :=
  {[ "e"%string := [1.0; 1.0; 1.0; 1.0]%Q;
     "i"%string := [0.84; 1.0; 1.0; 1.0]%Q ]}.

(** [s[0]] on a string *)
Definition first_char (s : string) : result string :=
  match s with
  | String c _ => Ok (String c EmptyString)
  | EmptyString => Raise IndexError
  end.

(** [mask.data = np.tile(mask.data[:, 0], (mask.shape[1], 1)).T] *)
Definition tile_first_column (mask : matrix) : result matrix :=
  col ← mapM (fun row => py_index row 0) mask;
  Ok (map (replicate (length (hd [] mask))) col).

Definition same_shape (a b : matrix) : bool :=
  bool_decide (map length a = map length b).

(** [top.data[mask.data == 1] = np.nan] *)
Definition set_nan_where_one (data mask : matrix) : result matrix :=
  if same_shape data mask then
    Ok (zip_with (zip_with (fun v m => if q_is_one m then qnan else v)) data mask)
  else Raise IndexError.

(** The body of the two loops over the sensors: one eye, cleaned of the
    samples that its mask flags. *)
Definition masked_eye `{Feeps} (data_units : string) (var : FeepsVar)
    (specie : string) (mms_id : Z) (tint : list string) (eye : string)
  : result (DataArray matrix) :=
  let suffix := (specie ++ "_" ++ v_tmmode var ++ "_" ++ v_lev var)%string in
  top ← get_feeps_oneeye (data_units ++ suffix)%string mms_id eye tint;
  mask ← get_feeps_oneeye ("mask" ++ suffix)%string mms_id eye tint;
  mask_data ← tile_first_column (da_data mask);
  data ← set_nan_where_one (da_data top) mask_data;
  Ok (mkDataArray data (da_dims top) (da_time top) (da_time_attrs top)
        (da_coords top) (da_attrs top)).

(** The state of a loop over sensors: the dict filled so far and the eye
    loaded last (unbound before the first iteration). *)
Definition eyes_loop `{Feeps} (data_units : string) (var : FeepsVar)
    (specie : string) (mms_id : Z) (tint : list string) (side : string)
    (sensors : list Z)
  : result (gmap Z (DataArray matrix) * option (DataArray matrix)) :=
  for_loop (fun '(it, _) sen =>
              eye ← masked_eye data_units var specie mms_id tint
                      (side ++ "-" ++ format_d sen)%string;
              Ok (<[sen := eye]> it, Some eye))
           sensors (∅, None).

(** [dalleyes[..., i] = eye]: the eye must have the shape of the slot. *)
Definition set_slot (shape_of : matrix) (eye : DataArray matrix)
    (slots : list matrix) : result (list matrix) :=
  if same_shape (da_data eye) shape_of then Ok (slots ++ [da_data eye])
  else Raise ValueError.

(** [np.nanmean(dalleyes, axis=2)] *)
Definition nanmean_slots (shape_of : matrix) (slots : list matrix) : matrix :=
  imap (fun t row =>
          imap (fun e _ =>
                  np_nanmean (map (fun s => nth e (nth t s []) qnan) slots))
               row)
       shape_of.

(** The arguments of the final
    [xr.DataArray(flux_omni, coords=[time, energies], dims=...)]: the
    function passes the whole eye of the first top sensor as [time]; the
    checks that the constructor makes on its coordinates are the library's
    and are not modelled. *)
Record OmniArray := mkOmni {
  omni_data : matrix;
  omni_time : DataArray matrix;
  omni_energy : list Q
}.

Definition get_feeps_omni `{Feeps} (tar_var : string) (mms_id : Z)
    (tint : list string) : result OmniArray :=
  let parts := split_on "_" tar_var in
  data_units ← py_index parts 0;
  dtype ← py_index parts 1;
  tmmode ← py_index parts 2;
  lev ← py_index parts 3;
  let var := mkVar dtype tmmode lev in
  specie ← first_char dtype;
  let energies := if decide (dtype = "electron"%string)
                  then energies_electron else energies_ion in
  corr ← (c ← of_option KeyError (e_corr !! specie); py_index c (mms_id - 1));
  let energies := map (fun e => (e + corr)%Q) energies in
  active_eyes ← get_feeps_active_eyes var tint mms_id;
  top_sensors ← of_option KeyError (active_eyes !! "top"%string);
  bot_sensors ← of_option KeyError (active_eyes !! "bottom"%string);
  '(top_it, top) ← eyes_loop data_units var specie mms_id tint "top" top_sensors;
  '(bot_it, bot) ← eyes_loop data_units var specie mms_id tint "bottom" bot_sensors;
  top ← of_option NameError top;
  let tsen := last top_sensors in
  dalleyes ← for_loop (fun slots tsen =>
                         eye ← of_option KeyError (top_it !! tsen);
                         set_slot (da_data top) eye slots)
                      top_sensors [];
  dalleyes ← for_loop (fun slots (bsen : Z) =>
                         tsen ← of_option NameError tsen;
                         eye ← of_option KeyError (bot_it !! tsen);
                         set_slot (da_data top) eye slots)
                      bot_sensors dalleyes;
  let flux_omni := nanmean_slots (da_data top) dalleyes in
  g ← (g ← of_option KeyError (g_fact !! specie); py_index g (mms_id - 1));
  let flux_omni := map (map (qscale g)) flux_omni in
  first ← py_index top_sensors 0;
  time ← of_option KeyError (top_it !! first);
  Ok (mkOmni flux_omni time energies).





(** ** Vectors and matrices of floats *)

Inductive farr :=
| F1 (l : list fnum)
| F2 (l : list (list fnum))
| F3 (l : list (list (list fnum)))
| F4 (l : list (list (list (list fnum)))).

Definition vec3 : Type := fnum * fnum * fnum.
Definition mat3 : Type := vec3 * vec3 * vec3.

Definition vec3_of_list (l : list fnum) : result vec3 :=
  match l with
  | [a; b; c] => Ok (a, b, c)
  | _ => Raise ValueError
  end.

Definition list_of_vec3 (v : vec3) : list fnum :=
  let '(a, b, c) := v in [a; b; c].

Definition mat3_of_lists (l : list (list fnum)) : result mat3 :=
  match l with
  | [r0; r1; r2] =>
      r0 ← vec3_of_list r0; r1 ← vec3_of_list r1; r2 ← vec3_of_list r2;
      Ok (r0, r1, r2)
  | _ => Raise ValueError
  end.

Definition lists_of_mat3 (m : mat3) : list (list fnum) :=
  let '(r0, r1, r2) := m in [list_of_vec3 r0; list_of_vec3 r1; list_of_vec3 r2].

Definition vmap (f : fnum -> fnum) (v : vec3) : vec3 :=
  let '(a, b, c) := v in (f a, f b, f c).

(** [np.sum(a * b)] on three components *)
Definition dot3 (a b : vec3) : fnum :=
  let '(a0, a1, a2) := a in
  let '(b0, b1, b2) := b in
  fadd (fadd (fmul a0 b0) (fmul a1 b1)) (fmul a2 b2).

(** [np.cross] *)
Definition cross (a b : vec3) : vec3 :=
  let '(a0, a1, a2) := a in
  let '(b0, b1, b2) := b in
  (fsub (fmul a1 b2) (fmul a2 b1),
   fsub (fmul a2 b0) (fmul a0 b2),
   fsub (fmul a0 b1) (fmul a1 b0)).

(** [np.linalg.norm] *)
Definition linalg_norm (a : vec3) : fnum := fsqrt (dot3 a a).

(** [a / np.linalg.norm(a, keepdims=True)] *)
Definition normalize (a : vec3) : vec3 :=
  vmap (fun x => fdiv x (linalg_norm a)) a.

Definition transpose (m : mat3) : mat3 :=
  let '((a00, a01, a02), (a10, a11, a12), (a20, a21, a22)) := m in
  ((a00, a10, a20), (a01, a11, a21), (a02, a12, a22)).

(** [np.matmul] *)
Definition matmul (a b : mat3) : mat3 :=
  let '(a0, a1, a2) := a in
  let '(c0, c1, c2) := transpose b in
  ((dot3 a0 c0, dot3 a0 c1, dot3 a0 c2),
   (dot3 a1 c0, dot3 a1 c1, dot3 a1 c2),
   (dot3 a2 c0, dot3 a2 c1, dot3 a2 c2)).

(** [np.matmul(np.matmul(rot, p), np.transpose(rot))] *)
Definition rotate (rot p : mat3) : mat3 :=
  matmul (matmul rot p) (transpose rot).

Definition trace (m : mat3) : fnum :=
  let '((a00, _, _), (_, a11, _), (_, _, a22)) := m in
  fadd (fadd a00 a11) a22.

Definition fin_vec (v : vec3) : Prop :=
  let '(a, b, c) := v in is_fin a /\ is_fin b /\ is_fin c.

Definition fin_mat (m : mat3) : Prop :=
  let '(r0, r1, r2) := m in fin_vec r0 /\ fin_vec r1 /\ fin_vec r2.

(** ** Helpers of the package that the files below import

    [resample(inp, ref)] puts a time series on the time line of a reference,
    which is a time series or, in one call of [rotate_tensor], a bare
    array; [calc_fs] gives the sampling frequency. *)
Inductive resample_ref :=
| RefSeries (time : list Z)
| RefArray.

Class Pyrf := {
  resample : DataArray farr -> resample_ref -> option fnum -> result (DataArray farr);
  calc_fs : DataArray farr -> result fnum
}.

(** Modelled from the spec: [ts_vec_xyz] and [ts_tensor_xyz] are not among
    the sources; they are taken to label an array with its time axis and
    the given attributes. *)
Definition ts_vec_xyz (t : list Z) (data : list (list fnum)) (attrs_ : attrs)
  : result (DataArray farr) :=
  if bool_decide (length data = length t)
     && forallb (fun row => bool_decide (length row = 3)) data
  then Ok (mkDataArray (F2 data) ["time"; "comp"]%string t ∅ ∅ attrs_)
  else Raise ValueError.

Definition ts_tensor_xyz (t : list Z) (data : list mat3) : DataArray farr :=
  mkDataArray (F3 (map lists_of_mat3 data))
    ["time"; "comp_h"; "comp_v"]%string t ∅ ∅ ∅.

(** A resampling that returns the series as it is, and a constant sampling
    frequency, used to run the functions below on examples. *)
Definition example_pyrf : Pyrf := {|
  resample := fun d _ _ => Ok d;
  calc_fs := fun _ => Ok (Fin 1)
|}.

(** ** pyrf/convert_fac.py *)

(** [len(a)] *)
Definition farr_len (a : farr) : nat :=
  match a with
  | F1 l => length l
  | F2 l => length l
  | F3 l => length l
  | F4 l => length l
  end.

(** The rows of a two-dimensional array as vectors of three components, for
    [np.cross]. *)
Definition rows3 (a : farr) : result (list vec3) :=
  match a with
  | F2 l => mapM vec3_of_list l
  | _ => Raise ValueError
  end.

(** The position [r]: a list or array of three numbers, or a time series. *)
Inductive position :=
| RList (l : list fnum)
| RSeries (d : DataArray farr)
| ROther.

(** One sample of the three-component branch. *)
Definition fac_basis (b_bgd r : vec3) : vec3 * vec3 * vec3 :=
  let bn := vmap (fun x => fdiv x (linalg_norm b_bgd)) b_bgd in
  let r_par := bn in
  let r_perp_y := cross r_par r in
  let r_perp_y := normalize r_perp_y in
  let r_perp_x := cross r_perp_y b_bgd in
  let r_perp_x := normalize r_perp_x in
  (r_perp_x, r_perp_y, r_par).

Definition fac_sample (inp_data b_bgd r : vec3) : vec3 :=
  let '(r_perp_x, r_perp_y, r_par) := fac_basis b_bgd r in
  (dot3 r_perp_x inp_data, dot3 r_perp_y inp_data, dot3 r_par inp_data).

Definition convert_fac `{Pyrf} (inp b_bgd : pyval farr) (r : position)
  : result (DataArray farr) :=
  match inp, b_bgd with
  | PScalar SNone, _ | _, PScalar SNone => Raise ValueError
  | PDataArray inp, PDataArray b_bgd =>
      b_bgd ← (if decide (farr_len (da_data inp) ≠ farr_len (da_data b_bgd))
               then fs ← calc_fs inp;
                    resample b_bgd (RefSeries (da_time inp)) (Some fs)
               else Ok b_bgd);
      let t := da_time inp in
      b_rows ← rows3 (da_data b_bgd);
      r ← match r with
          | RList l =>
              if decide (length l = 3)
              then rv ← vec3_of_list l;
                   Ok (replicate (farr_len (da_data b_bgd)) rv)
              else Raise TypeError
          | RSeries r =>
              r ← resample r (RefSeries (da_time b_bgd)) None;
              rows3 (da_data r)
          | ROther => Raise TypeError
          end;
      if decide (length r = length b_rows) then
        match da_data inp with
        | F2 rows =>
            (* (ndata, ndim) = inp_data.shape; an array without rows is
               taken to have three columns *)
            match head rows with
            | None | Some [_; _; _] =>
                inp_rows ← rows3 (da_data inp);
                if decide (length inp_rows = length b_rows) then
                  comp ← of_option AttributeError
                               (da_coords inp !! "comp"%string);
                  let outdata :=
                    zip_with (fun x br => fac_sample x br.1 br.2)
                             inp_rows (zip b_rows r) in
                  Ok (mkDataArray (F2 (map list_of_vec3 outdata))
                        ["time"; "comp"]%string t ∅
                        {[ "comp"%string := comp ]} ∅)
                else Raise ValueError
            | Some [_] =>
                (* outdata = np.zeros((3, ndata)); outdata[:, 0] = ... *)
                if decide (length rows = 3 /\ length b_rows = 3) then
                  let bases := zip_with fac_basis b_rows r in
                  let col0 := zip_with (fun x '(b, rv) =>
                                          fmul x (dot3 b.1.1 rv))
                                (map (fun row => hd NaN row) rows)
                                (zip bases r) in
                  let col1 := zip_with (fun x '(b, rv) =>
                                          fmul x (dot3 b.2 rv))
                                (map (fun row => hd NaN row) rows)
                                (zip bases r) in
                  ts_vec_xyz t
                    (zip_with (fun a b => [a; b; Fin 0]) col0 col1)
                    (da_attrs inp)
                else Raise ValueError
            | _ => Raise TypeError
            end
        | _ => Raise ValueError
        end
      else Raise ValueError
  | _, _ => Raise TypeError
  end.

(** ** pyrf/rotate_tensor.py *)

Inductive rt_arg :=
| AStr (s : string)
| ASeries (d : DataArray farr)
| AVector (l : list fnum).

Definition is_str (a : rt_arg) : bool :=
  match a with AStr _ => true | _ => false end.

Definition arg_series (a : rt_arg) : result (DataArray farr) :=
  match a with ASeries d => Ok d | _ => Raise AttributeError end.

Definition arg_column (nt : nat) (a : rt_arg) : result (list fnum) :=
  d ← arg_series a;
  match da_data d with
  | F1 l => if decide (length l = nt) then Ok l else Raise ValueError
  | _ => Raise ValueError
  end.

(** [np.reshape(p_all.data, (p_all.shape[0], 3, 3))] of one row *)
Definition mat3_of_row (row : list fnum) : result mat3 :=
  match row with
  | [a; b; c; d; e; f; g; h; i] => Ok ((a, b, c), (d, e, f), (g, h, i))
  | _ => Raise ValueError
  end.

(** The first part of the function: the flag, its position, the time line,
    the tensors and the reference that [resample] will receive. *)
Definition load_tensor (args : list rt_arg)
  : result (string * nat * list Z * list mat3 * resample_ref) :=
  a1 ← py_index args 1;
  match a1 with
  | AStr rot_flag =>
      a0 ← py_index args 0;
      p_all ← arg_series a0;
      let p_times := da_time p_all in
      match da_data p_all with
      | F3 l =>
          p_tensor ← mapM mat3_of_lists l;
          Ok (rot_flag, 1, p_times, p_tensor, RefArray)
      | F2 l =>
          p_tensor ← mapM mat3_of_row l;
          Ok (rot_flag, 1, p_times, p_tensor, RefSeries p_times)
      | F1 l =>
          if decide (l = []) then Ok (rot_flag, 1, p_times, [], RefSeries p_times)
          else Raise ValueError
      | F4 _ => Raise ValueError
      end
  | _ =>
      a6 ← py_index args 6;
      match a6 with
      | AStr rot_flag =>
          a0 ← py_index args 0; a1 ← py_index args 1; a2 ← py_index args 2;
          a3 ← py_index args 3; a4 ← py_index args 4; a5 ← py_index args 5;
          d0 ← arg_series a0;
          let p_times := da_time d0 in
          let nt := length p_times in
          xx ← arg_column nt a0; xy ← arg_column nt a1; xz ← arg_column nt a2;
          yy ← arg_column nt a3; yz ← arg_column nt a4; zz ← arg_column nt a5;
          let p_tensor :=
            map (fun i =>
                   let g := fun c => nth i c NaN in
                   ((g xx, g xy, g xz), (g xy, g yy, g yz), (g xz, g yz, g zz)))
                (seq 0 nt) in
          Ok (rot_flag, 6, p_times, p_tensor, RefSeries p_times)
      | _ => Raise SystemError
      end
  end.

(** The optional last flag: [(ppeq, qqeq)]. *)
Definition secondary_flag (a : rt_arg) : result (bool * bool) :=
  match a with
  | AStr s =>
      c ← first_char s;
      if decide (c = "p"%string) then Ok (true, false)
      else if decide (c = "q"%string) then Ok (false, true)
      else Raise ValueError
  | _ => Raise ValueError
  end.

(** The two tests [if nargin == 4] and [if nargin == 9]. *)
Definition secondary_flags (args : list rt_arg) : result (bool * bool) :=
  let nargin := length args in
  '(ppeq, qqeq) ← (if decide (nargin = 4)
                   then a ← py_index args 3; secondary_flag a
                   else Ok (false, false));
  if decide (nargin = 9)
  then a ← py_index args 8; secondary_flag a
  else Ok (ppeq, qqeq).

(** One row of [rot_mat] for the flag ["fac"]. *)
Definition fac_rotation (b_back : vec3) : mat3 :=
  let b_vec := vmap (fun x => fdiv x (linalg_norm b_back)) b_back in
  let r_x := b_vec in
  let r_y := (Fin 1, Fin 0, Fin 0) in
  let r_z := cross r_x r_y in
  let r_z := normalize r_z in
  let r_y := cross r_z r_x in
  let r_y := normalize r_y in
  (r_x, r_y, r_z).

(** The rotation for the flag ["rot"] with one vector. *)
Definition rot_rotation_1 (r_x : vec3) : mat3 :=
  let r_x := normalize r_x in
  let r_y := (Fin 0, Fin 1, Fin 0) in
  let r_z := cross r_x r_y in
  let r_z := normalize r_z in
  let r_y := cross r_z r_x in
  let r_y := normalize r_y in
  (r_x, r_y, r_z).

(** The rotation for the flag ["rot"] with three vectors. *)
Definition rot_rotation_3 (r_x r_y r_z : vec3) : mat3 :=
  (normalize r_x, normalize r_y, normalize r_z).

Definition arg_vector (a : rt_arg) : result (list fnum) :=
  match a with AVector l => Ok l | _ => Raise TypeError end.

(** The rotation that makes the perpendicular diagonal terms equal. *)
Definition pp_rotation (p : mat3) : mat3 :=
  let '(_, (_, p11, p12), (_, _, p22)) := p in
  let theta := fmul (Fin 0.5) (fatan (fdiv (fsub p22 p11) (fmul (Fin 2) p12))) in
  let theta := if fisnan theta then Fin 0 else theta in
  ((Fin 1, Fin 0, Fin 0),
   (Fin 0, fcos theta, fsin theta),
   (Fin 0, fneg (fsin theta), fcos theta)).

(** The rotation that makes the perpendicular diagonal terms most unequal. *)
Definition qq_rotation (p : mat3) : mat3 :=
  let '(_, (_, p11, p12), (_, _, p22)) := p in
  let theta := fmul (Fin 0.5) (fatan (fdiv (fmul (Fin 2) p12) (fsub p22 p11))) in
  ((Fin 1, Fin 0, Fin 0),
   (Fin 0, fcos theta, fneg (fsin theta)),
   (Fin 0, fsin theta, fcos theta)).

Definition rotate_tensor `{Pyrf} (args : list rt_arg) : result (DataArray farr) :=
  let nargin := length args in
  '(rot_flag, rot_flag_pos, p_times, p_tensor, ref) ← load_tensor args;
  let nt := length p_times in
  c ← first_char rot_flag;
  '(rot_mat, ppeq, qqeq) ←
    (if decide (c = "f"%string) then
       if decide (nargin = rot_flag_pos) then Raise ValueError
       else
         b_back ← py_index args (Z.of_nat (rot_flag_pos + 1));
         b_back ← match b_back with
                  | ASeries b => resample b ref None
                  | _ => Raise TypeError
                  end;
         '(ppeq, qqeq) ← secondary_flags args;
         rows ← rows3 (da_data b_back);
         if decide (length rows = nt)
         then Ok (map fac_rotation rows, ppeq, qqeq)
         else Raise ValueError
     else if decide (c = "r"%string) then
       if decide (nargin = rot_flag_pos) then Raise ValueError
       else
         let vectors := drop (rot_flag_pos + 1) args in
         match vectors with
         | [r_x] =>
             r_x ← arg_vector r_x;
             if decide (length r_x ≠ 3) then Raise TypeError
             else r_x ← vec3_of_list r_x;
                  Ok (replicate nt (rot_rotation_1 r_x), false, false)
         | [r_x; r_y; r_z] =>
             r_x ← arg_vector r_x; r_y ← arg_vector r_y; r_z ← arg_vector r_z;
             r_x ← vec3_of_list r_x; r_y ← vec3_of_list r_y;
             r_z ← vec3_of_list r_z;
             Ok (replicate nt (rot_rotation_3 r_x r_y r_z), false, false)
         | _ => Raise TypeError
         end
     else Raise ValueError : result (list mat3 * bool * bool));
  if decide (length p_tensor = nt) then
    let p_tensor_p := zip_with rotate rot_mat p_tensor in
    let p_tensor_p := if (ppeq : bool)
                      then map (fun p => rotate (pp_rotation p) p) p_tensor_p
                      else p_tensor_p in
    let p_tensor_p := if (qqeq : bool)
                      then map (fun p => rotate (qq_rotation p) p) p_tensor_p
                      else p_tensor_p in
    let p := ts_tensor_xyz p_times p_tensor_p in
    a0 ← py_index args 0;
    d0 ← arg_series a0;
    Ok (match da_attrs d0 !! "units"%string with
        | Some u => mkDataArray (da_data p) (da_dims p) (da_time p)
                      (da_time_attrs p) (da_coords p)
                      (<["units"%string := u]> (da_attrs p))
        | None => p
        end)
  else Raise ValueError.

(** ** pyrf/match_phibe_v.py *)

(** The caller's arrays live in a store; the arguments are references. *)
Abbreviation heap := (gmap nat farr).

Definition farr_map (f : fnum -> fnum) (a : farr) : farr :=
  match a with
  | F1 l => F1 (map f l)
  | F2 l => F2 (map (map f) l)
  | F3 l => F3 (map (map (map f)) l)
  | F4 l => F4 (map (map (map (map f))) l)
  end.

Definition mu0 : fnum := Fin 1.25663706212e-6.
Definition q_e : fnum := Fin 1.602176634e-19.

Definition get_1d (h : heap) (l : nat) : result (list fnum) :=
  a ← of_option NameError (h !! l);
  match a with F1 l => Ok l | _ => Raise ValueError end.

Definition get_2d (h : heap) (l : nat) : result (list (list fnum)) :=
  a ← of_option NameError (h !! l);
  match a with F2 l => Ok l | _ => Raise IndexError end.

(** The statements after [n.data *= 1e6], with the indexing and
    broadcasting of numpy on the arrays; they only read the store. *)
Definition match_phibe_v_body (h : heap) (b_0 : fnum) (b_z int_e_dt n v : nat)
  : result (list (list fnum) * list (list fnum) * list (list fnum)) :=
  n_ ← get_1d h n;
  v_ ← get_1d h v;
  let nn_ := length n_ in
  let nv_ := length v_ in
  int_e_dt ← get_2d h int_e_dt;
  phi_e ← mapM (fun row => match row with
                           | [a] => Ok (map (fmul a) v_)
                           | _ => if decide (length row = nv_)
                                  then Ok (zip_with fmul row v_)
                                  else Raise ValueError
                           end) int_e_dt;
  b_z ← get_2d h b_z;
  col ← mapM (fun row => py_index row 0) b_z;
  let phi_b :=
    map (fun bz => map (fun nk =>
                          fdiv (fmul (fmul bz b_0) (Fin 1e-18))
                               (fmul (fmul mu0 q_e) nk)) n_) col in
  if decide (length phi_e = length phi_b \/ nn_ * nv_ = 0) then
    let corr_mat :=
      map (fun k =>
             map (fun p =>
                    fsum (zip_with
                            (fun re rb => flog10 (fdiv (fabs (nth p re NaN))
                                                       (nth k rb NaN)))
                            phi_e phi_b))
                 (seq 0 nv_))
          (seq 0 nn_) in
    Ok (corr_mat, phi_b, phi_e)
  else Raise ValueError.

(** [n] is an object whose [data] attribute is an array of the store, as
    a DataArray is: [n.data *= 1e6] multiplies that array in place.  (On a
    plain numpy array [n.data] is a buffer and the statement raises
    [TypeError].) *)
Definition match_phibe_v (b_0 : fnum) (b_z int_e_dt n v : nat) (h : heap)
  : heap * result (list (list fnum) * list (list fnum) * list (list fnum)) :=
  match h !! n with
  | Some n_data =>
      (* density in #/m^3: n.data *= 1e6 *)
      let h := <[n := farr_map (fun x => fmul x (Fin 1e6)) n_data]> h in
      (h, match_phibe_v_body h b_0 b_z int_e_dt n v)
  | None => (h, Raise NameError)
  end.

(** ** mms/calculate_epsilon.py *)

(** An [xarray.Dataset]: its data variables and coordinates refer to arrays
    of the store. *)
Record Dataset := mkDataset {
  ds_time : list Z;
  ds_vars : gmap string nat;
  ds_coords : gmap string nat;
  ds_attrs : attrs
}.

(** [ds /= c]: every data variable is divided in place. *)
Definition dataset_idiv (c : fnum) (ds : Dataset) (h : heap) : heap :=
  foldl (fun h l => match h !! l with
                    | Some a => <[l := farr_map (fun x => fdiv x c) a]> h
                    | None => h
                    end)
        h (map snd (map_to_list (ds_vars ds))).

(** [ds.name.data] *)
Definition dataset_get (h : heap) (ds : Dataset) (name : string) : result farr :=
  l ← of_option AttributeError
        (match ds_vars ds !! name with
         | Some l => Some l
         | None => ds_coords ds !! name
         end);
  of_option NameError (h !! l).

(** [10 ** x] *)
Definition fpow10 (a : fnum) : fnum :=
  match a with
  | Fin x => Fin (exp (x * ln 10))
  | PInf => PInf
  | NInf => Fin 0
  | NaN => NaN
  end.

(** [a < 0] *)
Definition fneg_sign (a : fnum) : bool :=
  match a with
  | Fin x => if Rlt_dec x 0 then true else false
  | NInf => true
  | PInf | NaN => false
  end.

(** [np.nansum] over one axis *)
Definition fnansum (l : list fnum) : fnum :=
  fsum (filter (fun x => fisnan x = false) l).

Definition m_e : fnum := Fin 9.1093837015e-31.
Definition m_p : fnum := Fin 1.67262192369e-27.

(** [np.abs(np.median(np.diff(vdf.time - n.time))).astype(float) > 0]: the
    subtraction aligns the two time axes, so that every difference of the
    common instants is zero. *)
Definition times_differ (t1 t2 : list Z) : bool :=
  let common := filter (fun t => t ∈ t2) t1 in
  match np_median (np_diff (map (fun _ => 0%Q) common)) with
  | Some m => negb (Qle_bool (Qabs m) 0)
  | None => false
  end.

(** [np.arange(a, b)] *)
Definition arange (a b : Z) : list Z :=
  map (fun i => (a + Z.of_nat i)%Z) (seq 0 (Z.to_nat (b - a))).

Definition same_length {X Y} (a : list X) (b : list Y) : result unit :=
  if decide (length a = length b) then Ok tt else Raise ValueError.

(** One pass of the first loop: the rows of [v] and [delta_v]. *)
Definition epsilon_speeds (mp : fnum) (energy_vec : list fnum) (sc : fnum)
  : result (list fnum * list fnum) :=
  let energy_log := map flog10 energy_vec in
  let v := map (fun e => fsqrt (fdiv (fmul (fmul (Fin 2) (fsub e sc)) q_e) mp))
               energy_vec in
  e0 ← py_index energy_log 0; e1 ← py_index energy_log 1;
  let temp0 := fsub (fmul (Fin 2) e0) e1 in
  l1 ← py_index energy_log (-1); l2 ← py_index energy_log (-2);
  let temp33 := fsub (fmul (Fin 2) l1) l2 in
  let energy_all := [temp0] ++ energy_log ++ [temp33] in
  let diff_en_all := (fix diff (l : list fnum) : list fnum :=
                        match l with
                        | a :: (b :: _) as l' => fsub b a :: diff l'
                        | _ => []
                        end) energy_all in
  let up := py_slice 1 34 diff_en_all in
  let lo := py_slice 0 33 diff_en_all in
  _ ← same_length energy_log up;
  _ ← same_length energy_log lo;
  let energy_upper :=
    zip_with (fun e d => fpow10 (fadd e (fdiv d (Fin 2)))) energy_log up in
  let energy_lower :=
    zip_with (fun e d => fpow10 (fsub e (fdiv d (Fin 2)))) energy_log lo in
  let speed := fun e => fsqrt (fdiv (fmul (fmul (Fin 2) q_e) e) mp) in
  let zero_nan := fun x => if fisnan x then Fin 0 else x in
  let v_upper := map (fun e => zero_nan (speed e)) energy_upper in
  let v_lower := map (fun e => zero_nan (speed e)) energy_lower in
  Ok (v, zip_with fsub v_upper v_lower).

(** The statements after the two divisions in place; they only read the
    store.  [np.squeeze] is taken to leave the two angular axes in place. *)
Definition calculate_epsilon_body (h : heap) (vdf model_vdf : Dataset)
    (n sc_pot : DataArray farr) (int_energies : list Z)
  : result (DataArray farr) :=
  vdf_data ← dataset_get h vdf "data";
  model_data ← dataset_get h model_vdf "data";
  vdf_diff ← match vdf_data, model_data with
             | F4 a, F4 b =>
                 if bool_decide (map (map (map length)) a = map (map (map length)) b)
                 then Ok (zip_with (zip_with (zip_with (zip_with
                            (fun x y => fabs (fsub x y))))) a b)
                 else Raise ValueError
             | _, _ => Raise ValueError
             end;
  specie ← of_option KeyError (ds_attrs vdf !! "specie"%string);
  '(mp, sc_pot_data) ←
    (if decide (specie = "e"%string) then Ok (m_e, da_data sc_pot)
     else if decide (specie = "i"%string)
          then Ok (m_p, farr_map fneg (da_data sc_pot))
          else Raise ValueError : result (fnum * farr));
  sc_pot_data ← match sc_pot_data with F1 l => Ok l | _ => Raise ValueError end;
  phi ← dataset_get h vdf "phi";
  phi ← match phi with F2 l => Ok l | _ => Raise IndexError end;
  phi0 ← py_index phi 0;
  let n_ph := length phi0 in
  energy_arr ← dataset_get h vdf "energy";
  energy_arr ← match energy_arr with F2 l => Ok l | _ => Raise IndexError end;
  let nt := length (ds_time vdf) in
  rows ← mapM (fun it =>
                 energy_vec ← py_index energy_arr (Z.of_nat it);
                 sc ← py_index sc_pot_data (Z.of_nat it);
                 epsilon_speeds mp energy_vec sc)
              (seq 0 nt);
  let v := map (fun r => map (fun x => if fneg_sign x then Fin 0 else x) r.1) rows in
  let delta_v := map snd rows in
  let delta_ang := fmul (fdiv (fmul (Fin 11.25) (Fin PI)) (Fin 180))
                        (fdiv (fmul (Fin 11.25) (Fin PI)) (Fin 180)) in
  theta_k ← dataset_get h vdf "theta";
  theta_k ← match theta_k with F1 l => Ok l | _ => Raise ValueError end;
  _ ← (if decide (n_ph = length theta_k) then Ok tt else Raise ValueError);
  let m_psd2_n :=
    map (fun t => fmul (Fin 1) (fsin (fdiv (fmul t (Fin PI)) (Fin 180)))) theta_k in
  epsilon ← mapM (fun it =>
      for_loop (fun acc ii =>
                  d_it ← py_index vdf_diff (Z.of_nat it);
                  tmp ← py_index d_it ii;
                  prod ← mapM (fun row => _ ← same_length row m_psd2_n;
                                          Ok (zip_with fmul row m_psd2_n)) tmp;
                  let cols := map (fun j => fnansum (map (fun row => nth j row NaN) prod))
                                  (seq 0 (length m_psd2_n)) in
                  v_it ← py_index v (Z.of_nat it); v_ii ← py_index v_it ii;
                  dv_it ← py_index delta_v (Z.of_nat it); dv_ii ← py_index dv_it ii;
                  Ok (fadd acc (fmul (fmul (fmul (fnansum cols) (fmul v_ii v_ii))
                                           dv_ii) delta_ang)))
               int_energies (Fin 0))
    (seq 0 nt);
  n_data ← match da_data n with F1 l => Ok l | _ => Raise ValueError end;
  _ ← same_length epsilon n_data;
  let epsilon := zip_with (fun e nk => fdiv e (fmul (fmul (Fin 1e6) nk) (Fin 2)))
                          epsilon n_data in
  Ok (mkDataArray (F1 epsilon) ["time"]%string (ds_time vdf) ∅ ∅ ∅).

(** [n] and [sc_pot] are read only and are passed by value; the arrays of
    the two datasets live in the store. *)
Definition calculate_epsilon `{Pyrf} (vdf model_vdf : Dataset)
    (n sc_pot : DataArray farr) (en_channels : option (list Z)) (h : heap)
  : heap * result (DataArray farr) :=
  if times_differ (ds_time vdf) (da_time n) then (h, Raise RuntimeError)
  else
    match (match en_channels with
           | Some c => a ← py_index c 0; b ← py_index c 1; Ok (arange a (b + 1))
           | None => Ok (arange 2 33)
           end) with
    | Raise e => (h, Raise e)
    | Ok int_energies =>
        match resample sc_pot (RefSeries (da_time n)) None with
        | Raise e => (h, Raise e)
        | Ok sc_pot =>
            (* model_vdf /= 1e18; vdf /= 1e18 *)
            let h := dataset_idiv (Fin 1e18) model_vdf h in
            let h := dataset_idiv (Fin 1e18) vdf h in
            (h, calculate_epsilon_body h vdf model_vdf n sc_pot int_energies)
        end
    end.

(** ** Inputs for examples *)

(** A distribution and its model of one sample each, and the store that
    holds their arrays. *)
Definition example_vdf : Dataset :=
  mkDataset [0%Z] {[ "data"%string := 10 ]} ∅ {[ "specie"%string := "e"%string ]}.

Definition example_model_vdf : Dataset :=
  mkDataset [0%Z] {[ "data"%string := 11 ]} ∅ {[ "specie"%string := "e"%string ]}.

Definition example_scalar : DataArray farr :=
  mkDataArray (F1 [Fin 1]) ["time"]%string [0%Z] ∅ ∅ ∅.

Definition example_vdf_heap : heap :=
  {[ 10 := F4 [[[[Fin 2]]]]; 11 := F4 [[[[Fin 1]]]] ]}.

(** A series of four samples of two components, at the instants 1 to 4. *)
Definition example_series : DataArray (list (list Q)) :=
  mkDataArray [[1; 2]; [3; 4]; [5; 6]; [7; 8]]%Q ["time"; "comp"]%string
    [1; 2; 3; 4]%Z ∅ {[ "comp"%string := Coord [0; 1]%Q ∅ ]} ∅.

(** The same series with a unit on its component coordinate. *)
Definition example_series_units : DataArray (list (list Q)) :=
  mkDataArray [[1; 2]; [3; 4]; [5; 6]; [7; 8]]%Q ["time"; "comp"]%string
    [1; 2; 3; 4]%Z ∅
    {[ "comp"%string := Coord [0; 1]%Q {[ "units"%string := "km"%string ]} ]} ∅.

(** A scalar series of three samples. *)
Definition example_signal : DataArray ndarray :=
  mkDataArray (mkArray [3] [5; 1; 3]%Q) ["time"]%string [1; 2; 3]%Z ∅ ∅ ∅.

(** A square root with six decimals. *)
Definition example_floatlib : FloatLib := {|
  np_sqrt := fun x =>
    (inject_Z (Z.sqrt (Qfloor (x * inject_Z (10 ^ 12)))) / inject_Z (10 ^ 6))%Q
|}.

Definition example_x : DataArray (list Q) :=
  mkDataArray [1; 2; 3; 4; 5]%Q ["time"]%string [1; 2; 3; 4; 5]%Z ∅ ∅ ∅.

Definition example_y : DataArray (list Q) :=
  mkDataArray [10; 20; 30; 40; 50]%Q ["time"]%string [1; 2; 3; 4; 5]%Z ∅ ∅ ∅.




(** * Predicates and real-valued counterparts used in the statements *)

Definition sorted_nth (a : list Z) : Prop :=
  forall i j, i <= j -> j < length a -> (nth i a 0 <= nth j a 0)%Z.

Definition coord_values (m : gmap string coord) (k : string) : list Q :=
  match m !! k with Some c => c_data c | None => [] end.

(** The coordinates of [inp] are those of its dimensions after the first. *)
Definition dim_coords {D} (inp : DataArray D) : Prop :=
  forall k, is_Some (da_coords inp !! k) <-> k ∈ tail (da_dims inp).

Definition in_interval (t_min t_max : Z) {A} (s : Z * A) : Prop :=
  (t_min <= s.1 <= t_max)%Z.

#[global] Instance in_interval_dec t_min t_max {A} (s : Z * A) :
  Decision (in_interval t_min t_max s).
Proof. unfold in_interval. apply _. Defined.

(** The date string [astropy_iso u] reads back as the instant [u]. *)
Definition round_trips `{TimeLib} (u : Q) : Prop :=
  unix_of_bound (SStr (astropy_iso u)) = Ok u.

Definition odd_window (n : Z) : Z :=
  if (n mod 2 =? 0)%Z then (n + 1)%Z else n.


#[global] Instance Qlt_dec (a b : Q) : Decision (a < b)%Q.
Proof. destruct (Qlt_le_dec a b); [left|right]; [assumption|now apply Qle_not_lt]. Defined.

#[global] Instance Qle_dec (a b : Q) : Decision (a <= b)%Q.
Proof. destruct (Qlt_le_dec b a); [right|left]; [now apply Qlt_not_le|assumption]. Defined.

(** The samples of [np.linspace]: the [i]-th for [i < div], then [stop]. *)
Definition linspace_at (start stop : Q) (div i : nat) : Q :=
  if decide (i < div)
  then (inject_Z (Z.of_nat i) * ((stop - start) / inject_Z (Z.of_nat div)) + start)%Q
  else stop.

(** The absolute values of [y] at the indices where [x] lies strictly
    between [lo] and [hi]. *)
Definition strictly_between (x y : list Q) (lo hi : Q) : list Q :=
  map (fun p => Qabs p.2)
      (filter (fun p => (lo < p.1)%Q /\ (p.1 < hi)%Q) (zip x y)).

(** [xk] is the value of a bin edge, a minimum or a maximum of [x]. *)
Definition on_edge (x edges : list Q) (xk : Q) : Prop :=
  (exists j e, edges !! j = Some e /\ (xk == e)%Q) \/
  (forall z, In z x -> (xk <= z)%Q) \/
  (forall z, In z x -> (z <= xk)%Q).

Definition set_data {D} (d : DataArray D) (v : D) : DataArray D :=
  mkDataArray v (da_dims d) (da_time d) (da_time_attrs d) (da_coords d)
    (da_attrs d).





Definition example_heap : heap :=
  {[ 0 := F2 [[Fin 1]]; 1 := F2 [[Fin 1]]; 2 := F1 [Fin 1]; 3 := F1 [Fin 1] ]}.

Definition rvec : Type := R * R * R.

Definition Fv (u : rvec) : vec3 := let '(a, b, c) := u in (Fin a, Fin b, Fin c).

Definition rdot (u v : rvec) : R :=
  let '(u0, u1, u2) := u in let '(v0, v1, v2) := v in
  (u0 * v0 + u1 * v1 + u2 * v2)%R.

Definition rcross (u v : rvec) : rvec :=
  let '(u0, u1, u2) := u in let '(v0, v1, v2) := v in
  (u1 * v2 - u2 * v1, u2 * v0 - u0 * v2, u0 * v1 - u1 * v0)%R.

Definition rscale (u : rvec) (s : R) : rvec :=
  let '(u0, u1, u2) := u in (u0 / s, u1 / s, u2 / s)%R.

Definition rnorm (u : rvec) : R := sqrt (rdot u u).

Definition runit (u : rvec) : rvec := rscale u (rnorm u).

(** The basis that [fac_basis] computes on reals. *)
Definition rfac_y (b r : rvec) : rvec := runit (rcross (runit b) r).
Definition rfac_x (b r : rvec) : rvec := runit (rcross (rfac_y b r) b).

Definition rfac_sample (v b r : rvec) : rvec :=
  (rdot (rfac_x b r) v, rdot (rfac_y b r) v, rdot (runit b) v).

(** A two-dimensional array of finite rows of three components. *)
Definition F2v (vs : list rvec) : farr :=
  F2 (map (fun v => list_of_vec3 (Fv v)) vs).

(** The rows of the position [r] after tiling or resampling. *)
Definition position_is `{Pyrf} (r : position) (b_bgd : DataArray farr)
    (rs : list rvec) : Prop :=
  match r with
  | RList l =>
      exists rv, l = list_of_vec3 (Fv rv) /\
                 rs = replicate (farr_len (da_data b_bgd)) rv
  | RSeries d =>
      exists d', resample d (RefSeries (da_time b_bgd)) None = Ok d' /\
                 da_data d' = F2v rs
  | ROther => False
  end.

Definition rmat : Type := rvec * rvec * rvec.

Definition Fm (m : rmat) : mat3 := let '(r0, r1, r2) := m in (Fv r0, Fv r1, Fv r2).

Definition rtranspose (m : rmat) : rmat :=
  let '((a00, a01, a02), (a10, a11, a12), (a20, a21, a22)) := m in
  ((a00, a10, a20), (a01, a11, a21), (a02, a12, a22)).

Definition rmatmul (a b : rmat) : rmat :=
  let '(a0, a1, a2) := a in
  let '(c0, c1, c2) := rtranspose b in
  ((rdot a0 c0, rdot a0 c1, rdot a0 c2),
   (rdot a1 c0, rdot a1 c1, rdot a1 c2),
   (rdot a2 c0, rdot a2 c1, rdot a2 c2)).

Definition rrotate (rot p : rmat) : rmat :=
  rmatmul (rmatmul rot p) (rtranspose rot).

Definition rtrace (m : rmat) : R :=
  let '((a00, _, _), (_, a11, _), (_, _, a22)) := m in (a00 + a11 + a22)%R.

Definition orthonormal (m : rmat) : Prop :=
  let '(r0, r1, r2) := m in
  rdot r0 r0 = 1%R /\ rdot r1 r1 = 1%R /\ rdot r2 r2 = 1%R /\
  rdot r0 r1 = 0%R /\ rdot r0 r2 = 0%R /\ rdot r1 r2 = 0%R.


(** The rotation about the first axis with cosine [c] and sine [s]. *)
Definition rplane (c s : R) : rmat :=
  ((1, 0, 0), (0, c, s), (0, - s, c))%R.

(** The angle of the ["qq"] rotation is defined: the two quantities whose
    quotient it takes do not vanish together. *)
Definition qq_defined (p : rmat) : Prop :=
  let '(_, (_, p11, p12), (_, _, p22)) := p in
  ~ (p12 = 0%R /\ p22 = p11).





(** Time series of one tensor, stored as a row of nine columns. *)
Definition example_tensor : DataArray farr :=
  mkDataArray (F2 [[Fin 1; Fin 0; Fin 0; Fin 0; Fin 1; Fin 0; Fin 0; Fin 0; Fin 1]])
    ["time"; "comp"]%string [0%Z] ∅ ∅ ∅.


Definition example_field_z : DataArray farr :=
  mkDataArray (F2v [(0, 0, 1)%R]) ["time"; "comp"]%string [0%Z] ∅ ∅ ∅.


Definition example_fac_inp : DataArray farr :=
  mkDataArray (F2v [(1, 2, 3)%R]) ["time"; "comp"]%string [0%Z] ∅
    {[ "comp"%string := Coord [0; 1; 2]%Q ∅ ]} ∅.

(** * Further definitions: results in closed form and the other routines *)

(** ** time_clip in closed form *)

(** The series that [time_clip] returns for the bounds [t_min] and [t_max]:
    the samples in the closed interval, the dimension coordinates rebuilt
    from their values. *)
Definition clipped {A} (t_min t_max : Z) (inp : DataArray (list A))
  : DataArray (list A) :=
  mkDataArray
    (map snd (filter (in_interval t_min t_max) (zip (da_time inp) (da_data inp))))
    (da_dims inp)
    (filter (fun t => (t_min <= t <= t_max)%Z) (da_time inp))
    (da_time_attrs inp)
    (list_to_map
       (zip (tail (da_dims inp))
            (map (fun k => Coord (coord_values (da_coords inp) k) ∅)
                 (tail (da_dims inp)))))
    (da_attrs inp).

(** A series as [xarray] builds it: one row of data per instant, sorted
    instants, time as first dimension, one coordinate per other dimension. *)
Definition well_formed {A} (inp : DataArray (list A)) : Prop :=
  Sorted Z.le (da_time inp) /\
  length (da_data inp) = length (da_time inp) /\
  head (da_dims inp) = Some "time"%string /\
  dim_coords inp.

(** ** Further inputs for examples *)

(** A series of two samples stored as a column. *)
Definition example_column : DataArray ndarray :=
  mkDataArray (mkArray [2; 1] [5; 1]%Q) ["time"; "comp"]%string [1; 2]%Z ∅ ∅ ∅.

(** A constant series and a series of the same length. *)
Definition example_const : DataArray (list Q) :=
  mkDataArray [3; 3; 3]%Q ["time"]%string [1; 2; 3]%Z ∅ ∅ ∅.

Definition example_ramp : DataArray (list Q) :=
  mkDataArray [1; 2; 3]%Q ["time"]%string [1; 2; 3]%Z ∅ ∅ ∅.

(** A series of one sample stored as a column of floats. *)
Definition example_one_column : DataArray farr :=
  mkDataArray (F2 [[Fin 1]]) ["time"; "comp"]%string [0%Z] ∅ ∅ ∅.

(** ** rotate_tensor in closed form *)













(** ** get_feeps_omni: the eye of one sensor *)



(** A distribution of one time sample, 32 energy levels and one direction,
    its model, and the store that holds their arrays. *)
Definition example_vdf32 : Dataset :=
  mkDataset [0%Z] {[ "data"%string := 20 ]}
    {[ "energy"%string := 21; "phi"%string := 22; "theta"%string := 23 ]}
    {[ "specie"%string := "e"%string ]}.

Definition example_model32 : Dataset :=
  mkDataset [0%Z] {[ "data"%string := 24 ]}
    {[ "energy"%string := 21; "phi"%string := 22; "theta"%string := 23 ]}
    {[ "specie"%string := "e"%string ]}.

Definition example_heap32 : heap :=
  {[ 20 := F4 [replicate 32 [[Fin 2]]];
     21 := F2 [replicate 32 (Fin 10)];
     22 := F2 [[Fin 0]];
     23 := F1 [Fin 90];
     24 := F4 [replicate 32 [[Fin 1]]] ]}.

(** ** build/lib/pyrfu/pyrf/normalize 2.py *)

Module pyrf_normalize.

(** [inp / np.linalg.norm(inp, axis=1, keepdims=True)] on a series of
    vectors: each row is divided by the square root of the sum of its
    squares; the quotient keeps the dimensions and coordinates of [inp] and
    carries no attributes. *)
Definition normalize (inp : pyval (list (list fnum)))
  : result (DataArray (list (list fnum))) :=
  match inp with
  | PDataArray inp =>
      Ok (mkDataArray
            (map (fun row =>
                    map (fun x => fdiv x (fsqrt (fsum (map (fun y => fmul y y) row))))
                        row)
                 (da_data inp))
            (da_dims inp) (da_time inp) (da_time_attrs inp) (da_coords inp) ∅)
  | _ => Raise AssertionError
  end.

End pyrf_normalize.



(** ** build/lib/pyrfu/pyrf/start 2.py and end.py *)

(** [Time(t, format="datetime64").unix]: the seconds since 1970 of an
    instant given in ticks. *)
Class Astropy64 := {
  datetime64_unix : Z -> Q
}.

Definition start `{Astropy64} {D} (inp : pyval D) : result Q :=
  match inp with
  | PDataArray inp =>
      t ← py_index (da_time inp) 0; Ok (datetime64_unix t)
  | _ => Raise AssertionError
  end.

Definition end_ `{Astropy64} {D} (inp : pyval D) : result Q :=
  match inp with
  | PDataArray inp =>
      t ← py_index (da_time inp) (-1); Ok (datetime64_unix t)
  | _ => Raise AssertionError
  end.

(** Ticks of one nanosecond. *)
Definition nanoseconds : Astropy64 := {|
  datetime64_unix := fun t => (inject_Z t / 1000000000)%Q
|}.

(** ** build/lib/pyrfu/pyrf/integrate 2.py *)

(** [np.hstack([a, b])] for a one-dimensional [a]: a scalar [b] counts as
    one element, and the arrays are joined along the first axis, which
    requires [b] to have one dimension as well. *)
Definition hstack_1d (a : list Q) (b : ndarray) : result ndarray :=
  match shape b with
  | [] => Ok (mkArray [length a + 1] (a ++ flat b))
  | [n] => Ok (mkArray [length a + n] (a ++ flat b))
  | _ => Raise ValueError
  end.

(** [x[:, 0]] *)
Definition column0 (x : ndarray) : result ndarray :=
  match shape x with
  | _ :: n1 :: _ =>
      if decide (n1 = 0) then Raise IndexError else Ok (axis1_get 0 x)
  | _ => Raise IndexError
  end.

(** The statements of [integrate] up to the first use of [x[:, 0]]; [rest]
    stands for the statements that follow it, which receive the values
    computed so far. *)
Definition integrate `{Astropy64} {X}
    (rest : DataArray ndarray -> option Q -> string -> ndarray -> ndarray -> result X)
    (inp : pyval ndarray) (time_step : option Q) : result X :=
  match inp with
  | PScalar SNone => Raise ValueError
  | PDataArray inp =>
      let time_tmp := map datetime64_unix (da_time inp) in
      let data_tmp := da_data inp in
      unit_tmp ← of_option KeyError (da_attrs inp !! "UNITS"%string);
      x ← hstack_1d time_tmp data_tmp;
      x0 ← column0 x;
      rest inp time_step unit_tmp x x0
  | _ => Raise TypeError
  end.

(** ** mms/deflux_to_vdf.py *)

(** An argument that is expected to be a dataset. *)
Inductive dataset_arg :=
| ANone
| AOther
| ADataArray (d : DataArray farr)
| ADataset (ds : Dataset).

(** [spectr_to_dataset] is not among the sources: it is left open. *)
Class Spectr := {
  spectr_to_dataset : DataArray farr -> heap -> heap * result Dataset
}.

Definition row_len {A} (l : list (list A)) : nat :=
  match l with
  | r :: _ => length r
  | [] => 0
  end.

(** [a.shape], read off the first row along each axis (an array without
    rows is taken to have no columns). *)
Definition farr_shape (a : farr) : list nat :=
  match a with
  | F1 l => [length l]
  | F2 l => [length l; row_len l]
  | F3 l => [length l; row_len l; row_len (concat l)]
  | F4 l => [length l; row_len l; row_len (concat l);
             row_len (concat (concat l))]
  end.

(** [np.squeeze(a).shape] *)
Definition squeeze_shape (s : list nat) : list nat :=
  filter (fun n => n <> 1) s.

(** The first two axes of [energy_mat], for [nt] instants: a table of one
    dimension is repeated for every instant, a table of two dimensions is
    taken as it is, anything else is refused. *)
Definition energy_mat_shape (nt : nat) (energy : farr) : result (nat * nat) :=
  match energy with
  | F1 e => Ok (nt, length e)
  | F2 e => Ok (length e, row_len e)
  | _ => Raise ValueError
  end.

(** [energy_mat[i, j, :]] as numpy broadcasts it on the data: an axis of
    length one is repeated. *)
Definition energy_mat_at (energy : farr) (i j : nat) : fnum :=
  match energy with
  | F1 e => nth (if decide (length e = 1) then 0 else j) e NaN
  | F2 e =>
      let row := nth (if decide (length e = 1) then 0 else i) e [] in
      nth (if decide (length row = 1) then 0 else j) row NaN
  | _ => NaN
  end.

(** [data_r /= energy_mat ** 2] on the first two axes of the data *)
Definition divide_by_energy (energy : farr) (tmp_data : farr) : farr :=
  let d := fun i j x =>
             fdiv x (fmul (energy_mat_at energy i j) (energy_mat_at energy i j)) in
  match tmp_data with
  | F1 l => F1 l
  | F2 l => F2 (imap (fun i => imap (fun j => d i j)) l)
  | F3 l => F3 (imap (fun i => imap (fun j => map (d i j))) l)
  | F4 l => F4 (imap (fun i => imap (fun j => map (map (d i j)))) l)
  end.

(** The array that [deflux_to_vdf] computes for the dataset [deflux]. *)
Definition deflux_to_vdf_data (deflux : Dataset) (h : heap) : result farr :=
  species ← of_option KeyError (ds_attrs deflux !! "species"%string);
  mm ← (if bool_decide (species ∈ ["ions"; "i"]%string) then Ok (Fin 1)
        else if bool_decide (species ∈ ["electrons"; "e"]%string)
             then Ok (fdiv m_e m_p)
             else Raise ValueError);
  units ← of_option KeyError (ds_attrs deflux !! "UNITS"%string);
  tmp_data ← (if decide (units = "keV/(cm^2 s sr keV)"%string)
              then data ← dataset_get h deflux "data";
                   Ok (farr_map (fun x => fmul (fmul (fdiv x (Fin 1e12))
                                                     (Fin 0.53707))
                                               (fmul mm mm)) data)
              else Raise ValueError);
  energy ← dataset_get h deflux "energy";
  (* tmp_data.shape[1] *)
  s ← match farr_shape tmp_data with
      | s0 :: s1 :: _ => Ok (s0, s1)
      | _ => Raise IndexError
      end;
  e ← energy_mat_shape (length (ds_time deflux)) energy;
  (* data_r /= energy_mat ** 2 *)
  if decide ((e.1 = s.1 \/ e.1 = 1) /\ (e.2 = s.2 \/ e.2 = 1)) then
    (* vdf.data.data = np.squeeze(tmp_data) *)
    if decide (squeeze_shape (match tmp_data with
                              | F2 _ => farr_shape tmp_data ++ [1; 1]
                              | _ => farr_shape tmp_data
                              end)
               = farr_shape tmp_data)
    then Ok (divide_by_energy energy tmp_data)
    else Raise ValueError
  else Raise ValueError.

(** [vdf = deflux.copy()] shares the arrays of [deflux]; the assignment to
    [vdf.data.data] binds the name to a new array of the store, and the
    attributes are a dictionary of their own. *)
Definition deflux_to_vdf_copy (deflux : Dataset) (h : heap) (data : farr)
  : heap * Dataset :=
  let l := fresh (dom h) in
  (<[l := data]> h,
   match ds_vars deflux !! "data"%string with
   | Some _ =>
       mkDataset (ds_time deflux) (<["data"%string := l]> (ds_vars deflux))
         (ds_coords deflux)
         (<["UNITS"%string := "s^3/m^6"%string]> (ds_attrs deflux))
   | None =>
       mkDataset (ds_time deflux) (ds_vars deflux)
         (<["data"%string := l]> (ds_coords deflux))
         (<["UNITS"%string := "s^3/m^6"%string]> (ds_attrs deflux))
   end).

Definition deflux_to_vdf_dataset (deflux : Dataset) (h : heap)
  : heap * result Dataset :=
  match deflux_to_vdf_data deflux h with
  | Ok data => let '(h, vdf) := deflux_to_vdf_copy deflux h data in (h, Ok vdf)
  | Raise e => (h, Raise e)
  end.

Definition deflux_to_vdf `{Spectr} (deflux : dataset_arg) (h : heap)
  : heap * result Dataset :=
  match deflux with
  | ANone => (h, Raise AssertionError)
  | AOther => (h, Raise TypeError)
  | ADataArray d =>
      let '(h, r) := spectr_to_dataset d h in
      match r with
      | Ok deflux => deflux_to_vdf_dataset deflux h
      | Raise e => (h, Raise e)
      end
  | ADataset deflux => deflux_to_vdf_dataset deflux h
  end.

(** A conversion of spectra that fails. *)
Definition no_spectr : Spectr := {|
  spectr_to_dataset := fun _ h => (h, Raise TypeError)
|}.

(** An ion spectrum of two instants and two energies, and one of a single
    instant. *)
Definition example_deflux : Dataset :=
  mkDataset [0; 1]%Z {[ "data"%string := 0 ]} {[ "energy"%string := 1 ]}
    {[ "species"%string := "ions"%string;
       "UNITS"%string := "keV/(cm^2 s sr keV)"%string ]}.

Definition example_deflux_heap : heap :=
  {[ 0 := F2 [[Fin 1; Fin 2]; [Fin 3; Fin 4]]; 1 := F1 [Fin 10; Fin 20] ]}.

Definition example_deflux_one : Dataset :=
  mkDataset [0%Z] {[ "data"%string := 0 ]} {[ "energy"%string := 1 ]}
    {[ "species"%string := "ions"%string;
       "UNITS"%string := "keV/(cm^2 s sr keV)"%string ]}.

Definition example_deflux_heap_one : heap :=
  {[ 0 := F2 [[Fin 1; Fin 2]]; 1 := F1 [Fin 10; Fin 20] ]}.

(** ** mms/vdf_omni.py *)

(** [np.mean] and [np.nanmean] over one axis: the mean of no value is NaN. *)
Definition fmean (l : list fnum) : fnum :=
  fdiv (fsum l) (Fin (INR (length l))).

Definition fnanmean (l : list fnum) : fnum :=
  fmean (filter (fun x => fisnan x = false) l).

(** The labeled array that [vdf_omni] returns: its data, its two
    coordinates and its attributes. *)
Record spectrum := mkSpectrum {
  sp_data : list (list fnum);
  sp_time : list Z;
  sp_energy : list fnum;
  sp_attrs : attrs
}.

(** The distribution is taken to have the shape of [all_solid_angles], and
    the table of the elevation angles one dimension (the broadcasting of
    other shapes is not modelled: they are refused). *)
Definition vdf_omni (vdf : dataset_arg) (h : heap) : result spectrum :=
  match vdf with
  | ADataset vdf =>
      let time := ds_time vdf in
      energy ← dataset_get h vdf "energy";
      thetas ← dataset_get h vdf "theta";
      let dangle := fdiv (Fin PI) (Fin 16) in
      let np_phi := 32 in
      thetas ← match thetas with F1 l => Ok l | _ => Raise ValueError end;
      let z2 :=
        replicate np_phi
          (map (fun t => fmul (Fin 1) (fsin (fdiv (fmul t (Fin PI)) (Fin 180))))
               thetas) in
      let solid_angles := map (map (fmul (fmul dangle dangle))) z2 in
      (* energy.shape[1] *)
      energy ← match energy with
               | F1 _ => Raise IndexError
               | F2 l => Ok l
               | _ => Raise ValueError
               end;
      let n_en := row_len energy in
      data ← dataset_get h vdf "data";
      data ← match data with
             | F4 l =>
                 if decide (length l = length time /\
                            Forall (fun a => length a = n_en /\
                              Forall (fun b => length b = np_phi /\
                                Forall (fun c => length c = length thetas) b) a) l)
                 then Ok l else Raise ValueError
             | _ => Raise ValueError
             end;
      let dist := map (map (fun plane => zip_with (zip_with fmul) plane solid_angles))
                      data in
      let omni :=
        map (map (fun plane =>
                    fdiv (fnanmean (map fnanmean plane))
                         (fmean [fmean (concat solid_angles)])))
            dist in
      let energy := map (fun j => fmean (map (fun row => nth j row NaN)
                                             (take 2 energy)))
                        (seq 0 n_en) in
      (* np.squeeze(...) must keep the two dimensions of the result *)
      if decide (squeeze_shape [length time; n_en] = [length time; n_en])
      then Ok (mkSpectrum omni time energy (ds_attrs vdf))
      else Raise ValueError
  | _ => Raise AssertionError
  end.

(** The sum of a row. *)
Definition rsum (l : list R) : R := foldl Rplus 0%R l.

(** An isotropic distribution of two instants and two energies with two
    elevation angles. *)
Definition example_iso : Dataset :=
  mkDataset [0; 1]%Z {[ "data"%string := 0 ]}
    {[ "energy"%string := 1; "theta"%string := 2 ]} ∅.

Definition example_iso_values : list (list R) := [[1; 2]; [3; 4]]%R.

Definition example_iso_heap : heap :=
  {[ 0 := F4 (map (map (fun c => replicate 32 (replicate 2 (Fin c))))
                  example_iso_values);
     1 := F2 [[Fin 10; Fin 20]; [Fin 10; Fin 20]];
     2 := F1 [Fin 45; Fin 135] ]}.

(** * Properties *)

(** ** Binary search on a sorted list *)

Lemma Sorted_sorted_nth (a : list Z) : Sorted Z.le a -> sorted_nth a.
Proof.
  intros Hs. apply Sorted_StronglySorted in Hs; [|intros x y z; lia].
  induction Hs as [|x l Hl IH Hx]; intros i j Hij Hj; simpl in *; [lia|].
  destruct i as [|i], j as [|j]; try lia.
  - rewrite List.Forall_forall in Hx. apply Hx, nth_In. lia.
  - apply IH; lia.
Qed.

Lemma bisect_left_loop_inv (a : list Z) (x : Z) (lo hi : nat) :
  sorted_nth a -> lo <= hi -> hi <= length a ->
  (forall i, i < lo -> (nth i a 0 < x)%Z) ->
  (forall i, hi <= i -> i < length a -> (x <= nth i a 0)%Z) ->
  let r := bisect_left_loop a x lo hi in
  r <= length a /\
  (forall i, i < r -> (nth i a 0 < x)%Z) /\
  (forall i, r <= i -> i < length a -> (x <= nth i a 0)%Z).
Proof.
  intros Hs. funelim (bisect_left_loop a x lo hi); intros Hle Hhi Hlo Hge; cbn zeta.
  - assert (lo = hi) by lia. subst. auto.
  - assert (lo <= (lo + hi) / 2 < hi) as Hmid
      by (split; [apply Nat.div_le_lower_bound | apply Nat.Div0.div_lt_upper_bound]; lia).
    apply Z.ltb_lt in Heq.
    apply H; auto; try lia.
    intros i Hi. specialize (Hs i ((lo + hi) / 2)). lia.
  - assert (lo <= (lo + hi) / 2 < hi) as Hmid
      by (split; [apply Nat.div_le_lower_bound | apply Nat.Div0.div_lt_upper_bound]; lia).
    apply Z.ltb_ge in Heq.
    apply H; auto; try lia.
    intros i Hi Hi'. specialize (Hs ((lo + hi) / 2) i). lia.
Qed.

Lemma bisect_right_loop_inv (a : list Z) (x : Z) (lo hi : nat) :
  sorted_nth a -> lo <= hi -> hi <= length a ->
  (forall i, i < lo -> (nth i a 0 <= x)%Z) ->
  (forall i, hi <= i -> i < length a -> (x < nth i a 0)%Z) ->
  let r := bisect_right_loop a x lo hi in
  r <= length a /\
  (forall i, i < r -> (nth i a 0 <= x)%Z) /\
  (forall i, r <= i -> i < length a -> (x < nth i a 0)%Z).
Proof.
  intros Hs. funelim (bisect_right_loop a x lo hi); intros Hle Hhi Hlo Hge; cbn zeta.
  - assert (lo = hi) by lia. subst. auto.
  - assert (lo <= (lo + hi) / 2 < hi) as Hmid
      by (split; [apply Nat.div_le_lower_bound | apply Nat.Div0.div_lt_upper_bound]; lia).
    apply Z.ltb_lt in Heq.
    apply H; auto; try lia.
    intros i Hi Hi'. specialize (Hs ((lo + hi) / 2) i). lia.
  - assert (lo <= (lo + hi) / 2 < hi) as Hmid
      by (split; [apply Nat.div_le_lower_bound | apply Nat.Div0.div_lt_upper_bound]; lia).
    apply Z.ltb_ge in Heq.
    apply H; auto; try lia.
    intros i Hi. specialize (Hs i ((lo + hi) / 2)). lia.
Qed.

Lemma nth_inv_take (P : Z -> Prop) (a : list Z) (r : nat) :
  (forall i, i < r -> P (nth i a 0%Z)) -> Forall P (take r a).
Proof.
  intros Hr. apply Forall_lookup. intros i x Hx.
  apply lookup_take_Some in Hx as [Hx Hi].
  rewrite <- (nth_lookup_Some _ _ 0%Z _ Hx). auto.
Qed.

Lemma nth_inv_drop (P : Z -> Prop) (a : list Z) (r : nat) :
  (forall i, r <= i -> i < length a -> P (nth i a 0%Z)) -> Forall P (drop r a).
Proof.
  intros Hr. apply Forall_lookup. intros i x Hx.
  rewrite lookup_drop in Hx.
  rewrite <- (nth_lookup_Some _ _ 0%Z _ Hx).
  apply Hr; [lia|]. apply lookup_lt_Some in Hx. lia.
Qed.

Lemma bisect_left_spec (a : list Z) (x : Z) :
  Sorted Z.le a ->
  Forall (fun t => (t < x)%Z) (take (bisect_left a x) a) /\
  Forall (fun t => (x <= t)%Z) (drop (bisect_left a x) a).
Proof.
  intros Hs. apply Sorted_sorted_nth in Hs.
  destruct (bisect_left_loop_inv a x 0 (length a) Hs) as (_ & Hlt & Hge);
    try lia.
  split; [apply nth_inv_take | apply nth_inv_drop]; assumption.
Qed.

Lemma bisect_right_spec (a : list Z) (x : Z) :
  Sorted Z.le a ->
  Forall (fun t => (t <= x)%Z) (take (bisect_right a x) a) /\
  Forall (fun t => (x < t)%Z) (drop (bisect_right a x) a).
Proof.
  intros Hs. apply Sorted_sorted_nth in Hs.
  destruct (bisect_right_loop_inv a x 0 (length a) Hs) as (_ & Hle & Hgt);
    try lia.
  split; [apply nth_inv_take | apply nth_inv_drop]; assumption.
Qed.

(** ** Slices of a sorted list and filters *)

Lemma filter_all {X} (P : X -> Prop) `{forall x, Decision (P x)} (l : list X) :
  Forall P l -> filter P l = l.
Proof.
  induction 1 as [|x l Hx _ IH]; [reflexivity|].
  rewrite filter_cons_True by assumption. now rewrite IH.
Qed.

Lemma filter_none {X} (P : X -> Prop) `{forall x, Decision (P x)} (l : list X) :
  Forall (fun x => ~ P x) l -> filter P l = [].
Proof.
  induction 1 as [|x l Hx _ IH]; [reflexivity|].
  now rewrite filter_cons_False by assumption.
Qed.

Lemma slice_is_filter {X} (key : X -> Z) (l : list X) (i j : nat) (lo hi : Z) :
  Forall (fun s => (key s < lo)%Z) (take i l) ->
  Forall (fun s => (lo <= key s)%Z) (drop i l) ->
  Forall (fun s => (key s <= hi)%Z) (take j l) ->
  Forall (fun s => (hi < key s)%Z) (drop j l) ->
  py_slice i j l = filter (fun s => (lo <= key s <= hi)%Z) l.
Proof.
  intros H1 H2 H3 H4. unfold py_slice.
  destruct (le_lt_dec i j) as [Hij|Hij].
  - rewrite <- (take_drop i l) at 2. rewrite filter_app.
    rewrite (filter_none _ (take i l))
      by (eapply Forall_impl; [exact H1|]; simpl; intros; lia).
    rewrite <- (take_drop (j - i) (drop i l)) at 2.
    rewrite filter_app, drop_drop.
    replace (i + (j - i)) with j by lia.
    rewrite (filter_none _ (drop j l))
      by (eapply Forall_impl; [exact H4|]; simpl; intros; lia).
    rewrite filter_all; [now rewrite app_nil_r|].
    apply Forall_and. split.
    + now apply Forall_take.
    + rewrite take_drop_commute. replace (i + (j - i)) with j by lia.
      now apply Forall_drop.
  - replace (j - i) with 0 by lia. rewrite take_0. symmetry.
    rewrite <- (take_drop i l). rewrite filter_app.
    rewrite (filter_none _ (take i l))
      by (eapply Forall_impl; [exact H1|]; simpl; intros; lia).
    rewrite filter_none; [reflexivity|].
    replace i with (j + (i - j)) by lia. rewrite <- drop_drop.
    apply Forall_drop. eapply Forall_impl; [exact H4|]. simpl; intros; lia.
Qed.

Lemma Forall_zip_fst {X Y} (P : X -> Prop) (l : list X) (k : list Y) :
  Forall P l -> Forall (fun s => P s.1) (zip l k).
Proof.
  intros Hl. revert k. induction Hl as [|x l Hx _ IH]; intros [|y k];
    simpl; constructor; auto.
Qed.

Lemma py_slice_zip {X Y} (i j : nat) (l : list X) (k : list Y) :
  zip (py_slice i j l) (py_slice i j k) = py_slice i j (zip l k).
Proof.
  unfold py_slice. now rewrite zip_with_drop, zip_with_take.
Qed.

(** ** time_clip *)

Lemma py_index_first {X} (l : list X) (x : X) :
  head l = Some x -> py_index l 0 = Ok x.
Proof. destruct l; intros [= ->]. reflexivity. Qed.

Lemma py_index_last {X} (l : list X) (x : X) :
  last l = Some x -> py_index l (-1) = Ok x.
Proof.
  intros Hl. unfold py_index.
  assert (length l <> 0) as Hlen by (destruct l; [discriminate|simpl; lia]).
  rewrite last_lookup in Hl.
  replace (-1 <? 0)%Z with true by reflexivity.
  destruct (Z.ltb_spec (-1 + Z.of_nat (length l)) 0) as [?|_]; [lia|].
  replace (Z.to_nat (-1 + Z.of_nat (length l))) with (pred (length l)) by lia.
  now rewrite Hl.
Qed.

Lemma mapM_coords (m : gmap string coord) (ks : list string) :
  (forall k, k ∈ ks -> is_Some (m !! k)) ->
  mapM (fun k => c ← of_option KeyError (m !! k); Ok (c_data c)) ks
  = Ok (map (coord_values m) ks).
Proof.
  induction ks as [|k ks IH]; intros Hks; [reflexivity|].
  simpl. destruct (Hks k) as [c Hc]; [left|].
  rewrite IH by (intros; apply Hks; now right).
  unfold coord_values at 2. rewrite Hc. reflexivity.
Qed.

Lemma lookup_list_to_map_zip_map {V} (f : string -> V) (ks : list string) (k : string) :
  (list_to_map (zip ks (map f ks)) : gmap string V) !! k
  = if decide (k ∈ ks) then Some (f k) else None.
Proof.
  induction ks as [|k' ks IH]; simpl.
  - rewrite lookup_empty. destruct (decide (k ∈ [])) as [Hin|]; [|reflexivity].
    now apply not_elem_of_nil in Hin.
  - destruct (decide (k' = k)) as [->|Hne].
    + rewrite lookup_insert_eq. destruct (decide (k ∈ k :: ks)) as [|Hn];
        [reflexivity|]. exfalso. apply Hn. left.
    + rewrite lookup_insert_ne by assumption. rewrite IH.
      destruct (decide (k ∈ ks)) as [Hin|Hin];
        destruct (decide (k ∈ k' :: ks)) as [Hin'|Hin']; try reflexivity.
      * exfalso. apply Hin'. now right.
      * apply elem_of_cons in Hin' as [?|?]; congruence.
Qed.

(** C5, as stated, fails for the coordinates: the output is built from the
    values of the coordinates, and a unit carried by the component
    coordinate of the input is absent from the output. *)
Lemma time_clip_drops_coordinate_attrs :
  exists out,
    @time_clip seconds_clock _ unit (PDataArray example_series_units)
      (PList [SStr "2"; SStr "3"]) = Ok out /\
    da_coords example_series_units !! "comp"%string
    = Some (Coord [0; 1]%Q {[ "units"%string := "km"%string ]}) /\
    da_coords out !! "comp"%string = Some (Coord [0; 1]%Q ∅) /\
    da_coords out <> da_coords example_series_units.
Proof.
  exists (mkDataArray [[3; 4]; [5; 6]]%Q ["time"; "comp"]%string [2; 3]%Z ∅
            {[ "comp"%string := Coord [0; 1]%Q ∅ ]} ∅).
  split; [vm_compute; reflexivity|]. split; [reflexivity|].
  split; [reflexivity|].
  intros Heq. apply (f_equal (fun m => m !! "comp"%string)) in Heq.
  cbn [da_coords example_series_units] in Heq.
  rewrite !lookup_singleton_eq in Heq. discriminate Heq.
Qed.

(** C5, amended. For a time series with sorted time axis whose coordinates
    are those of its dimensions, and a list of strings as time interval,
    [time_clip] returns the samples whose time lies in the closed interval
    between the parsed first and last entry of the list, in their order, and
    keeps the dimensions, the attributes, the attributes of the time axis
    and the values of the other coordinates. *)
Theorem time_clip_closed_interval `{TimeLib} {A}
    (inp : DataArray (list A)) (strs : list string) (s0 s1 : string)
    (d0 d1 : scalar) (t_min t_max : Z) :
  Sorted Z.le (da_time inp) ->
  head (da_dims inp) = Some "time"%string ->
  dim_coords inp ->
  head strs = Some s0 -> last strs = Some s1 ->
  parser_parse (SStr s0) = Ok d0 -> astropy_datetime64 d0 = Ok t_min ->
  parser_parse (SStr s1) = Ok d1 -> astropy_datetime64 d1 = Ok t_max ->
  exists out,
    time_clip (PDataArray inp) (PList (D := unit) (map SStr strs)) = Ok out /\
    zip (da_time out) (da_data out)
      = filter (in_interval t_min t_max) (zip (da_time inp) (da_data inp)) /\
    da_time out = filter (fun t => (t_min <= t <= t_max)%Z) (da_time inp) /\
    da_dims out = da_dims inp /\
    da_attrs out = da_attrs inp /\
    da_time_attrs out = da_time_attrs inp /\
    (forall k, c_data <$> (da_coords out !! k)
               = c_data <$> (da_coords inp !! k)).
Proof.
  intros Hsorted Hdim Hcoords Hs0 Hs1 Hp0 Ht0 Hp1 Ht1.
  unfold time_clip, time_clip_bounds.
  rewrite (py_index_first _ (SStr s0)) by (destruct strs; [discriminate|]; now injection Hs0 as ->).
  rewrite (py_index_last _ (SStr s1)) by (change (map SStr strs) with (SStr <$> strs); now rewrite fmap_last, Hs1).
  cbn [mbind result_bind]. rewrite Hp0. cbn [mbind result_bind].
  rewrite Hp1. cbn [mbind result_bind]. rewrite Ht0, Ht1.
  cbn [mbind result_bind].
  destruct (da_dims inp) as [|d ds] eqn:Hdims; [discriminate|].
  injection Hdim as ->. simpl tail in *.
  assert ((if decide (1 < S (size (da_coords inp)))
           then mapM (fun k => c ← of_option KeyError (da_coords inp !! k);
                               Ok (c_data c)) ds
           else Ok [])
          = Ok (map (coord_values (da_coords inp)) ds)) as ->.
  { destruct (decide (1 < S (size (da_coords inp)))) as [_|Hsz].
    - apply mapM_coords. intros k Hk. apply Hcoords. now rewrite Hdims.
    - assert (da_coords inp = ∅) as Hempty by (apply map_size_empty_iff; lia).
      destruct ds as [|k ds]; [reflexivity|].
      destruct (proj2 (Hcoords k)) as [c Hc]; [rewrite Hdims; left|].
      rewrite Hempty, lookup_empty in Hc. discriminate. }
  cbn [mbind result_bind]. unfold DataArray_of_coords.
  rewrite decide_True by (now rewrite length_map).
  rewrite decide_True by reflexivity.
  eexists. split; [reflexivity|]. cbn [da_time da_data da_dims da_attrs
    da_time_attrs da_coords tail].
  destruct (bisect_left_spec (da_time inp) t_min Hsorted) as [Hl1 Hl2].
  destruct (bisect_right_spec (da_time inp) t_max Hsorted) as [Hr1 Hr2].
  repeat split.
  - rewrite py_slice_zip. apply (slice_is_filter fst).
    + rewrite zip_with_take.
      now apply (Forall_zip_fst (fun t => (t < t_min)%Z)).
    + rewrite zip_with_drop.
      now apply (Forall_zip_fst (fun t => (t_min <= t)%Z)).
    + rewrite zip_with_take.
      now apply (Forall_zip_fst (fun t => (t <= t_max)%Z)).
    + rewrite zip_with_drop.
      now apply (Forall_zip_fst (fun t => (t_max < t)%Z)).
  - now apply (slice_is_filter (fun t => t)).
  - intros k. rewrite map_map.
    rewrite (lookup_list_to_map_zip_map
               (fun k => Coord (coord_values (da_coords inp) k) ∅)).
    unfold dim_coords in Hcoords. rewrite Hdims in Hcoords. simpl in Hcoords.
    destruct (decide (k ∈ ds)) as [Hk|Hk].
    + apply Hcoords in Hk as [c Hc]. unfold coord_values. now rewrite Hc.
    + destruct (da_coords inp !! k) as [c|] eqn:Hc; [|reflexivity].
      exfalso. apply Hk, Hcoords. eauto.
Qed.

(** ** Argument checks of time_clip and norm *)



(** The array branch of [time_clip]: an array of [datetime64] values, the
    kind that the docstring announces, is refused. *)
Lemma time_clip_datetime64_array `{TimeLib} {A} (inp : DataArray (list A))
    (t0 t1 : Z) :
  time_clip (PDataArray inp)
    (PNdarray (D := unit) [SDatetime64 t0; SDatetime64 t1]) = Raise TypeError.
Proof. reflexivity. Qed.

(** ** extend_tint *)



(** ** medfilt *)




Lemma medfilt_window_int (n : Z) : medfilt_window (SInt n) = Ok (odd_window n).
Proof. reflexivity. Qed.

Lemma medfilt_window_float (x : Q) :
  medfilt_window (SFloat x) = Ok (odd_window (Qfloor x)).
Proof. reflexivity. Qed.


Lemma axis1_get_shape (i : nat) (a : ndarray) (n0 n1 : nat) (rest : list nat) :
  shape a = n0 :: n1 :: rest -> shape (axis1_get i a) = n0 :: rest.
Proof. intros Ha. unfold axis1_get. now rewrite Ha. Qed.









(** ** mean_bins and median_bins *)

Lemma In_Qinsert (x y : Q) (l : list Q) :
  In y (Qinsert x l) <-> y = x \/ In y l.
Proof.
  induction l as [|z l IH]; simpl; [intuition congruence|].
  destruct (Qle_bool x z); simpl; [intuition congruence|].
  rewrite IH. intuition congruence.
Qed.

Lemma In_Qsort (y : Q) (l : list Q) : In y (Qsort l) <-> In y l.
Proof.
  induction l as [|x l IH]; simpl; [reflexivity|].
  rewrite In_Qinsert, IH. intuition congruence.
Qed.

Lemma Qinsert_sorted (x : Q) (l : list Q) :
  StronglySorted Qle l -> StronglySorted Qle (Qinsert x l).
Proof.
  induction 1 as [|z l Hl IH Hz]; simpl.
  - repeat constructor.
  - destruct (Qle_bool x z) eqn:Hxz.
    + apply Qle_bool_iff in Hxz. constructor; [now constructor|].
      constructor; [assumption|].
      eapply List.Forall_impl; [|exact Hz]. intros; now apply Qle_trans with z.
    + constructor; [assumption|].
      apply List.Forall_forall. intros y Hy. apply In_Qinsert in Hy as [->|Hy].
      * destruct (Qlt_le_dec z x) as [Hlt|Hle]; [now apply Qlt_le_weak|].
        apply Qle_bool_iff in Hle. congruence.
      * rewrite List.Forall_forall in Hz. now apply Hz.
Qed.

Lemma Qsort_sorted (l : list Q) : StronglySorted Qle (Qsort l).
Proof.
  induction l as [|x l IH]; simpl; [constructor|now apply Qinsert_sorted].
Qed.

Lemma sorted_head_min (l : list Q) (lo : Q) :
  StronglySorted Qle l -> head l = Some lo -> forall z, In z l -> (lo <= z)%Q.
Proof.
  intros Hs Hh z Hz. destruct Hs as [|a l Hl Ha]; [discriminate|].
  injection Hh as <-. destruct Hz as [<-|Hz]; [apply Qle_refl|].
  rewrite List.Forall_forall in Ha. now apply Ha.
Qed.

Lemma sorted_last_max (l : list Q) (hi : Q) :
  StronglySorted Qle l -> last l = Some hi -> forall z, In z l -> (z <= hi)%Q.
Proof.
  induction 1 as [|a l Hl IH Ha]; intros Hh z Hz; [destruct Hz|].
  destruct l as [|b l].
  - injection Hh as <-. destruct Hz as [<-|[]]. apply Qle_refl.
  - assert (last (b :: l) = Some hi) as Hh' by exact Hh.
    destruct Hz as [<-|Hz]; [|now apply IH].
    apply Qle_trans with b.
    + rewrite List.Forall_forall in Ha. apply Ha. now left.
    + apply IH; [assumption|now left].
Qed.

Lemma np_linspace_lookup (start stop : Q) (div i : nat) :
  0 < div -> i <= div ->
  np_linspace start stop div !! i = Some (linspace_at start stop div i).
Proof.
  intros Hdiv Hi. unfold np_linspace, linspace_at.
  destruct div as [|d]; [lia|]. destruct (decide (i < S d)) as [Hlt|Hge].
  - rewrite lookup_app_l by (rewrite length_map, length_seq; lia).
    change (map ?f ?l) with (f <$> l). rewrite list_lookup_fmap.
    rewrite lookup_seq_lt by lia. reflexivity.
  - assert (i = S d) as -> by lia.
    rewrite lookup_app_r by (rewrite length_map, length_seq; lia).
    rewrite length_map, length_seq. now replace (S d - S d) with 0 by lia.
Qed.

Lemma linspace_at_mono (start stop : Q) (div i j : nat) :
  (start <= stop)%Q -> 0 < div -> i <= j -> j <= div ->
  (linspace_at start stop div i <= linspace_at start stop div j)%Q.
Proof.
  intros Hle Hdiv Hij Hj. unfold linspace_at.
  set (D := inject_Z (Z.of_nat div)).
  assert (0 < D)%Q as HD.
  { unfold D. change 0%Q with (inject_Z 0). rewrite <- Zlt_Qlt. lia. }
  set (step := ((stop - start) / D)%Q).
  assert (0 <= step)%Q as Hstep.
  { unfold step. apply Qle_shift_div_l; [assumption|]. lra. }
  assert (D * step == stop - start)%Q as Hfull.
  { unfold step. apply Qmult_div_r. intros H0. rewrite H0 in HD.
    now apply Qlt_irrefl in HD. }
  assert (forall a b : nat, a <= b ->
            (inject_Z (Z.of_nat a) * step <= inject_Z (Z.of_nat b) * step)%Q)
    as Hmul.
  { intros a b Hab. apply Qmult_le_compat_r; [|assumption].
    rewrite <- Zle_Qle. lia. }
  destruct (decide (i < div)) as [Hi|Hi], (decide (j < div)) as [Hj'|Hj'];
    try lia.
  - specialize (Hmul i j Hij). lra.
  - specialize (Hmul i div ltac:(lia)). fold D in Hmul. lra.
  - apply Qle_refl.
Qed.

Lemma x_edge_inv (x : list Q) (bins : Z) (edges : list Q) :
  x_edge x bins = Ok edges ->
  exists lo hi,
    head (Qsort x) = Some lo /\ last (Qsort x) = Some hi /\
    (0 <= bins)%Z /\ edges = np_linspace lo hi (Z.to_nat bins).
Proof.
  unfold x_edge. intros Hx.
  destruct (Qsort x) as [|a l] eqn:Hsort; [discriminate|].
  destruct (last (a :: l)) as [hi|] eqn:Hlast.
  2:{ apply last_None in Hlast. discriminate. }
  rewrite (py_index_first (a :: l) a eq_refl) in Hx.
  rewrite (py_index_last _ _ Hlast) in Hx. cbn [mbind result_bind] in Hx.
  destruct (Z.ltb_spec bins 0) as [?|Hb]; [discriminate|].
  injection Hx as <-. exists a, hi. auto.
Qed.

Lemma lo_le_hi (x : list Q) (lo hi : Q) :
  head (Qsort x) = Some lo -> last (Qsort x) = Some hi -> (lo <= hi)%Q.
Proof.
  intros Hlo Hhi. apply (sorted_head_min (Qsort x)); auto using Qsort_sorted.
  destruct (Qsort x) as [|a l]; [discriminate|].
  apply list_elem_of_In. eapply list_elem_of_lookup_2.
  rewrite last_lookup in Hhi. exact Hhi.
Qed.

Lemma idx_strict (a lo hi : Q) :
  negb (Qle_bool a lo) && negb (Qle_bool hi a) = true <-> (lo < a)%Q /\ (a < hi)%Q.
Proof.
  rewrite andb_true_iff, !negb_true_iff.
  assert (forall u w, Qle_bool u w = false <-> (w < u)%Q) as Hb.
  { intros u w. split.
    - intros Hf. apply Qnot_le_lt. intros Hle. apply Qle_bool_iff in Hle. congruence.
    - intros Hlt. destruct (Qle_bool u w) eqn:E; [|reflexivity].
      apply Qle_bool_iff in E. now apply Qlt_not_le in Hlt. }
  now rewrite !Hb.
Qed.

Lemma y_bins_strict (x y : list Q) (lo hi : Q) :
  y_bins x y lo hi = strictly_between x y lo hi.
Proof.
  unfold y_bins, strictly_between, bool_index, idx_l, idx_r.
  revert y. induction x as [|a x IH]; intros [|b y]; try reflexivity.
  simpl map. simpl zip_with. rewrite !filter_cons. cbn [fst snd].
  specialize (IH y). pose proof (idx_strict a lo hi) as Hi.
  destruct (decide (negb (Qle_bool a lo) && negb (Qle_bool hi a) = true)) as [Ht|Hf];
    destruct (decide ((lo < a)%Q /\ (a < hi)%Q)) as [Hs|Hn];
    try (exfalso; tauto); simpl; now rewrite <- IH.
Qed.

Lemma strictly_between_insert (x y : list Q) (lo hi : Q) (k : nat) (xk v : Q) :
  x !! k = Some xk -> ~ ((lo < xk)%Q /\ (xk < hi)%Q) ->
  strictly_between x (<[k := v]> y) lo hi = strictly_between x y lo hi.
Proof.
  unfold strictly_between. revert y k.
  induction x as [|a x IH]; intros [|b y] k Hk Hout; try reflexivity.
  destruct k as [|k]; simpl in Hk.
  - injection Hk as ->. simpl. rewrite !filter_cons. cbn [fst].
    destruct (decide ((lo < xk)%Q /\ (xk < hi)%Q)); [tauto|reflexivity].
  - simpl. rewrite !filter_cons. cbn [fst snd].
    specialize (IH y k Hk Hout). simpl in IH.
    destruct (decide ((lo < a)%Q /\ (a < hi)%Q)); simpl; now rewrite IH.
Qed.

Lemma on_edge_in_no_bin (x : list Q) (bins : Z) (edges : list Q) (xk : Q) (i : nat) :
  x_edge x bins = Ok edges -> on_edge x edges xk -> i < Z.to_nat bins ->
  ~ ((nth i edges 0 < xk)%Q /\ (xk < nth (S i) edges 0)%Q).
Proof.
  intros Hedge Hon Hi.
  destruct (x_edge_inv _ _ _ Hedge) as (lo & hi & Hlo & Hhi & Hb & ->).
  set (n := Z.to_nat bins) in *.
  pose proof (lo_le_hi _ _ _ Hlo Hhi) as Hle.
  rewrite (nth_lookup_Some _ _ _ _ (np_linspace_lookup lo hi n i ltac:(lia) ltac:(lia))).
  rewrite (nth_lookup_Some _ _ _ _ (np_linspace_lookup lo hi n (S i) ltac:(lia) ltac:(lia))).
  assert (In lo x) as Hlo_in.
  { apply In_Qsort. destruct (Qsort x); [discriminate|]. injection Hlo as ->. now left. }
  assert (In hi x) as Hhi_in.
  { apply In_Qsort. apply list_elem_of_In. eapply list_elem_of_lookup_2.
    rewrite last_lookup in Hhi. exact Hhi. }
  assert (linspace_at lo hi n 0 == lo)%Q as H0.
  { unfold linspace_at. rewrite decide_True by lia. simpl inject_Z. ring. }
  assert (linspace_at lo hi n n = hi) as Hn.
  { unfold linspace_at. now rewrite decide_False by lia. }
  intros [Hgt Hlt].
  destruct Hon as [(j & e & Hj & Heq)|[Hmin|Hmax]].
  - assert (j <= n) as Hjn.
    { apply lookup_lt_Some in Hj. unfold np_linspace in Hj.
      destruct n; [lia|]. rewrite length_app, length_map, length_seq in Hj.
      simpl in Hj. lia. }
    rewrite (np_linspace_lookup lo hi n j ltac:(lia) Hjn) in Hj.
    injection Hj as <-. rewrite Heq in Hgt, Hlt.
    destruct (le_lt_dec j i) as [Hji|Hji].
    + pose proof (linspace_at_mono lo hi n j i Hle ltac:(lia) Hji ltac:(lia)).
      lra.
    + pose proof (linspace_at_mono lo hi n (S i) j Hle ltac:(lia) Hji Hjn).
      lra.
  - pose proof (linspace_at_mono lo hi n 0 i Hle ltac:(lia) ltac:(lia) ltac:(lia)).
    specialize (Hmin lo Hlo_in). lra.
  - pose proof (linspace_at_mono lo hi n (S i) n Hle ltac:(lia) ltac:(lia) ltac:(lia)).
    specialize (Hmax hi Hhi_in). rewrite Hn in *. lra.
Qed.

Lemma y_bins_on_edge (x y : list Q) (bins : Z) (edges : list Q) (k : nat)
    (xk v : Q) (i : nat) :
  x_edge x bins = Ok edges -> x !! k = Some xk -> on_edge x edges xk ->
  i < Z.to_nat bins ->
  y_bins x (<[k := v]> y) (nth i edges 0%Q) (nth (S i) edges 0%Q)
  = y_bins x y (nth i edges 0%Q) (nth (S i) edges 0%Q).
Proof.
  intros Hedge Hk Hon Hi. rewrite !y_bins_strict.
  apply (strictly_between_insert _ _ _ _ _ xk); [assumption|].
  now apply (on_edge_in_no_bin x bins).
Qed.

(** C8. In [mean_bins] and [median_bins] the values aggregated in a bin are
    the absolute values of [y] at the indices where [x] lies strictly
    between the two edges of the bin; a sample whose [x] equals an edge, in
    particular a minimum or a maximum of [x], belongs to no bin: changing
    [y] there changes nothing in the result. *)
Theorem bins_strict_membership `{FloatLib} (dx dy : DataArray (list Q))
    (bins : Z) (edges : list Q) :
  length (da_data dy) = length (da_data dx) ->
  x_edge (da_data dx) bins = Ok edges ->
  let x := da_data dx in
  let y := da_data dy in
  let bin := fun i => strictly_between x y (nth i edges 0%Q) (nth (S i) edges 0%Q) in
  (exists centres,
     mean_bins (PDataArray dx) (PDataArray dy) bins
     = Ok (centres, map (fun i => np_mean (bin i)) (seq 0 (Z.to_nat bins)),
           mkBins centres
             (map (fun i => np_mean (bin i)) (seq 0 (Z.to_nat bins)))
             (map (fun i => np_std (bin i)) (seq 0 (Z.to_nat bins)))) /\
     median_bins (PDataArray dx) (PDataArray dy) bins
     = Ok (mkBins centres
             (map (fun i => np_median (bin i)) (seq 0 (Z.to_nat bins)))
             (map (fun i => np_std (bin i)) (seq 0 (Z.to_nat bins))))) /\
  (forall (k : nat) (xk v : Q),
     x !! k = Some xk -> on_edge x edges xk ->
     mean_bins (PDataArray dx) (PDataArray (set_data dy (<[k := v]> y))) bins
     = mean_bins (PDataArray dx) (PDataArray dy) bins /\
     median_bins (PDataArray dx) (PDataArray (set_data dy (<[k := v]> y))) bins
     = median_bins (PDataArray dx) (PDataArray dy) bins).
Proof.
  intros Hlen Hedge. cbv zeta. set (x := da_data dx) in *.
  set (y := da_data dy) in *. split.
  - exists (bin_centres edges).
    unfold mean_bins, median_bins, array_data. cbn [mbind result_bind].
    fold x y. rewrite Hedge. cbn [mbind result_bind].
    rewrite !decide_True by assumption.
    rewrite !map_map. cbn [fst snd].
    assert (forall (g : list Q -> qnum),
              map (fun i => g (y_bins x y (nth i edges 0%Q) (nth (S i) edges 0%Q)))
                  (seq 0 (Z.to_nat bins))
              = map (fun i => g (strictly_between x y (nth i edges 0%Q)
                                   (nth (S i) edges 0%Q)))
                    (seq 0 (Z.to_nat bins))) as Hm.
    { intros g. apply map_ext. intros i. now rewrite y_bins_strict. }
    now rewrite (Hm np_mean), (Hm np_std), (Hm np_median).
  - intros k xk v Hk Hon.
    unfold mean_bins, median_bins, array_data, set_data.
    cbn [mbind result_bind da_data]. fold x y. rewrite Hedge.
    cbn [mbind result_bind].
    rewrite !decide_True by (rewrite ?length_insert; assumption).
    assert (forall i, In i (seq 0 (Z.to_nat bins)) ->
              y_bins x (<[k := v]> y) (nth i edges 0%Q) (nth (S i) edges 0%Q)
              = y_bins x y (nth i edges 0%Q) (nth (S i) edges 0%Q)) as Hy.
    { intros i Hi. apply in_seq in Hi.
      apply (y_bins_on_edge x y bins edges k xk); auto. lia. }
    assert (forall (g : list Q -> qnum * qnum),
              map (fun i => g (y_bins x (<[k := v]> y) (nth i edges 0%Q)
                                 (nth (S i) edges 0%Q)))
                  (seq 0 (Z.to_nat bins))
              = map (fun i => g (y_bins x y (nth i edges 0%Q)
                                   (nth (S i) edges 0%Q)))
                    (seq 0 (Z.to_nat bins))) as Hms.
    { intros g. apply map_ext_in. intros i Hi. now rewrite Hy. }
    split.
    + now rewrite (Hms (fun yb => (np_mean yb, np_std yb))).
    + now rewrite (Hms (fun yb => (np_median yb, np_std yb))).
Qed.

(** ** get_feeps_omni: removal of the sun contamination *)

Lemma mapM_result_lookup {X Y} (f : X -> result Y) (l : list X) (k : list Y) :
  mapM f l = Ok k ->
  length k = length l /\
  forall t x, l !! t = Some x -> exists y, k !! t = Some y /\ f x = Ok y.
Proof.
  revert k. induction l as [|x l IH]; intros k Hk; simpl in Hk.
  - injection Hk as <-. split; [reflexivity|]. intros t y Hy. discriminate.
  - destruct (f x) as [y|e] eqn:Hfx; [|discriminate]. cbn in Hk.
    destruct (mapM f l) as [k'|e] eqn:Hl; [|discriminate]. cbn in Hk.
    injection Hk as <-. destruct (IH k' eq_refl) as [Hlen Hlook].
    split; [simpl; now rewrite Hlen|].
    intros [|t] x' Hx'; simpl in *.
    + injection Hx' as <-. eauto.
    + now apply Hlook.
Qed.
















(** ** get_feeps_omni: energies and flux *)

Lemma get_feeps_omni_energy `{Feeps} (tar_var : string) (mms_id : Z)
    (tint : list string) (out : OmniArray) :
  get_feeps_omni tar_var mms_id tint = Ok out ->
  exists dtype specie table corr,
    py_index (split_on "_" tar_var) 1 = Ok dtype /\
    first_char dtype = Ok specie /\
    e_corr !! specie = Some table /\
    py_index table (mms_id - 1) = Ok corr /\
    omni_energy out
    = map (fun e => (e + corr)%Q)
          (if decide (dtype = "electron"%string)
           then energies_electron else energies_ion).
Proof.
  unfold get_feeps_omni. intros Hout.
  destruct (py_index (split_on "_" tar_var) 0) as [data_units|]; [|discriminate].
  destruct (py_index (split_on "_" tar_var) 1) as [dtype|]; [|discriminate].
  destruct (py_index (split_on "_" tar_var) 2) as [tmmode|]; [|discriminate].
  destruct (py_index (split_on "_" tar_var) 3) as [lev|]; [|discriminate].
  cbn [mbind result_bind] in Hout.
  destruct (first_char dtype) as [specie|] eqn:Hspecie; [|discriminate].
  cbn [mbind result_bind] in Hout.
  destruct (e_corr !! specie) as [table|] eqn:Htable; [|discriminate].
  cbn [of_option mbind result_bind] in Hout.
  destruct (py_index table (mms_id - 1)) as [corr|] eqn:Hcorr; [|discriminate].
  cbn [mbind result_bind] in Hout.
  exists dtype, specie, table, corr. repeat (split; [reflexivity || assumption|]).
  repeat match type of Hout with
         | (match ?m with Ok _ => _ | Raise _ => _ end) = _ =>
             destruct m as [?|?]; [|discriminate]
         | (?m ≫= _) = _ => destruct m as [?|?]; [|discriminate];
                            cbn [mbind result_bind] in Hout
         | (let '(_, _) := ?p in _) = _ => destruct p
         end.
  now injection Hout as <-.
Qed.


(** ** match_phibe_v: the caller's density *)

Lemma match_phibe_v_scales_n (b_0 : fnum) (b_z int_e_dt n v : nat) (h : heap)
    (n_data : farr) :
  h !! n = Some n_data ->
  (match_phibe_v b_0 b_z int_e_dt n v h).1 !! n
  = Some (farr_map (fun x => fmul x (Fin 1e6)) n_data).
Proof.
  intros Hn. unfold match_phibe_v. rewrite Hn. cbn [fst].
  apply lookup_insert_eq.
Qed.

(** At a density of 1 cm^-3 the caller's array holds 1000000 after the
    call. *)
Lemma match_phibe_v_changes_n :
  example_heap !! 2 = Some (F1 [Fin 1]) /\
  (match_phibe_v (Fin 1) 0 1 2 3 example_heap).1 !! 2 = Some (F1 [Fin 1000000]) /\
  (match_phibe_v (Fin 1) 0 1 2 3 example_heap).1 !! 2 <> example_heap !! 2.
Proof.
  assert (example_heap !! 2 = Some (F1 [Fin 1])) as Hn by reflexivity.
  assert ((match_phibe_v (Fin 1) 0 1 2 3 example_heap).1 !! 2
          = Some (F1 [Fin 1000000])) as Hn'.
  { rewrite (match_phibe_v_scales_n _ _ _ _ _ _ _ Hn). simpl.
    replace (1 * 1e6)%R with 1000000%R by lra. reflexivity. }
  split; [exact Hn|]. split; [exact Hn'|].
  rewrite Hn, Hn'. intros [= Heq]. lra.
Qed.

(** ** Real vectors behind the finite floats *)

Lemma rdot_self_nonneg (u : rvec) : (0 <= rdot u u)%R.
Proof. destruct u as [[a b] c]. unfold rdot. nra. Qed.

Lemma rdot_self_zero (u : rvec) : rdot u u = 0%R -> u = (0, 0, 0)%R.
Proof.
  destruct u as [[a b] c]. unfold rdot. intros Hu.
  assert (a = 0)%R by nra. assert (b = 0)%R by nra. assert (c = 0)%R by nra.
  now subst.
Qed.

Lemma rnorm_pos (u : rvec) : u <> (0, 0, 0)%R -> (0 < rnorm u)%R.
Proof.
  intros Hu. unfold rnorm. apply sqrt_lt_R0.
  destruct (rdot_self_nonneg u) as [Hlt|Heq]; [assumption|].
  exfalso. apply Hu. now apply rdot_self_zero.
Qed.

Lemma rnorm_sqr (u : rvec) : (rnorm u * rnorm u = rdot u u)%R.
Proof. unfold rnorm. apply sqrt_sqrt, rdot_self_nonneg. Qed.

Lemma dot3_Fv (u v : rvec) : dot3 (Fv u) (Fv v) = Fin (rdot u v).
Proof. destruct u as [[a b] c], v as [[d e] f]. reflexivity. Qed.

Lemma cross_Fv (u v : rvec) : cross (Fv u) (Fv v) = Fv (rcross u v).
Proof. destruct u as [[a b] c], v as [[d e] f]. reflexivity. Qed.

Lemma linalg_norm_Fv (u : rvec) : linalg_norm (Fv u) = Fin (rnorm u).
Proof.
  unfold linalg_norm. rewrite dot3_Fv. unfold fsqrt.
  destruct (Rlt_dec (rdot u u) 0) as [Hlt|_]; [|reflexivity].
  pose proof (rdot_self_nonneg u). lra.
Qed.

Lemma fdiv_Fin (a b : R) : b <> 0%R -> fdiv (Fin a) (Fin b) = Fin (a / b).
Proof.
  intros Hb. unfold fdiv. destruct (Req_dec_T b 0); [contradiction|reflexivity].
Qed.

Lemma vmap_fdiv_Fv (u : rvec) (s : R) :
  s <> 0%R -> vmap (fun x => fdiv x (Fin s)) (Fv u) = Fv (rscale u s).
Proof.
  intros Hs. destruct u as [[a b] c]. unfold Fv, vmap, rscale.
  now rewrite !fdiv_Fin.
Qed.

Lemma normalize_Fv (u : rvec) :
  u <> (0, 0, 0)%R -> normalize (Fv u) = Fv (runit u).
Proof.
  intros Hu. unfold normalize. rewrite linalg_norm_Fv.
  apply vmap_fdiv_Fv. pose proof (rnorm_pos u Hu). lra.
Qed.

(** Algebra of the dot and cross products. *)

Lemma rdot_cross_l (u v : rvec) : rdot (rcross u v) u = 0%R.
Proof. destruct u as [[a b] c], v as [[d e] f]. unfold rdot, rcross. ring. Qed.


Lemma rdot_comm (u v : rvec) : rdot u v = rdot v u.
Proof. destruct u as [[a b] c], v as [[d e] f]. unfold rdot. ring. Qed.

Lemma lagrange (u v : rvec) :
  (rdot (rcross u v) (rcross u v)
   = rdot u u * rdot v v - rdot u v * rdot u v)%R.
Proof. destruct u as [[a b] c], v as [[d e] f]. unfold rdot, rcross. ring. Qed.


Lemma rdot_scale_l (u v : rvec) (s : R) :
  s <> 0%R -> rdot (rscale u s) v = (rdot u v / s)%R.
Proof.
  intros Hs. destruct u as [[a b] c], v as [[d e] f]. unfold rdot, rscale.
  field. assumption.
Qed.

Lemma rdot_scale_r (u v : rvec) (s : R) :
  s <> 0%R -> rdot u (rscale v s) = (rdot u v / s)%R.
Proof. intros Hs. now rewrite rdot_comm, rdot_scale_l, rdot_comm. Qed.

Lemma rcross_scale_l (u v : rvec) (s : R) :
  s <> 0%R -> rcross (rscale u s) v = rscale (rcross u v) s.
Proof.
  intros Hs. destruct u as [[a b] c], v as [[d e] f]. unfold rcross, rscale.
  f_equal; [f_equal|]; field; assumption.
Qed.

Lemma rcross_scale_r (u v : rvec) (s : R) :
  s <> 0%R -> rcross u (rscale v s) = rscale (rcross u v) s.
Proof.
  intros Hs. destruct u as [[a b] c], v as [[d e] f]. unfold rcross, rscale.
  f_equal; [f_equal|]; field; assumption.
Qed.

Lemma rscale_zero (u : rvec) (s : R) :
  s <> 0%R -> rscale u s = (0, 0, 0)%R -> u = (0, 0, 0)%R.
Proof.
  intros Hs. destruct u as [[a b] c]. unfold rscale. intros [= Ha Hb Hc].
  assert (forall x, x / s = 0 -> x = 0)%R as Hx.
  { intros x Hx. apply (Rmult_eq_compat_r s) in Hx.
    unfold Rdiv in Hx. rewrite Rmult_assoc, Rinv_l in Hx by assumption. lra. }
  now rewrite (Hx a Ha), (Hx b Hb), (Hx c Hc).
Qed.

Lemma runit_unit (u : rvec) : u <> (0, 0, 0)%R -> rdot (runit u) (runit u) = 1%R.
Proof.
  intros Hu. pose proof (rnorm_pos u Hu) as Hpos. unfold runit.
  rewrite rdot_scale_l, rdot_scale_r by lra. rewrite <- rnorm_sqr.
  field. lra.
Qed.

(** ** convert_fac *)

Lemma cross_nonzero_l (b r : rvec) :
  rcross b r <> (0, 0, 0)%R -> b <> (0, 0, 0)%R.
Proof.
  intros Hc Hb. apply Hc. subst b. destruct r as [[d e] f].
  unfold rcross. f_equal; [f_equal|]; ring.
Qed.

Section FacBasis.
Variables b r : rvec.
Hypothesis Hcross : rcross b r <> (0, 0, 0)%R.

Lemma b_nonzero : b <> (0, 0, 0)%R.
Proof. exact (cross_nonzero_l b r Hcross). Qed.

Lemma rnorm_b_pos : (0 < rnorm b)%R.
Proof. apply rnorm_pos, b_nonzero. Qed.

Lemma cross_unit_nonzero : rcross (runit b) r <> (0, 0, 0)%R.
Proof.
  pose proof rnorm_b_pos as Hpos. unfold runit.
  rewrite rcross_scale_l by lra. intros H0.
  apply rscale_zero in H0; [contradiction|lra].
Qed.

Lemma rfac_y_unit : rdot (rfac_y b r) (rfac_y b r) = 1%R.
Proof. apply runit_unit, cross_unit_nonzero. Qed.

Lemma rfac_y_perp_b : rdot (rfac_y b r) b = 0%R.
Proof.
  pose proof rnorm_b_pos as Hpos.
  pose proof (rnorm_pos _ cross_unit_nonzero) as Hpos'.
  unfold rfac_y, runit at 1. rewrite rdot_scale_l by lra.
  unfold runit. rewrite rcross_scale_l by lra.
  rewrite rdot_scale_l by lra.
  rewrite rdot_cross_l. unfold Rdiv. now rewrite !Rmult_0_l.
Qed.

Lemma cross_y_b_norm : rdot (rcross (rfac_y b r) b) (rcross (rfac_y b r) b) = rdot b b.
Proof. rewrite lagrange, rfac_y_unit, rfac_y_perp_b. ring. Qed.

Lemma cross_y_b_nonzero : rcross (rfac_y b r) b <> (0, 0, 0)%R.
Proof.
  intros H0. pose proof cross_y_b_norm as Hn. rewrite H0 in Hn.
  apply b_nonzero, rdot_self_zero. rewrite <- Hn. unfold rdot. ring.
Qed.


Lemma fac_basis_Fv :
  fac_basis (Fv b) (Fv r) = (Fv (rfac_x b r), Fv (rfac_y b r), Fv (runit b)).
Proof.
  pose proof rnorm_b_pos as Hpos. unfold fac_basis.
  rewrite linalg_norm_Fv, vmap_fdiv_Fv by lra. fold (runit b).
  rewrite cross_Fv, (normalize_Fv _ cross_unit_nonzero). fold (rfac_y b r).
  rewrite cross_Fv, (normalize_Fv _ cross_y_b_nonzero). reflexivity.
Qed.


End FacBasis.

Lemma fac_sample_Fv (v b r : rvec) :
  rcross b r <> (0, 0, 0)%R ->
  fac_sample (Fv v) (Fv b) (Fv r) = Fv (rfac_sample v b r).
Proof.
  intros Hc. unfold fac_sample. rewrite (fac_basis_Fv b r Hc).
  now rewrite !dot3_Fv.
Qed.


Lemma rows3_F2v (vs : list rvec) : rows3 (F2v vs) = Ok (map Fv vs).
Proof.
  unfold rows3, F2v. induction vs as [|[[a b] c] vs IH]; [reflexivity|].
  simpl. simpl in IH. now rewrite IH.
Qed.

Lemma fac_rows_Fv (vs bs rs : list rvec) :
  Forall2 (fun b r => rcross b r <> (0, 0, 0)%R) bs rs ->
  zip_with (fun x br => fac_sample x br.1 br.2) (map Fv vs)
    (zip (map Fv bs) (map Fv rs))
  = map Fv (zip_with (fun v br => rfac_sample v br.1 br.2) vs (zip bs rs)).
Proof.
  intros Hbr. revert vs. induction Hbr as [|b r bs rs Hc _ IH]; intros [|v vs];
    try reflexivity.
  simpl. rewrite (fac_sample_Fv v b r Hc). f_equal. apply IH.
Qed.


(** ** Real matrices behind the finite floats *)

Lemma transpose_Fm (m : rmat) : transpose (Fm m) = Fm (rtranspose m).
Proof. destruct m as [[[[a b] c] [[d e] f]] [[g h] i]]. reflexivity. Qed.

Lemma matmul_Fm (a b : rmat) : matmul (Fm a) (Fm b) = Fm (rmatmul a b).
Proof.
  destruct a as [[[[a0 a1] a2] [[a3 a4] a5]] [[a6 a7] a8]].
  destruct b as [[[[b0 b1] b2] [[b3 b4] b5]] [[b6 b7] b8]].
  reflexivity.
Qed.

Lemma rotate_Fm (rot p : rmat) : rotate (Fm rot) (Fm p) = Fm (rrotate rot p).
Proof. unfold rotate, rrotate. now rewrite matmul_Fm, transpose_Fm, matmul_Fm. Qed.

Lemma trace_Fm (m : rmat) : trace (Fm m) = Fin (rtrace m).
Proof. destruct m as [[[[a b] c] [[d e] f]] [[g h] i]]. reflexivity. Qed.

Lemma rtrace_rotate (rot p : rmat) :
  orthonormal rot -> rtrace (rrotate rot p) = rtrace p.
Proof.
  destruct rot as [[[[a b] c] [[d e] f]] [[g h] i]].
  destruct p as [[[[p00 p01] p02] [[p10 p11] p12]] [[p20 p21] p22]].
  unfold orthonormal, rdot. intros (H00 & H11 & H22 & H01 & H02 & H12).
  assert (a*a+d*d+g*g = 1)%R as C00 by nsatz.
  assert (b*b+e*e+h*h = 1)%R as C11 by nsatz.
  assert (c*c+f*f+i*i = 1)%R as C22 by nsatz.
  assert (a*b+d*e+g*h = 0)%R as C01 by nsatz.
  assert (a*c+d*f+g*i = 0)%R as C02 by nsatz.
  assert (b*c+e*f+h*i = 0)%R as C12 by nsatz.
  unfold rtrace, rrotate, rmatmul, rtranspose, rdot.
  transitivity (p00 * (a*a+d*d+g*g) + p11 * (b*b+e*e+h*h) + p22 * (c*c+f*f+i*i)
                + (p01 + p10) * (a*b+d*e+g*h) + (p02 + p20) * (a*c+d*f+g*i)
                + (p12 + p21) * (b*c+e*f+h*i))%R; [ring|].
  rewrite C00, C11, C22, C01, C02, C12. ring.
Qed.

(** ** rotate_tensor *)









Lemma rplane_orthonormal (c s : R) :
  (c * c + s * s = 1)%R -> orthonormal (rplane c s).
Proof. intros H. unfold orthonormal, rplane, rdot. repeat split; nra. Qed.

Lemma cos_sin_unit (t : R) : (cos t * cos t + sin t * sin t = 1)%R.
Proof. pose proof (sin2_cos2 t) as H. unfold Rsqr in H. lra. Qed.

Lemma half_atan_div (x y : R) :
  (fmul (Fin 0.5) (fatan (fdiv (Fin x) (Fin y))) = NaN /\ x = 0%R /\ y = 0%R) \/
  exists t, fmul (Fin 0.5) (fatan (fdiv (Fin x) (Fin y))) = Fin t.
Proof.
  unfold fdiv. destruct (Req_dec_T y 0) as [Hy|Hy].
  - unfold Rsign_inf. destruct (Req_dec_T x 0) as [Hx|Hx].
    + left. auto.
    + right. destruct (Rlt_dec 0 x); simpl; eauto.
  - right. simpl. eauto.
Qed.

Lemma pp_rotation_Fm (p : rmat) :
  exists t, pp_rotation (Fm p) = Fm (rplane (cos t) (sin t)).
Proof.
  destruct p as [[[[p00 p01] p02] [[p10 p11] p12]] [[p20 p21] p22]].
  unfold pp_rotation, Fm, Fv.
  change (fsub (Fin p22) (Fin p11)) with (Fin (p22 + - p11)).
  change (fmul (Fin 2) (Fin p12)) with (Fin (2 * p12)).
  destruct (half_atan_div (p22 + - p11) (2 * p12)) as [(-> & _)|[t ->]].
  - exists 0%R. reflexivity.
  - exists t. reflexivity.
Qed.














(** *** The degenerate directions *)






(** Without the guard of the ["pp"] branch, the ["qq"] rotation of a tensor
    whose perpendicular block is isotropic has no angle. *)
Lemma qq_rotation_isotropic (p : rmat) :
  ~ qq_defined p ->
  trace (rotate (qq_rotation (Fm p)) (Fm p)) = NaN /\
  trace (rotate (pp_rotation (Fm p)) (Fm p)) = trace (Fm p).
Proof.
  intros Hq. split.
  - destruct p as [[[[p00 p01] p02] [[p10 p11] p12]] [[p20 p21] p22]].
    unfold qq_defined in Hq.
    assert (p12 = 0 /\ p22 = p11)%R as [-> ->].
    { destruct (Req_dec_T p12 0), (Req_dec_T p22 p11); try tauto;
        exfalso; apply Hq; tauto. }
    unfold qq_rotation, Fm, Fv.
    change (fsub (Fin p11) (Fin p11)) with (Fin (p11 + - p11)).
    change (fmul (Fin 2) (Fin 0)) with (Fin (2 * 0)).
    unfold fdiv, Rsign_inf.
    destruct (Req_dec_T (p11 + - p11) 0) as [_|Hne]; [|exfalso; apply Hne; ring].
    destruct (Req_dec_T (2 * 0) 0) as [_|Hne]; [|exfalso; apply Hne; ring].
    reflexivity.
  - destruct (pp_rotation_Fm p) as [t ->].
    rewrite rotate_Fm, !trace_Fm. f_equal.
    apply rtrace_rotate, rplane_orthonormal, cos_sin_unit.
Qed.


(** ** calculate_epsilon: the caller's distributions *)

Lemma calculate_epsilon_store `{Pyrf} (vdf model_vdf : Dataset)
    (n sc_pot sc_pot' : DataArray farr) (h : heap) :
  times_differ (ds_time vdf) (da_time n) = false ->
  resample sc_pot (RefSeries (da_time n)) None = Ok sc_pot' ->
  (calculate_epsilon vdf model_vdf n sc_pot None h).1
  = dataset_idiv (Fin 1e18) vdf (dataset_idiv (Fin 1e18) model_vdf h).
Proof.
  intros Ht Hr. unfold calculate_epsilon. rewrite Ht. cbn [mbind result_bind].
  now rewrite Hr.
Qed.

Lemma calculate_epsilon_changes_vdf :
  example_vdf_heap !! 10 = Some (F4 [[[[Fin 2]]]]) /\
  (@calculate_epsilon example_pyrf example_vdf example_model_vdf
     example_scalar example_scalar None example_vdf_heap).1 !! 10
  = Some (F4 [[[[Fin (2 / 1e18)]]]]) /\
  (@calculate_epsilon example_pyrf example_vdf example_model_vdf
     example_scalar example_scalar None example_vdf_heap).1 !! 10
  <> example_vdf_heap !! 10.
Proof.
  assert (example_vdf_heap !! 10 = Some (F4 [[[[Fin 2]]]])) as Hn by reflexivity.
  assert ((@calculate_epsilon example_pyrf example_vdf example_model_vdf
             example_scalar example_scalar None example_vdf_heap).1 !! 10
          = Some (F4 [[[[Fin (2 / 1e18)]]]])) as Hn'.
  { rewrite (@calculate_epsilon_store example_pyrf _ _ _ _ example_scalar)
      by reflexivity.
    transitivity (Some (F4 [[[[fdiv (Fin 2) (Fin 1e18)]]]])); [reflexivity|].
    rewrite fdiv_Fin by lra. reflexivity. }
  split; [exact Hn|]. split; [exact Hn'|].
  rewrite Hn, Hn'. intros [= Heq]. lra.
Qed.

(** C1. Two functions write to their arguments: after [match_phibe_v] at
    a density of 1 cm^-3 the array of the caller's [n] is no longer the one
    passed in (it holds 1000000), and after [calculate_epsilon] at a
    distribution of value 2 the array of the caller's [vdf] is no longer the
    one passed in (it holds 2e-18). *)
Lemma inputs_changed_in_place :
  (match_phibe_v (Fin 1) 0 1 2 3 example_heap).1 !! 2 <> example_heap !! 2 /\
  (@calculate_epsilon example_pyrf example_vdf example_model_vdf
     example_scalar example_scalar None example_vdf_heap).1 !! 10
  <> example_vdf_heap !! 10.
Proof.
  split; [apply match_phibe_v_changes_n | apply calculate_epsilon_changes_vdf].
Qed.

(** ** The theorems at concrete inputs *)

Lemma example_series_dim_coords : dim_coords example_series.
Proof.
  intros k. unfold example_series. cbn [da_coords da_dims tail].
  destruct (decide (k = "comp"%string)) as [->|Hne].
  - rewrite lookup_singleton_eq. split; [intros _; left | intros _; eauto].
  - rewrite lookup_singleton_ne by congruence. split.
    + intros [x Hx]. discriminate.
    + intros Hin. inversion Hin as [|? ? ? Hin2]; [congruence | inversion Hin2].
Defined.

Lemma time_clip_closed_interval_witness :
  exists out,
    @time_clip seconds_clock _ _ (PDataArray example_series)
      (PList (D := unit) [SStr "2"; SStr "3"]) = Ok out /\
    da_data out = [[3; 4]; [5; 6]]%Q /\ da_time out = [2; 3]%Z /\
    da_dims out = da_dims example_series.
Proof.
  destruct (@time_clip_closed_interval seconds_clock _ example_series
              ["2"; "3"]%string "2"%string "3"%string
              (SDatetime 2) (SDatetime 3) 2%Z 3%Z)
    as (out & Hout & Hzip & Htime & Hdims & _);
    try reflexivity.
  - repeat (constructor; try lia).
  - exact example_series_dim_coords.
  - exists out. split; [exact Hout|].
    assert (Ok out = Ok (mkDataArray [[3; 4]; [5; 6]]%Q ["time"; "comp"]%string
                           [2; 3]%Z ∅ {[ "comp"%string := Coord [0; 1]%Q ∅ ]} ∅))
      as [= ->] by (rewrite <- Hout; vm_compute; reflexivity).
    repeat split.
Defined.




Lemma bins_strict_membership_witness :
  @mean_bins example_floatlib (PDataArray example_x)
    (PDataArray (set_data example_y (<[0 := 99%Q]> (da_data example_y)))) 2
  = @mean_bins example_floatlib (PDataArray example_x) (PDataArray example_y) 2 /\
  @median_bins example_floatlib (PDataArray example_x)
    (PDataArray (set_data example_y (<[0 := 99%Q]> (da_data example_y)))) 2
  = @median_bins example_floatlib (PDataArray example_x) (PDataArray example_y) 2.
Proof.
  pose proof (@bins_strict_membership example_floatlib example_x example_y 2
                (np_linspace 1 5 2) eq_refl eq_refl) as Hb.
  cbv zeta in Hb. destruct Hb as [_ Hb].
  apply (Hb 0 1%Q 99%Q); [reflexivity|].
  right; left. intros z Hz. simpl in Hz.
  repeat (destruct Hz as [<-|Hz]; [vm_compute; discriminate|]).
  destruct Hz.
Defined.





(** * Further properties *)

(** ** time_clip: closed form, nesting, empty intervals *)

Lemma filter_zip_fst {X Y} (P : X -> Prop) `{forall x, Decision (P x)}
    (l : list X) (k : list Y) :
  length k = length l ->
  map fst (filter (fun s => P s.1) (zip l k)) = filter P l.
Proof.
  revert k. induction l as [|x l IH]; intros [|y k] Hlen; try discriminate;
    [reflexivity|].
  simpl zip. rewrite !filter_cons. simpl.
  destruct (decide (P x)); simpl; rewrite IH by (now injection Hlen); reflexivity.
Qed.

Lemma zip_fst_snd {X Y} (l : list (X * Y)) : zip (map fst l) (map snd l) = l.
Proof. induction l as [|[x y] l IH]; [reflexivity|]. simpl. now rewrite IH. Qed.

Lemma py_slice_data {X} (i j : nat) (time : list Z) (data : list X)
    (Q : Z * X -> Prop) `{forall s, Decision (Q s)} :
  length data = length time ->
  py_slice i j (zip time data) = filter Q (zip time data) ->
  py_slice i j data = map snd (filter Q (zip time data)).
Proof.
  intros Hlen Hs. rewrite <- Hs, <- py_slice_zip.
  rewrite snd_zip; [reflexivity|].
  unfold py_slice. rewrite !length_take, !length_drop. lia.
Qed.

Lemma time_clip_eq `{TimeLib} {A B} (inp : DataArray (list A)) (tint : pyval B)
    (d0 d1 : scalar) (t_min t_max : Z) :
  well_formed inp ->
  time_clip_bounds tint = Ok (d0, d1) ->
  astropy_datetime64 d0 = Ok t_min -> astropy_datetime64 d1 = Ok t_max ->
  time_clip (PDataArray inp) tint = Ok (clipped t_min t_max inp).
Proof.
  intros (Hsorted & Hlen & Hdim & Hcoords) Hb Ht0 Ht1.
  unfold time_clip. rewrite Hb. cbn [mbind result_bind]. rewrite Ht0, Ht1.
  cbn [mbind result_bind].
  destruct (da_dims inp) as [|d ds] eqn:Hdims; [discriminate|].
  injection Hdim as ->. simpl tail in *.
  assert ((if decide (1 < S (size (da_coords inp)))
           then mapM (fun k => c ← of_option KeyError (da_coords inp !! k);
                               Ok (c_data c)) ds
           else Ok [])
          = Ok (map (coord_values (da_coords inp)) ds)) as ->.
  { destruct (decide (1 < S (size (da_coords inp)))) as [_|Hsz].
    - apply mapM_coords. intros k Hk. apply Hcoords. now rewrite Hdims.
    - assert (da_coords inp = ∅) as Hempty by (apply map_size_empty_iff; lia).
      destruct ds as [|k ds]; [reflexivity|].
      destruct (proj2 (Hcoords k)) as [c Hc]; [rewrite Hdims; left|].
      rewrite Hempty, lookup_empty in Hc. discriminate. }
  cbn [mbind result_bind]. unfold DataArray_of_coords.
  rewrite decide_True by (now rewrite length_map).
  rewrite decide_True by reflexivity.
  destruct (bisect_left_spec (da_time inp) t_min Hsorted) as [Hl1 Hl2].
  destruct (bisect_right_spec (da_time inp) t_max Hsorted) as [Hr1 Hr2].
  unfold clipped. rewrite Hdims. simpl tail. rewrite map_map. f_equal. f_equal.
  - apply py_slice_data; [assumption|].
    apply (slice_is_filter fst).
    + rewrite zip_with_take.
      now apply (Forall_zip_fst (fun t => (t < t_min)%Z)).
    + rewrite zip_with_drop.
      now apply (Forall_zip_fst (fun t => (t_min <= t)%Z)).
    + rewrite zip_with_take.
      now apply (Forall_zip_fst (fun t => (t <= t_max)%Z)).
    + rewrite zip_with_drop.
      now apply (Forall_zip_fst (fun t => (t_max < t)%Z)).
  - now apply (slice_is_filter (fun t => t)).
Qed.

Lemma filter_filter_impl {X} (P Q : X -> Prop) `{forall x, Decision (P x)}
    `{forall x, Decision (Q x)} (l : list X) :
  (forall x, Q x -> P x) -> filter Q (filter P l) = filter Q l.
Proof.
  intros HQP. induction l as [|x l IH]; [reflexivity|].
  rewrite (filter_cons P). destruct (decide (P x)) as [HP|HP].
  - rewrite !filter_cons. destruct (decide (Q x)); now rewrite IH.
  - rewrite IH, (filter_cons Q). destruct (decide (Q x)) as [HQ|]; [|reflexivity].
    now destruct (HP (HQP x HQ)).
Qed.

Lemma Sorted_filter (P : Z -> Prop) `{forall t, Decision (P t)} (l : list Z) :
  Sorted Z.le l -> Sorted Z.le (filter P l).
Proof.
  intros Hs. apply Sorted_StronglySorted in Hs; [|intros x y z; lia].
  apply StronglySorted_Sorted.
  induction Hs as [|x l Hl IH Hx]; [constructor|].
  rewrite filter_cons. destruct (decide (P x)); [|assumption].
  constructor; [assumption|].
  rewrite List.Forall_forall in *. intros y Hy. apply Hx.
  apply list_elem_of_In. apply list_elem_of_In in Hy.
  now apply list_elem_of_filter in Hy as [_ Hy].
Qed.

Lemma clipped_zip {A} (t_min t_max : Z) (inp : DataArray (list A)) :
  length (da_data inp) = length (da_time inp) ->
  zip (da_time (clipped t_min t_max inp)) (da_data (clipped t_min t_max inp))
  = filter (in_interval t_min t_max) (zip (da_time inp) (da_data inp)).
Proof.
  intros Hlen. cbn [clipped da_time da_data].
  rewrite <- (filter_zip_fst (fun t => (t_min <= t <= t_max)%Z)
                (da_time inp) (da_data inp) Hlen).
  apply zip_fst_snd.
Qed.

Lemma clipped_coord_values {A} (t_min t_max : Z) (inp : DataArray (list A))
    (k : string) :
  k ∈ tail (da_dims inp) ->
  coord_values (da_coords (clipped t_min t_max inp)) k
  = coord_values (da_coords inp) k.
Proof.
  intros Hk. cbn [clipped da_coords]. unfold coord_values at 1.
  rewrite (lookup_list_to_map_zip_map
             (fun k => Coord (coord_values (da_coords inp) k) ∅)).
  now rewrite decide_True by assumption.
Qed.

Lemma clipped_well_formed {A} (t_min t_max : Z) (inp : DataArray (list A)) :
  well_formed inp -> well_formed (clipped t_min t_max inp).
Proof.
  intros (Hsorted & Hlen & Hdim & Hcoords).
  refine (conj _ (conj _ (conj Hdim _))).
  - now apply Sorted_filter.
  - cbn [clipped da_time da_data].
    rewrite <- (filter_zip_fst (fun t => (t_min <= t <= t_max)%Z)
                  (da_time inp) (da_data inp) Hlen).
    now rewrite !length_map.
  - intros k. cbn [clipped da_coords da_dims].
    rewrite (lookup_list_to_map_zip_map
               (fun k => Coord (coord_values (da_coords inp) k) ∅)).
    destruct (decide (k ∈ tail (da_dims inp))) as [Hk|Hk].
    + split; eauto.
    + split; [intros [x Hx]; discriminate | contradiction].
Qed.

Lemma clipped_nested {A} (a b c d : Z) (inp : DataArray (list A)) :
  length (da_data inp) = length (da_time inp) ->
  (a <= c)%Z -> (d <= b)%Z ->
  clipped c d (clipped a b inp) = clipped c d inp.
Proof.
  intros Hlen Hac Hdb.
  pose proof (clipped_zip a b inp Hlen) as Hz.
  pose proof (clipped_coord_values a b inp) as Hcv.
  unfold clipped in *. cbn [da_time da_data da_dims da_time_attrs da_attrs
    da_coords] in *. rewrite Hz. f_equal.
  - f_equal. apply filter_filter_impl. unfold in_interval. intros s; lia.
  - apply filter_filter_impl. intros t; lia.
  - f_equal. f_equal. apply map_ext_in. intros k Hk. f_equal.
    apply Hcv. now apply list_elem_of_In.
Qed.

(** X1. Clipping a well-formed series to an interval and then to an
    interval inside it gives the result of clipping to the inner interval
    at once; with the same interval twice, clipping is idempotent. *)
Theorem time_clip_nested `{TimeLib} {A B C} (inp : DataArray (list A))
    (outer : pyval B) (inner : pyval C) (d0 d1 e0 e1 : scalar) (a b c d : Z) :
  well_formed inp ->
  time_clip_bounds outer = Ok (d0, d1) ->
  astropy_datetime64 d0 = Ok a -> astropy_datetime64 d1 = Ok b ->
  time_clip_bounds inner = Ok (e0, e1) ->
  astropy_datetime64 e0 = Ok c -> astropy_datetime64 e1 = Ok d ->
  (a <= c)%Z -> (d <= b)%Z ->
  exists out,
    time_clip (PDataArray inp) outer = Ok out /\
    time_clip (PDataArray out) inner = time_clip (PDataArray inp) inner.
Proof.
  intros Hwf Hb1 Ha Hb Hb2 Hc Hd Hac Hdb.
  exists (clipped a b inp). split; [now apply (time_clip_eq inp outer d0 d1)|].
  rewrite (time_clip_eq (clipped a b inp) inner e0 e1 c d)
    by (try apply clipped_well_formed; assumption).
  rewrite (time_clip_eq inp inner e0 e1 c d) by assumption.
  f_equal. apply clipped_nested; [apply Hwf | assumption..].
Qed.

Lemma example_series_well_formed : well_formed example_series.
Proof.
  refine (conj _ (conj eq_refl (conj eq_refl _))).
  - repeat (constructor; try lia).
  - intros k. unfold example_series. cbn [da_coords da_dims tail].
    destruct (decide (k = "comp"%string)) as [->|Hne].
    + rewrite lookup_singleton_eq. split; [intros _; left | intros _; eauto].
    + rewrite lookup_singleton_ne by congruence. split.
      * intros [x Hx]. discriminate.
      * intros Hin. inversion Hin as [|? ? ? Hin2]; [congruence | inversion Hin2].
Defined.

Lemma time_clip_nested_witness :
  exists out,
    @time_clip seconds_clock _ unit (PDataArray example_series)
      (PList [SStr "1"; SStr "4"]) = Ok out /\
    @time_clip seconds_clock _ unit (PDataArray out) (PList [SStr "2"; SStr "3"])
    = @time_clip seconds_clock _ unit (PDataArray example_series)
        (PList [SStr "2"; SStr "3"]).
Proof.
  apply (@time_clip_nested seconds_clock _ unit unit example_series
           (PList [SStr "1"; SStr "4"]) (PList [SStr "2"; SStr "3"])
           (SDatetime 1) (SDatetime 4) (SDatetime 2) (SDatetime 3) 1 4 2 3);
    try reflexivity; try lia.
  exact example_series_well_formed.
Defined.

(** X2. An interval that holds no instant of a well-formed series, in
    particular one whose end precedes its start, gives a series without
    samples and with the dimensions and attributes of the input: no error
    is raised. *)
Theorem time_clip_outside `{TimeLib} {A B} (inp : DataArray (list A))
    (tint : pyval B) (d0 d1 : scalar) (t_min t_max : Z) :
  well_formed inp ->
  time_clip_bounds tint = Ok (d0, d1) ->
  astropy_datetime64 d0 = Ok t_min -> astropy_datetime64 d1 = Ok t_max ->
  (t_max < t_min)%Z \/ Forall (fun t => (t < t_min)%Z \/ (t_max < t)%Z) (da_time inp) ->
  exists out,
    time_clip (PDataArray inp) tint = Ok out /\
    da_data out = [] /\ da_time out = [] /\
    da_dims out = da_dims inp /\ da_attrs out = da_attrs inp.
Proof.
  intros Hwf Hb Ht0 Ht1 Hout.
  exists (clipped t_min t_max inp).
  split; [now apply (time_clip_eq inp tint d0 d1)|].
  assert (Forall (fun t => ~ (t_min <= t <= t_max)%Z) (da_time inp)) as Hnone.
  { destruct Hout as [Hrev|Hout].
    - apply Forall_forall. intros t _. lia.
    - eapply Forall_impl; [exact Hout|]. simpl. intros t Ht. lia. }
  cbn [clipped da_data da_time da_dims da_attrs].
  split; [|split; [now apply filter_none | split; reflexivity]].
  rewrite filter_none; [reflexivity|].
  now apply (Forall_zip_fst (fun t => ~ (t_min <= t <= t_max)%Z)).
Qed.

Lemma time_clip_outside_witness :
  exists out,
    @time_clip seconds_clock _ unit (PDataArray example_series)
      (PList [SStr "3"; SStr "2"]) = Ok out /\
    da_data out = [] /\ da_time out = [] /\
    da_dims out = da_dims example_series /\
    da_attrs out = da_attrs example_series.
Proof.
  apply (@time_clip_outside seconds_clock _ unit example_series
           (PList [SStr "3"; SStr "2"]) (SDatetime 3) (SDatetime 2) 3 2);
    try reflexivity.
  - exact example_series_well_formed.
  - left. lia.
Defined.

(** ** extend_tint: number of bounds, successive extensions *)

Lemma mapM_Ok_length {X Y} (f : X -> result Y) (l : list X) :
  Forall (fun x => exists y, f x = Ok y) l ->
  exists k, mapM f l = Ok k /\ length k = length l.
Proof.
  induction 1 as [|x l [y Hy] _ (k & Hk & Hlen)]; [now exists []|].
  exists (y :: k). simpl. rewrite Hy. cbn [mbind result_bind].
  rewrite Hk. cbn [mbind result_bind mret result_ret]. split; [reflexivity|].
  simpl. now rewrite Hlen.
Qed.

(** X3. An interval whose bounds all parse but which has not exactly two
    of them is refused with [ValueError], whatever [ext] is. *)
Theorem extend_tint_two_bounds `{TimeLib} (tint : list scalar)
    (ext : option (list Q)) :
  Forall (fun bound => exists u, unix_of_bound bound = Ok u) tint ->
  length tint <> 2 ->
  extend_tint tint ext = Raise ValueError.
Proof.
  intros Hparse Hlen. unfold extend_tint.
  destruct (mapM_Ok_length _ _ Hparse) as (k & -> & Hk).
  cbn [mbind result_bind].
  destruct k as [|s [|e [|x k]]]; try reflexivity.
  simpl in Hk. congruence.
Qed.

Lemma extend_tint_two_bounds_witness :
  @extend_tint seconds_clock [SStr "100"; SStr "200"; SStr "300"] None
  = Raise ValueError.
Proof.
  apply (@extend_tint_two_bounds seconds_clock); [|simpl; lia].
  repeat constructor; eexists; reflexivity.
Defined.

Lemma Qplus_assoc_eq (a b c : Q) : (a + b + c)%Q = (a + (b + c))%Q.
Proof.
  destruct a as [na da], b as [nb db], c as [nc dc]. unfold Qplus. simpl.
  f_equal; [|apply eq_sym, Pos.mul_assoc].
  rewrite !Pos2Z.inj_mul. ring.
Qed.

(** X4. Extending an interval by [e] and the result by [f] gives the
    interval extended by [e + f] at once (in exact arithmetic), provided the
    time library reads back the two bounds printed in between. *)
Theorem extend_tint_twice `{TimeLib} (a b : scalar) (ua ub e0 e1 f0 f1 : Q)
    (s e : string) :
  unix_of_bound a = Ok ua -> unix_of_bound b = Ok ub ->
  round_trips (ua + e0) -> round_trips (ub + e1) ->
  extend_tint [a; b] (Some [e0; e1]) = Ok [s; e] ->
  extend_tint [SStr s; SStr e] (Some [f0; f1])
  = extend_tint [a; b] (Some [e0 + f0; e1 + f1]%Q).
Proof.
  intros Ha Hb R0 R1. unfold extend_tint. simpl mapM.
  rewrite Ha, Hb. cbn [mbind result_bind mret result_ret].
  change (py_index [e0; e1] 0) with (Ok e0).
  change (py_index [e0; e1] 1) with (Ok e1).
  change (py_index [f0; f1] 0) with (Ok f0).
  change (py_index [f0; f1] 1) with (Ok f1).
  change (py_index [(e0 + f0)%Q; (e1 + f1)%Q] 0) with (Ok (e0 + f0)%Q).
  change (py_index [(e0 + f0)%Q; (e1 + f1)%Q] 1) with (Ok (e1 + f1)%Q).
  cbn [mbind result_bind]. intros [= <- <-].
  unfold round_trips in R0, R1. rewrite R0, R1.
  cbn [mbind result_bind mret result_ret].
  now rewrite !Qplus_assoc_eq.
Qed.

Lemma extend_tint_twice_witness :
  @extend_tint seconds_clock [SStr "110"; SStr "220"] (Some [1; 2]%Q)
  = @extend_tint seconds_clock [SStr "100"; SStr "200"]
      (Some [10 + 1; 20 + 2]%Q).
Proof.
  apply (@extend_tint_twice seconds_clock (SStr "100") (SStr "200")
           100%Q 200%Q 10%Q 20%Q 1%Q 2%Q "110" "220"); reflexivity.
Defined.

(** ** medfilt: equivalent windows, shapes that cannot be labelled *)

(** X5. An even [n_pts] filters as [n_pts + 1] does, and a float as its
    floor does. *)
Theorem medfilt_equivalent_windows `{SciPy} (inp : pyval ndarray) :
  (forall n, Z.even n = true ->
     medfilt inp (SInt n) = medfilt inp (SInt (n + 1))) /\
  (forall x, medfilt inp (SFloat x) = medfilt inp (SInt (Qfloor x))).
Proof.
  assert (forall a b, medfilt_window a = medfilt_window b ->
            medfilt inp a = medfilt inp b) as Hw.
  { intros a b Hab. destruct inp as [s|l|l|d]; try reflexivity.
    unfold medfilt. now rewrite Hab. }
  split.
  - intros n Hn. apply Hw. rewrite !medfilt_window_int. f_equal.
    unfold odd_window. rewrite !Zmod_odd, Z.odd_add, <- !Z.negb_even, Hn.
    reflexivity.
  - intros x. apply Hw. reflexivity.
Qed.

Lemma medfilt_equivalent_windows_witness :
  @medfilt scipy_1d (PDataArray example_signal) (SInt 2)
  = @medfilt scipy_1d (PDataArray example_signal) (SInt (2 + 1)).
Proof.
  apply (proj1 (@medfilt_equivalent_windows scipy_1d (PDataArray example_signal))).
  reflexivity.
Defined.

Lemma medfilt_columns_Ok_shape `{SciPy} (inp_data : ndarray) (k : Z)
    (idxs : list nat) (out_data out' : ndarray) :
  for_loop (fun out_data i =>
              w ← signal_medfilt (axis1_get i inp_data) k;
              axis1_set i w out_data) idxs out_data = Ok out' ->
  shape out' = shape out_data.
Proof.
  revert out_data. induction idxs as [|i idxs IH]; intros out_data Hl.
  - now injection Hl as ->.
  - simpl in Hl.
    destruct (signal_medfilt (axis1_get i inp_data) k) as [w|]; [|discriminate].
    cbn [mbind result_bind] in Hl.
    destruct (axis1_set i w out_data) as [o1|] eqn:Hset; [|discriminate].
    cbn [mbind result_bind] in Hl. rewrite (IH _ Hl).
    unfold axis1_set in Hset.
    destruct (shape out_data) as [|n0 [|n1 rest]]; try discriminate.
    destruct (decide (shape w = n0 :: rest)); [|discriminate].
    destruct (decide (i < n1)); [|discriminate].
    now injection Hset as <-.
Qed.

(** X6. A two-dimensional series with one column or with nine columns is
    never filtered: the filtered array is squeezed to one dimension, or
    reshaped to a tensor, and no longer fits the two dimensions of the
    input, so that the function raises whatever the filter returns. *)
Theorem medfilt_one_or_nine_columns `{SciPy} (inp : DataArray ndarray)
    (n_pts : scalar) (nt c : nat) :
  shape (da_data inp) = [nt; c] -> length (da_dims inp) = 2 ->
  c = 1 \/ c = 9 ->
  forall out, medfilt (PDataArray inp) n_pts <> Ok out.
Proof.
  intros Hshape Hdims Hc out. unfold medfilt.
  destruct (medfilt_window n_pts) as [k|]; [|discriminate].
  cbn [mbind result_bind]. rewrite Hshape. cbn [head of_option mbind result_bind].
  unfold ndim. rewrite Hshape. rewrite decide_False by (simpl; lia).
  cbn [mbind result_bind]. rewrite Hshape.
  change ([nt; c] !! 1) with (Some c). cbn [mbind result_bind].
  rewrite Hshape.
  destruct (medfilt_columns _ _ _ _) as [o1|] eqn:Hloop; [|discriminate].
  apply medfilt_columns_Ok_shape in Hloop. cbn [zeros shape] in Hloop.
  cbn [mbind result_bind].
  destruct Hc as [-> | ->].
  - rewrite decide_False by lia. cbn [mbind result_bind]. rewrite Hloop.
    cbn [mbind result_bind]. unfold DataArray_like.
    rewrite (axis1_get_shape 0 o1 nt 1 [] Hloop).
    unfold coords_fit_b. rewrite Hdims. simpl. discriminate.
  - rewrite decide_True by reflexivity. unfold reshape. rewrite Hloop.
    destruct (decide _) as [_|Hn]; [|discriminate].
    cbn [mbind result_bind shape]. unfold DataArray_like. cbn [shape].
    unfold coords_fit_b. rewrite Hdims. simpl. discriminate.
Qed.

Lemma medfilt_one_or_nine_columns_witness :
  ~ exists out, @medfilt scipy_1d (PDataArray example_column) (SInt 3) = Ok out.
Proof.
  intros [out Hout].
  apply (@medfilt_one_or_nine_columns scipy_1d example_column (SInt 3) 2 1
           eq_refl eq_refl (or_introl eq_refl) out Hout).
Defined.

(** ** mean_bins and median_bins: sizes, empty bins, signs, errors *)

Lemma length_Qinsert (x : Q) (l : list Q) : length (Qinsert x l) = S (length l).
Proof.
  induction l as [|y l IH]; [reflexivity|]. simpl.
  destruct (Qle_bool x y); simpl; [reflexivity|now rewrite IH].
Qed.

Lemma length_Qsort (l : list Q) : length (Qsort l) = length l.
Proof.
  induction l as [|x l IH]; [reflexivity|]. simpl.
  now rewrite length_Qinsert, IH.
Qed.

Lemma length_np_linspace (lo hi : Q) (n : nat) :
  length (np_linspace lo hi n) = S n.
Proof.
  destruct n; [reflexivity|]. unfold np_linspace.
  rewrite length_app, length_map, length_seq. simpl. lia.
Qed.

Lemma x_edge_Ok (x : list Q) (bins : Z) :
  x <> [] -> (0 <= bins)%Z ->
  exists lo hi,
    x_edge x bins = Ok (np_linspace lo hi (Z.to_nat bins)) /\
    head (Qsort x) = Some lo /\ last (Qsort x) = Some hi.
Proof.
  intros Hx Hb.
  assert (Qsort x <> []) as Hs.
  { intros Hnil. apply Hx. apply length_zero_iff_nil.
    now rewrite <- length_Qsort, Hnil. }
  destruct (Qsort x) as [|lo s] eqn:Hsort; [congruence|].
  destruct (last (lo :: s)) as [hi|] eqn:Hlast.
  - exists lo, hi. split; [|split; reflexivity || assumption].
    unfold x_edge. rewrite Hsort.
    rewrite (py_index_first (lo :: s) lo eq_refl). cbn [mbind result_bind].
    rewrite (py_index_last (lo :: s) hi Hlast). cbn [mbind result_bind].
    destruct (Z.ltb_spec bins 0); [lia|reflexivity].
  - apply last_None in Hlast. discriminate.
Qed.

(** X7. For a non-empty [x], a [y] of the same length and a number of bins
    that is not negative, both functions return, and the bin centres, the
    aggregates and the standard deviations each have one entry per bin. *)
Theorem bins_output_length `{FloatLib} (dx dy : DataArray (list Q)) (bins : Z) :
  da_data dx <> [] ->
  length (da_data dy) = length (da_data dx) ->
  (0 <= bins)%Z ->
  exists c m ds md,
    mean_bins (PDataArray dx) (PDataArray dy) bins = Ok (c, m, ds) /\
    median_bins (PDataArray dx) (PDataArray dy) bins = Ok md /\
    length c = Z.to_nat bins /\ length m = Z.to_nat bins /\
    length (ds_sigma ds) = Z.to_nat bins /\
    length (ds_bins md) = Z.to_nat bins /\
    length (ds_data md) = Z.to_nat bins /\
    length (ds_sigma md) = Z.to_nat bins.
Proof.
  intros Hx Hlen Hb.
  destruct (x_edge_Ok _ bins Hx Hb) as (lo & hi & Hedge & _).
  unfold mean_bins, median_bins, array_data. cbn [mbind result_bind].
  rewrite Hedge. cbn [mbind result_bind]. rewrite !decide_True by assumption.
  do 4 eexists. split; [reflexivity|]. split; [reflexivity|].
  cbn [ds_sigma ds_bins ds_data]. unfold bin_centres.
  rewrite !length_map, length_take, length_np_linspace, length_seq.
  repeat split; lia.
Qed.

Lemma bins_output_length_witness :
  exists c m ds md,
    @mean_bins example_floatlib (PDataArray example_x) (PDataArray example_y) 2
    = Ok (c, m, ds) /\
    @median_bins example_floatlib (PDataArray example_x) (PDataArray example_y) 2
    = Ok md /\
    length c = 2 /\ length m = 2 /\ length (ds_sigma ds) = 2 /\
    length (ds_bins md) = 2 /\ length (ds_data md) = 2 /\
    length (ds_sigma md) = 2.
Proof.
  apply (@bins_output_length example_floatlib example_x example_y 2);
    [discriminate | reflexivity | lia].
Defined.

Lemma strictly_between_none (x y : list Q) (lo hi : Q) :
  (forall xk, In xk x -> ~ ((lo < xk)%Q /\ (xk < hi)%Q)) ->
  strictly_between x y lo hi = [].
Proof.
  intros Hx. unfold strictly_between. rewrite filter_none; [reflexivity|].
  apply Forall_forall. intros [xk yk] Hin. simpl.
  apply Hx. apply list_elem_of_In.
  apply (elem_of_zip_l _ _ _ _ Hin).
Qed.

Lemma map_const_seq {X} (v : X) (n : nat) :
  map (fun _ => v) (seq 0 n) = replicate n v.
Proof.
  generalize 0. induction n as [|n IH]; intros s; [reflexivity|].
  simpl. now rewrite IH.
Qed.

(** X8. When all values of [x] are equal, no sample lies strictly inside a
    bin: the functions return NaN for the mean, the median and the standard
    deviation of every bin. *)
Theorem bins_constant_x `{FloatLib} (dx dy : DataArray (list Q)) (bins : Z)
    (v : Q) :
  da_data dx <> [] ->
  Forall (fun z => (z == v)%Q) (da_data dx) ->
  length (da_data dy) = length (da_data dx) ->
  (0 <= bins)%Z ->
  exists c,
    mean_bins (PDataArray dx) (PDataArray dy) bins
    = Ok (c, replicate (Z.to_nat bins) qnan,
          mkBins c (replicate (Z.to_nat bins) qnan)
            (replicate (Z.to_nat bins) qnan)) /\
    median_bins (PDataArray dx) (PDataArray dy) bins
    = Ok (mkBins c (replicate (Z.to_nat bins) qnan)
            (replicate (Z.to_nat bins) qnan)).
Proof.
  intros Hx Hv Hlen Hb.
  destruct (x_edge_Ok _ bins Hx Hb) as (lo & hi & Hedge & _).
  exists (bin_centres (np_linspace lo hi (Z.to_nat bins))).
  unfold mean_bins, median_bins, array_data. cbn [mbind result_bind].
  rewrite Hedge. cbn [mbind result_bind]. rewrite !decide_True by assumption.
  assert (forall i, In i (seq 0 (Z.to_nat bins)) ->
            y_bins (da_data dx) (da_data dy)
              (nth i (np_linspace lo hi (Z.to_nat bins)) 0%Q)
              (nth (S i) (np_linspace lo hi (Z.to_nat bins)) 0%Q) = []) as Hy.
  { intros i Hi. apply in_seq in Hi. rewrite y_bins_strict.
    apply strictly_between_none. intros xk Hxk.
    apply (on_edge_in_no_bin (da_data dx) bins); [assumption| |lia].
    right; left. intros z Hz. rewrite List.Forall_forall in Hv.
    rewrite (Hv xk Hxk), (Hv z Hz). apply Qle_refl. }
  assert (forall (g : list Q -> qnum * qnum),
            g [] = (qnan, qnan) ->
            map (fun i => g (y_bins (da_data dx) (da_data dy)
                               (nth i (np_linspace lo hi (Z.to_nat bins)) 0%Q)
                               (nth (S i) (np_linspace lo hi (Z.to_nat bins)) 0%Q)))
                (seq 0 (Z.to_nat bins))
            = replicate (Z.to_nat bins) (qnan, qnan)) as Hm.
  { intros g Hg. rewrite <- map_const_seq. apply map_ext_in.
    intros i Hi. now rewrite (Hy i Hi). }
  rewrite (Hm (fun yb => (np_mean yb, np_std yb)) eq_refl).
  rewrite (Hm (fun yb => (np_median yb, np_std yb)) eq_refl).
  change (map fst (replicate ?n ?p)) with (fst <$> replicate n p).
  change (map snd (replicate ?n ?p)) with (snd <$> replicate n p).
  rewrite !fmap_replicate. split; reflexivity.
Qed.

Lemma bins_constant_x_witness :
  exists c,
    @mean_bins example_floatlib (PDataArray example_const)
      (PDataArray example_ramp) 2
    = Ok (c, [qnan; qnan], mkBins c [qnan; qnan] [qnan; qnan]) /\
    @median_bins example_floatlib (PDataArray example_const)
      (PDataArray example_ramp) 2
    = Ok (mkBins c [qnan; qnan] [qnan; qnan]).
Proof.
  apply (@bins_constant_x example_floatlib example_const example_ramp 2 3%Q);
    [discriminate | | reflexivity | lia].
  repeat constructor.
Defined.

Lemma Qabs_Qopp_eq (v : Q) : Qabs (- v) = Qabs v.
Proof. destruct v as [n d]. unfold Qabs, Qopp. simpl. now rewrite Z.abs_opp. Qed.

Lemma bool_index_map (f : Q -> Q) (y : list Q) (mask : list bool) :
  bool_index (map f y) mask = map f (bool_index y mask).
Proof.
  unfold bool_index. revert mask.
  induction y as [|v y IH]; intros [|m mask]; try reflexivity.
  simpl zip. rewrite !filter_cons. simpl.
  destruct (decide (m = true)); simpl; now rewrite IH.
Qed.

Lemma y_bins_opp (x y : list Q) (lo hi : Q) :
  y_bins x (map Qopp y) lo hi = y_bins x y lo hi.
Proof.
  unfold y_bins. rewrite bool_index_map, map_map.
  apply map_ext. intros v. apply Qabs_Qopp_eq.
Qed.

(** X9. The aggregates are taken over absolute values: changing the sign
    of every sample of [y] changes the result of neither function. *)
Theorem bins_sign_of_y `{FloatLib} (x : pyval (list Q)) (dy : DataArray (list Q))
    (bins : Z) :
  mean_bins x (PDataArray (set_data dy (map Qopp (da_data dy)))) bins
  = mean_bins x (PDataArray dy) bins /\
  median_bins x (PDataArray (set_data dy (map Qopp (da_data dy)))) bins
  = median_bins x (PDataArray dy) bins.
Proof.
  split.
  - destruct x as [s|l|l|dx]; try reflexivity.
    unfold mean_bins. cbn [set_data da_data].
    destruct (x_edge (da_data dx) bins) as [edges|]; [|reflexivity].
    cbn [mbind result_bind]. rewrite length_map.
    destruct (decide (length (da_data dy) = length (da_data dx))); [|reflexivity].
    assert (forall g : list Q -> qnum * qnum,
              map (fun i => g (y_bins (da_data dx) (map Qopp (da_data dy))
                                 (nth i edges 0%Q) (nth (S i) edges 0%Q)))
                  (seq 0 (Z.to_nat bins))
              = map (fun i => g (y_bins (da_data dx) (da_data dy)
                                   (nth i edges 0%Q) (nth (S i) edges 0%Q)))
                    (seq 0 (Z.to_nat bins))) as Hm
      by (intros g; apply map_ext; intros i; now rewrite y_bins_opp).
    now rewrite (Hm (fun yb => (np_mean yb, np_std yb))).
  - unfold median_bins.
    destruct x as [[| | | | |]|l|l|dx]; try reflexivity;
      cbn [array_data set_data da_data mbind result_bind];
      try (destruct (mapM scalar_num l) as [xs|]; [|reflexivity];
           cbn [mbind result_bind]);
      match goal with
      | |- context [x_edge ?xs bins] =>
          destruct (x_edge xs bins) as [edges|]; [|reflexivity];
          cbn [mbind result_bind]; rewrite length_map;
          destruct (decide (length (da_data dy) = length xs)); [|reflexivity];
          assert (forall g : list Q -> qnum * qnum,
                    map (fun i => g (y_bins xs (map Qopp (da_data dy))
                                       (nth i edges 0%Q) (nth (S i) edges 0%Q)))
                        (seq 0 (Z.to_nat bins))
                    = map (fun i => g (y_bins xs (da_data dy)
                                         (nth i edges 0%Q) (nth (S i) edges 0%Q)))
                          (seq 0 (Z.to_nat bins))) as Hm
            by (intros g; apply map_ext; intros i; now rewrite y_bins_opp);
          now rewrite (Hm (fun yb => (np_median yb, np_std yb)))
      end.
Qed.

(** X10. Both functions raise [IndexError] for an empty [x], [ValueError]
    for a negative number of bins, and [IndexError] when [y] has not the
    length of [x] and there is at least one bin. *)
Theorem bins_errors `{FloatLib} (dx dy : DataArray (list Q)) (bins : Z) :
  (da_data dx = [] ->
     mean_bins (PDataArray dx) (PDataArray dy) bins = Raise IndexError /\
     median_bins (PDataArray dx) (PDataArray dy) bins = Raise IndexError) /\
  (da_data dx <> [] -> (bins < 0)%Z ->
     mean_bins (PDataArray dx) (PDataArray dy) bins = Raise ValueError /\
     median_bins (PDataArray dx) (PDataArray dy) bins = Raise ValueError) /\
  (da_data dx <> [] -> (0 < bins)%Z ->
     length (da_data dy) <> length (da_data dx) ->
     mean_bins (PDataArray dx) (PDataArray dy) bins = Raise IndexError /\
     median_bins (PDataArray dx) (PDataArray dy) bins = Raise IndexError).
Proof.
  unfold mean_bins, median_bins, array_data. cbn [mbind result_bind].
  split; [|split].
  - intros ->. split; reflexivity.
  - intros Hx Hb.
    destruct (x_edge_Ok _ 0 Hx ltac:(lia)) as (lo & hi & Hedge & _).
    assert (x_edge (da_data dx) bins = Raise ValueError) as ->.
    { unfold x_edge in *.
      destruct (py_index (Qsort (da_data dx)) 0); [|discriminate].
      cbn [mbind result_bind] in *.
      destruct (py_index (Qsort (da_data dx)) (-1)); [|discriminate].
      cbn [mbind result_bind].
      destruct (Z.ltb_spec bins 0); [reflexivity|lia]. }
    split; reflexivity.
  - intros Hx Hb Hlen.
    destruct (x_edge_Ok _ bins Hx ltac:(lia)) as (lo & hi & -> & _).
    cbn [mbind result_bind]. rewrite !decide_False by assumption.
    rewrite !decide_False by lia. split; reflexivity.
Qed.

Lemma bins_errors_witness :
  @mean_bins example_floatlib (PDataArray example_x) (PDataArray example_ramp) 2
  = Raise IndexError /\
  @median_bins example_floatlib (PDataArray example_x) (PDataArray example_ramp) 2
  = Raise IndexError.
Proof.
  apply (@bins_errors example_floatlib example_x example_ramp 2);
    [discriminate | lia | simpl; lia].
Defined.

(** ** convert_fac: closed form, the field itself, scale of the field *)

Lemma convert_fac_eq `{Pyrf} (inp b_bgd : DataArray farr)
    (r : position) (vs bs rs : list rvec) (comp : coord) :
  da_data inp = F2v vs -> da_data b_bgd = F2v bs -> length vs = length bs ->
  da_coords inp !! "comp"%string = Some comp ->
  position_is r b_bgd rs ->
  Forall2 (fun b r => rcross b r <> (0, 0, 0)%R) bs rs ->
  convert_fac (PDataArray inp) (PDataArray b_bgd) r
  = Ok (mkDataArray
          (F2v (zip_with (fun v br => rfac_sample v br.1 br.2) vs (zip bs rs)))
          ["time"; "comp"]%string (da_time inp) ∅
          {[ "comp"%string := comp ]} ∅).
Proof.
  intros Hinp Hb Hlen Hcomp Hr Hbr.
  pose proof (Forall2_length _ _ _ Hbr) as Hlen_r.
  unfold convert_fac. rewrite Hinp, Hb.
  assert (farr_len (F2v vs) = length vs) as Hlv
    by (unfold F2v, farr_len; now rewrite length_map).
  assert (farr_len (F2v bs) = length bs) as Hlb
    by (unfold F2v, farr_len; now rewrite length_map).
  rewrite decide_False by (rewrite Hlv, Hlb; lia).
  cbn [mbind result_bind]. rewrite Hb, !rows3_F2v. cbn [mbind result_bind].
  assert (match r with
          | RList l =>
              if decide (length l = 3)
              then rv ← vec3_of_list l;
                   Ok (replicate (farr_len (F2v bs)) rv)
              else Raise TypeError
          | RSeries r0 =>
              r1 ← resample r0 (RefSeries (da_time b_bgd)) None;
              rows3 (da_data r1)
          | ROther => Raise TypeError
          end = Ok (map Fv rs)) as ->.
  { destruct r as [l|d|]; simpl in Hr.
    - destruct Hr as (rv & -> & ->). destruct rv as [[r0 r1] r2]. simpl.
      rewrite Hb. change (map Fv ?l) with (Fv <$> l).
      now rewrite fmap_replicate.
    - destruct Hr as (d' & -> & Hd'). cbn [mbind result_bind].
      now rewrite Hd', rows3_F2v.
    - contradiction. }
  cbn [mbind result_bind].
  rewrite decide_True by (rewrite !length_map; lia).
  unfold F2v at 1.
  assert (match head (map (fun v => list_of_vec3 (Fv v)) vs) with
          | None | Some [_; _; _] => true
          | _ => false
          end = true) as Hhead by (now destruct vs as [|[[a b] c] vs]).
  destruct (head (map (fun v => list_of_vec3 (Fv v)) vs))
    as [[|x0 [|x1 [|x2 [|x3 row]]]]|]; try discriminate.
  - cbn [mbind result_bind].
    rewrite decide_True by (rewrite !length_map; lia).
    rewrite Hcomp. cbn [of_option mbind result_bind].
    rewrite (fac_rows_Fv vs bs rs Hbr). unfold F2v. now rewrite map_map.
  - cbn [mbind result_bind].
    rewrite decide_True by (rewrite !length_map; lia).
    rewrite Hcomp. cbn [of_option mbind result_bind].
    rewrite (fac_rows_Fv vs bs rs Hbr). unfold F2v. now rewrite map_map.
Qed.



Lemma rnorm_rscale (u : rvec) (s : R) :
  (0 < s)%R -> rnorm (rscale u s) = (rnorm u / s)%R.
Proof.
  intros Hs. unfold rnorm. rewrite rdot_scale_l, rdot_scale_r by lra.
  replace (rdot u u / s / s)%R with (rdot u u / (s * s))%R by (field; lra).
  rewrite sqrt_div_alt by nra. now rewrite sqrt_square by lra.
Qed.

Lemma runit_rscale (u : rvec) (s : R) :
  u <> (0, 0, 0)%R -> (0 < s)%R -> runit (rscale u s) = runit u.
Proof.
  intros Hu Hs. pose proof (rnorm_pos u Hu) as Hpos.
  unfold runit. rewrite rnorm_rscale by assumption.
  destruct u as [[a b] c]. unfold rscale.
  f_equal; [f_equal|]; field; lra.
Qed.

Lemma rfac_sample_rscale (v b r : rvec) (s : R) :
  rcross b r <> (0, 0, 0)%R -> (0 < s)%R ->
  rfac_sample v (rscale b s) r = rfac_sample v b r.
Proof.
  intros Hc Hs. pose proof (b_nonzero b r Hc) as Hb.
  assert (rfac_y (rscale b s) r = rfac_y b r) as Hy
    by (unfold rfac_y; now rewrite runit_rscale).
  assert (rfac_x (rscale b s) r = rfac_x b r) as Hx.
  { unfold rfac_x. rewrite Hy, rcross_scale_r by lra.
    apply runit_rscale; [|assumption]. now apply cross_y_b_nonzero. }
  unfold rfac_sample. now rewrite Hx, Hy, runit_rscale.
Qed.

Lemma rcross_rscale_nonzero (b r : rvec) (s : R) :
  rcross b r <> (0, 0, 0)%R -> (0 < s)%R ->
  rcross (rscale b s) r <> (0, 0, 0)%R.
Proof.
  intros Hc Hs. rewrite rcross_scale_l by lra. intros Hz.
  apply Hc. apply (rscale_zero _ s); [lra|assumption].
Qed.

(** X12. Only the direction of the background field matters: dividing
    every sample of a finite field by one positive number leaves the result
    of [convert_fac] unchanged (in exact arithmetic). *)
Theorem convert_fac_field_scale `{Pyrf} (inp b_bgd : DataArray farr)
    (r : position) (vs bs rs : list rvec) (comp : coord) (s : R) :
  da_data inp = F2v vs -> da_data b_bgd = F2v bs -> length vs = length bs ->
  da_coords inp !! "comp"%string = Some comp ->
  position_is r b_bgd rs ->
  Forall2 (fun b r => rcross b r <> (0, 0, 0)%R) bs rs ->
  (0 < s)%R ->
  convert_fac (PDataArray inp)
    (PDataArray (set_data b_bgd (F2v (map (fun b => rscale b s) bs)))) r
  = convert_fac (PDataArray inp) (PDataArray b_bgd) r.
Proof.
  intros Hinp Hb Hlen Hcomp Hr Hbr Hs.
  rewrite (convert_fac_eq inp b_bgd r vs bs rs comp) by assumption.
  rewrite (convert_fac_eq inp (set_data b_bgd (F2v (map (fun b => rscale b s) bs)))
             r vs (map (fun b => rscale b s) bs) rs comp); try assumption;
    try reflexivity.
  - assert (zip_with (fun v br => rfac_sample v br.1 br.2) vs
              (zip (map (fun b => rscale b s) bs) rs)
            = zip_with (fun v br => rfac_sample v br.1 br.2) vs (zip bs rs))
      as ->; [|reflexivity].
    clear Hr Hb Hinp. revert vs Hlen.
    induction Hbr as [|b r0 bs rs Hc _ IH]; intros [|v vs] Hlen;
      try reflexivity; try discriminate.
    simpl. rewrite (rfac_sample_rscale v b r0 s Hc Hs). f_equal.
    apply IH. now injection Hlen.
  - now rewrite length_map.
  - destruct r as [l|d|]; simpl in *; [|assumption|assumption].
    destruct Hr as (rv & -> & ->). exists rv. split; [reflexivity|].
    rewrite Hb. unfold F2v, farr_len. now rewrite !length_map.
  - clear Hr Hb Hinp Hlen. induction Hbr as [|b r0 bs rs Hc _ IH];
      simpl; constructor; [now apply rcross_rscale_nonzero | assumption].
Qed.

(** X13. The branch for an input of one column stores its result in an
    array of three rows: unless the input has exactly three samples the
    function never returns. *)
Theorem convert_fac_one_column `{Pyrf} (inp : DataArray farr)
    (b_bgd : pyval farr) (r : position) (rows : list (list fnum)) (x : fnum) :
  da_data inp = F2 rows -> head rows = Some [x] -> length rows <> 3 ->
  forall out, convert_fac (PDataArray inp) b_bgd r <> Ok out.
Proof.
  intros Hinp Hhead Hlen out. unfold convert_fac.
  destruct b_bgd as [[| | | | |]|l|l|b_bgd]; try discriminate.
  destruct (if decide (farr_len (da_data inp) ≠ farr_len (da_data b_bgd))
            then fs ← calc_fs inp;
                 resample b_bgd (RefSeries (da_time inp)) (Some fs)
            else Ok b_bgd) as [b'|]; [|discriminate].
  cbn [mbind result_bind].
  destruct (rows3 (da_data b')) as [b_rows|]; [|discriminate].
  cbn [mbind result_bind].
  match goal with
  | |- (?m ≫= _) <> _ => destruct m as [r'|]; [|discriminate]
  end.
  cbn [mbind result_bind].
  destruct (decide (length r' = length b_rows)); [|discriminate].
  rewrite Hinp, Hhead.
  rewrite decide_False by (intros [Hl _]; contradiction).
  discriminate.
Qed.


Lemma convert_fac_field_scale_witness :
  @convert_fac example_pyrf (PDataArray example_fac_inp)
    (PDataArray (set_data example_field_z
                   (F2v (map (fun b => rscale b 2) [(0, 0, 1)%R]))))
    (RList [Fin 1; Fin 0; Fin 0])
  = @convert_fac example_pyrf (PDataArray example_fac_inp)
      (PDataArray example_field_z) (RList [Fin 1; Fin 0; Fin 0]).
Proof.
  apply (@convert_fac_field_scale example_pyrf example_fac_inp example_field_z
           (RList [Fin 1; Fin 0; Fin 0]) [(1, 2, 3)%R] [(0, 0, 1)%R]
           [(1, 0, 0)%R] (Coord [0; 1; 2]%Q ∅) 2%R); try reflexivity.
  - exists (1, 0, 0)%R. split; reflexivity.
  - constructor; [|constructor]. unfold rcross. intros [= H1 H2 H3]. lra.
  - lra.
Defined.

Lemma convert_fac_one_column_witness :
  ~ exists out,
      @convert_fac example_pyrf (PDataArray example_one_column)
        (PDataArray example_field_z) (RList [Fin 1; Fin 0; Fin 0]) = Ok out.
Proof.
  intros [out Hout].
  apply (@convert_fac_one_column example_pyrf example_one_column
           (PDataArray example_field_z) (RList [Fin 1; Fin 0; Fin 0])
           [[Fin 1]] (Fin 1) eq_refl eq_refl ltac:(simpl; lia) out Hout).
Defined.

(** ** rotate_tensor: closed form, similarity, the secondary rotations *)





















(** X14. A flag that starts with neither ["f"] nor ["r"], such as the
    documented ["gse"], is refused with [ValueError] once the tensor is
    loaded. *)
Theorem rotate_tensor_other_flag `{Pyrf} (args : list rt_arg)
    (rot_flag c : string) (pos : nat) (p_times : list Z)
    (p_tensor : list mat3) (ref : resample_ref) :
  load_tensor args = Ok (rot_flag, pos, p_times, p_tensor, ref) ->
  first_char rot_flag = Ok c -> c <> "f"%string -> c <> "r"%string ->
  rotate_tensor args = Raise ValueError.
Proof.
  intros Hload Hc Hf Hr. unfold rotate_tensor. rewrite Hload.
  cbn [mbind result_bind]. rewrite Hc. cbn [mbind result_bind].
  now rewrite !decide_False by assumption.
Qed.

Lemma rotate_tensor_other_flag_witness :
  @rotate_tensor example_pyrf [ASeries example_tensor; AStr "gse"]
  = Raise ValueError.
Proof.
  apply (@rotate_tensor_other_flag example_pyrf
           [ASeries example_tensor; AStr "gse"] "gse" "g" 1 [0%Z]
           [Fm ((1, 0, 0), (0, 1, 0), (0, 0, 1))%R] (RefSeries [0%Z]));
    try reflexivity; discriminate.
Defined.






(** ** get_feeps_omni: the slots that are averaged *)

Section FeepsSlots.
Context `{Feeps}.
Variables (data_units : string) (var : FeepsVar) (specie : string)
          (mms_id : Z) (tint : list string).






End FeepsSlots.




(** ** match_phibe_v: what is left untouched, the shape of the result *)



(** ** calculate_epsilon: the time check, the number of energy levels *)

Lemma np_diff_zeros (l : list Q) :
  Forall (fun x => x = 0%Q) l -> Forall (fun x => x = 0%Q) (np_diff l).
Proof.
  induction 1 as [|a l -> Hl IH]; [constructor|].
  destruct Hl as [|b l -> Hl]; [constructor|].
  change (np_diff (0%Q :: 0%Q :: l)) with ((0 - 0)%Q :: np_diff (0%Q :: l)).
  constructor; [reflexivity|exact IH].
Qed.

Lemma nth_zeros (l : list Q) (i : nat) :
  Forall (fun x => x = 0%Q) l -> nth i l 0%Q = 0%Q.
Proof.
  intros Hl. destruct (nth_in_or_default i l 0%Q) as [Hin|Hd]; [|assumption].
  rewrite List.Forall_forall in Hl. now apply Hl.
Qed.

Lemma np_median_zeros (l : list Q) :
  Forall (fun x => x = 0%Q) l ->
  match np_median l with
  | Some m => negb (Qle_bool (Qabs m) 0)
  | None => false
  end = false.
Proof.
  intros Hl. unfold np_median.
  assert (Forall (fun x => x = 0%Q) (Qsort l)) as Hs.
  { apply List.Forall_forall. intros x Hx. apply (proj1 (In_Qsort x l)) in Hx.
    rewrite List.Forall_forall in Hl. now apply Hl. }
  destruct (length (Qsort l)) as [|n]; [reflexivity|].
  destruct (Nat.even (S n)); repeat rewrite (nth_zeros _ _ Hs); reflexivity.
Qed.

Lemma zeros_of_common (common : list Z) :
  Forall (fun x => x = 0%Q) (map (fun _ => 0%Q) common).
Proof.
  apply Forall_forall. intros x Hx. apply list_elem_of_In in Hx.
  now apply in_map_iff in Hx as (t & <- & _).
Qed.


Lemma length_diff_fix (l : list fnum) :
  length ((fix diff (l : list fnum) : list fnum :=
             match l with
             | a :: (b :: _) as l' => fsub b a :: diff l'
             | _ => []
             end) l) = length l - 1.
Proof.
  induction l as [|a [|b l] IH]; try reflexivity.
  change (length (fsub b a :: (fix diff (l : list fnum) : list fnum :=
             match l with
             | a :: (b :: _) as l' => fsub b a :: diff l'
             | _ => []
             end) (b :: l)) = length (a :: b :: l) - 1).
  simpl length in *. rewrite IH. lia.
Qed.

Lemma epsilon_speeds_33 (mp : fnum) (energy_vec : list fnum) (sc : fnum)
    (r : list fnum * list fnum) :
  epsilon_speeds mp energy_vec sc = Ok r -> length energy_vec = 33.
Proof.
  unfold epsilon_speeds. intros Hr.
  repeat match type of Hr with
         | (?m ≫= _) = _ =>
             lazymatch m with
             | same_length _ _ => fail
             | _ => destruct m as [?|?]; [|discriminate];
                    cbn [mbind result_bind] in Hr
             end
         end.
  match type of Hr with
  | (same_length ?a ?b ≫= _) = _ =>
      destruct (same_length a b) as [[]|] eqn:H1; [|discriminate];
      cbn [mbind result_bind] in Hr
  end.
  match type of Hr with
  | (same_length ?a ?b ≫= _) = _ =>
      destruct (same_length a b) as [[]|] eqn:H2; [|discriminate]
  end.
  clear Hr. unfold same_length in H1, H2.
  destruct (decide _) as [E1|] in H1; [|discriminate].
  destruct (decide _) as [E2|] in H2; [|discriminate].
  unfold py_slice in E1, E2.
  rewrite !length_map, !length_take, !length_drop, length_diff_fix in E1, E2.
  rewrite !length_app, !length_map in E1, E2. simpl length in E1, E2. lia.
Qed.

Lemma calculate_epsilon_levels_of_result `{Pyrf} (vdf model_vdf : Dataset)
    (n sc_pot : DataArray farr) (en_channels : option (list Z)) (h : heap)
    (out : DataArray farr) (energy_arr : list (list fnum)) :
  (calculate_epsilon vdf model_vdf n sc_pot en_channels h).2 = Ok out ->
  dataset_get (calculate_epsilon vdf model_vdf n sc_pot en_channels h).1
    vdf "energy" = Ok (F2 energy_arr) ->
  forall it row,
    it < length (ds_time vdf) -> energy_arr !! it = Some row ->
    length row = 33.
Proof.
  unfold calculate_epsilon.
  assert (times_differ (ds_time vdf) (da_time n) = false) as ->.
  { unfold times_differ. apply np_median_zeros, np_diff_zeros, zeros_of_common. }
  destruct (match en_channels with
            | Some c => a ← py_index c 0; b ← py_index c 1; Ok (arange a (b + 1))
            | None => Ok (arange 2 33)
            end) as [int_energies|]; [|discriminate].
  destruct (resample sc_pot (RefSeries (da_time n)) None) as [sc|];
    [|discriminate].
  cbn [fst snd]. set (h' := dataset_idiv (Fin 1e18) vdf _).
  intros Hout Henergy it row Hit Hrow.
  unfold calculate_epsilon_body in Hout. rewrite Henergy in Hout.
  repeat match type of Hout with
         | (mapM ?f (seq 0 ?nt) ≫= _) = _ => fail 1
         | (?m ≫= _) = _ => destruct m as [?|?]; [|discriminate];
                            cbn [mbind result_bind] in Hout
         | (let '(_, _) := ?p in _) = _ => destruct p
         | (match ?m with F1 _ => _ | _ => _ end ≫= _) = _ =>
             destruct m; try discriminate
         | (match ?m with F2 _ => _ | _ => _ end ≫= _) = _ =>
             destruct m; try discriminate
         end.
  match type of Hout with
  | (mapM ?f (seq 0 ?nt) ≫= _) = _ =>
      destruct (mapM f (seq 0 nt)) as [rows|] eqn:Hrows; [|discriminate]
  end.
  destruct (mapM_result_lookup _ _ _ Hrows) as [_ Hlook].
  destruct (Hlook it it) as (y & _ & Hy).
  { apply lookup_seq. lia. }
  cbn beta in Hy.
  assert (py_index energy_arr (Z.of_nat it) = Ok row) as Hidx.
  { unfold py_index. destruct (Z.ltb_spec (Z.of_nat it) 0); [lia|].
    rewrite Nat2Z.id. now rewrite Hrow. }
  rewrite Hidx in Hy. cbn [mbind result_bind] in Hy.
  destruct (py_index _ (Z.of_nat it)) as [sc_it|]; [|discriminate].
  cbn [mbind result_bind] in Hy.
  now apply epsilon_speeds_33 in Hy.
Qed.

(** X21. [calculate_epsilon] needs exactly 33 energy levels at every time
    sample: the two slices [1:34] and [0:33] of the differences of the
    padded energies must both have the length of the energy table, so that
    with any other number of levels, such as 32, the function never
    returns. *)
Theorem calculate_epsilon_33_levels `{Pyrf} (vdf model_vdf : Dataset)
    (n sc_pot : DataArray farr) (en_channels : option (list Z)) (h : heap)
    (energy_arr : list (list fnum)) (it : nat) (row : list fnum) :
  dataset_get (calculate_epsilon vdf model_vdf n sc_pot en_channels h).1
    vdf "energy" = Ok (F2 energy_arr) ->
  it < length (ds_time vdf) -> energy_arr !! it = Some row ->
  length row <> 33 ->
  forall out,
    (calculate_epsilon vdf model_vdf n sc_pot en_channels h).2 <> Ok out.
Proof.
  intros Henergy Hit Hrow Hlen out Hout. apply Hlen.
  exact (calculate_epsilon_levels_of_result vdf model_vdf n sc_pot en_channels
           h out energy_arr Hout Henergy it row Hit Hrow).
Qed.

Lemma calculate_epsilon_33_levels_witness :
  ~ exists out,
      (@calculate_epsilon example_pyrf example_vdf32 example_model32
         example_scalar example_scalar None example_heap32).2 = Ok out.
Proof.
  intros [out Hout].
  apply (@calculate_epsilon_33_levels example_pyrf example_vdf32 example_model32
           example_scalar example_scalar None example_heap32
           [replicate 32 (Fin 10)] 0 (replicate 32 (Fin 10)) eq_refl
           ltac:(simpl; lia) eq_refl ltac:(simpl; lia) out Hout).
Defined.

(** ** normalize and norm *)

Lemma fsum_Fin_from (a : R) (l : list R) :
  foldl fadd (Fin a) (map Fin l) = Fin (foldl Rplus a l).
Proof.
  revert a. induction l as [|x l IH]; intros a; [reflexivity|].
  simpl. apply IH.
Qed.



Lemma foldl_Rplus_from (a : R) (l : list R) :
  foldl Rplus a l = (a + foldl Rplus 0 l)%R.
Proof.
  revert a. induction l as [|x l IH]; intros a; simpl; [lra|].
  rewrite (IH (a + x)%R), (IH (0 + x)%R). lra.
Qed.










(** ** start and end of a clipped series *)

Lemma filter_sorted_bounds (t_min t_max : Z) (l : list Z) :
  Sorted Z.le l ->
  filter (fun t => (t_min <= t <= t_max)%Z) l = [] \/
  exists t0 t1,
    head (filter (fun t => (t_min <= t <= t_max)%Z) l) = Some t0 /\
    last (filter (fun t => (t_min <= t <= t_max)%Z) l) = Some t1 /\
    (t_min <= t0 <= t1)%Z /\ (t1 <= t_max)%Z /\ t0 ∈ l /\ t1 ∈ l.
Proof.
  intros Hs.
  set (f := filter (fun t => (t_min <= t <= t_max)%Z) l).
  assert (Sorted Z.le f) as Hsf.
  { now apply Sorted_filter. }
  assert (forall t, t ∈ f -> (t_min <= t <= t_max)%Z /\ t ∈ l) as Hin.
  { intros t Ht. apply list_elem_of_filter in Ht. exact Ht. }
  destruct f as [|t0 f'] eqn:Hf; [now left|]. right.
  destruct (last (t0 :: f')) as [t1|] eqn:Hlast;
    [|apply last_None in Hlast; discriminate].
  exists t0, t1. split; [reflexivity|]. split; [reflexivity|].
  assert (t0 ∈ t0 :: f') as H0 by constructor.
  assert (t1 ∈ t0 :: f') as H1 by (apply last_Some_elem_of; exact Hlast).
  destruct (Hin _ H0) as [? ?], (Hin _ H1) as [? ?].
  repeat split; try assumption; try lia.
  apply Sorted_StronglySorted in Hsf; [|intros a b c; lia].
  apply StronglySorted_inv in Hsf as [_ Hall].
  apply elem_of_cons in H1 as [->|H1]; [lia|].
  rewrite Forall_forall in Hall. now apply Hall.
Qed.

(** X23. The first and the last time of a clipped series.  When [time_clip]
    is given a well-formed series, either no instant lies in the interval and
    [start] and [end] raise IndexError on its result, or they return the unix
    times of two instants of the input that lie in the interval, the first
    not after the second. *)
Theorem start_end_of_clip `{TimeLib} `{Astropy64} {A B}
    (inp : DataArray (list A)) (tint : pyval B) (d0 d1 : scalar)
    (t_min t_max : Z) :
  well_formed inp ->
  time_clip_bounds tint = Ok (d0, d1) ->
  astropy_datetime64 d0 = Ok t_min -> astropy_datetime64 d1 = Ok t_max ->
  exists out,
    time_clip (PDataArray inp) tint = Ok out /\
    ((da_time out = [] /\
      start (PDataArray out) = Raise IndexError /\
      end_ (PDataArray out) = Raise IndexError) \/
     (exists t0 t1,
        start (PDataArray out) = Ok (datetime64_unix t0) /\
        end_ (PDataArray out) = Ok (datetime64_unix t1) /\
        (t_min <= t0 <= t1)%Z /\ (t1 <= t_max)%Z /\
        t0 ∈ da_time inp /\ t1 ∈ da_time inp)).
Proof.
  intros Hwf Hb Ht0 Ht1.
  exists (clipped t_min t_max inp).
  split; [now apply (time_clip_eq inp tint d0 d1)|].
  destruct Hwf as (Hsorted & _).
  destruct (filter_sorted_bounds t_min t_max (da_time inp) Hsorted)
    as [Hnil|(t0 & t1 & Hh & Hl & Hrest)].
  - left. unfold start, end_. cbn [clipped da_time]. rewrite Hnil.
    repeat split; reflexivity.
  - right. exists t0, t1. unfold start, end_. cbn [clipped da_time].
    rewrite (py_index_first _ _ Hh), (py_index_last _ _ Hl).
    split; [reflexivity|]. split; [reflexivity|]. exact Hrest.
Qed.

Lemma start_end_of_clip_witness :
  exists out,
    @time_clip seconds_clock _ unit (PDataArray example_series)
      (PList [SStr "2"; SStr "3"]) = Ok out /\
    ((da_time out = [] /\
      @start nanoseconds _ (PDataArray out) = Raise IndexError /\
      @end_ nanoseconds _ (PDataArray out) = Raise IndexError) \/
     (exists t0 t1,
        @start nanoseconds _ (PDataArray out) = Ok (@datetime64_unix nanoseconds t0) /\
        @end_ nanoseconds _ (PDataArray out) = Ok (@datetime64_unix nanoseconds t1) /\
        (2 <= t0 <= t1)%Z /\ (t1 <= 3)%Z /\
        t0 ∈ da_time example_series /\ t1 ∈ da_time example_series)).
Proof.
  apply (@start_end_of_clip seconds_clock nanoseconds _ unit example_series
           (PList [SStr "2"; SStr "3"]) (SDatetime 2) (SDatetime 3) 2 3);
    try reflexivity.
  exact example_series_well_formed.
Defined.

(** ** integrate *)

(** X24. [integrate] never returns a result, whatever the statements after
    the first use of [x[:, 0]] do: the time line is stacked with the data
    along the first axis, which raises ValueError unless the data have one
    dimension, and the stacked array then has one dimension, so that its
    first column does not exist. *)
Theorem integrate_never_returns `{Astropy64} {X}
    (rest : DataArray ndarray -> option Q -> string -> ndarray -> ndarray -> result X)
    (inp : pyval ndarray) (time_step : option Q) (out : X) :
  integrate rest inp time_step <> Ok out.
Proof.
  unfold integrate.
  destruct inp as [sc|l|l|inp]; [destruct sc; discriminate|discriminate..|].
  destruct (da_attrs inp !! "UNITS"%string); [|discriminate].
  cbn [of_option mbind result_bind].
  unfold hstack_1d.
  destruct (shape (da_data inp)) as [|n [|m sh]]; try discriminate;
    cbn [mbind result_bind]; unfold column0; cbn [shape]; discriminate.
Qed.

(** ** deflux_to_vdf *)

Lemma deflux_to_vdf_dataset_Ok (deflux : Dataset) (h h' : heap) (vdf : Dataset) :
  deflux_to_vdf_dataset deflux h = (h', Ok vdf) ->
  exists data,
    deflux_to_vdf_data deflux h = Ok data /\
    (h', vdf) = deflux_to_vdf_copy deflux h data.
Proof.
  unfold deflux_to_vdf_dataset.
  destruct (deflux_to_vdf_data deflux h) as [data|e]; [|discriminate].
  destruct (deflux_to_vdf_copy deflux h data) as [h1 v1] eqn:Hc.
  intros [= <- <-]. now exists data.
Qed.

Lemma deflux_to_vdf_copy_attrs (deflux : Dataset) (h : heap) (data : farr) :
  ds_attrs (deflux_to_vdf_copy deflux h data).2
  = <["UNITS"%string := "s^3/m^6"%string]> (ds_attrs deflux).
Proof.
  unfold deflux_to_vdf_copy. cbn [snd].
  now destruct (ds_vars deflux !! "data"%string).
Qed.

Lemma deflux_to_vdf_data_species (deflux : Dataset) (h : heap) (data : farr) :
  deflux_to_vdf_data deflux h = Ok data ->
  exists species,
    ds_attrs deflux !! "species"%string = Some species /\
    (species ∈ ["ions"; "i"]%string \/ species ∈ ["electrons"; "e"]%string).
Proof.
  unfold deflux_to_vdf_data.
  destruct (ds_attrs deflux !! "species"%string) as [species|]; [|discriminate].
  cbn [of_option mbind result_bind]. intros Hd. exists species.
  split; [reflexivity|].
  destruct (bool_decide (species ∈ ["ions"; "i"]%string)) eqn:E1.
  { left. now apply bool_decide_eq_true in E1. }
  destruct (bool_decide (species ∈ ["electrons"; "e"]%string)) eqn:E2.
  { right. now apply bool_decide_eq_true in E2. }
  discriminate Hd.
Qed.

Lemma deflux_to_vdf_data_units (deflux : Dataset) (h : heap) (species : string) :
  ds_attrs deflux !! "species"%string = Some species ->
  species ∈ ["ions"; "i"]%string \/ species ∈ ["electrons"; "e"]%string ->
  ds_attrs deflux !! "UNITS"%string = Some "s^3/m^6"%string ->
  deflux_to_vdf_data deflux h = Raise ValueError.
Proof.
  intros Hs Hv Hu. unfold deflux_to_vdf_data. rewrite Hs.
  cbn [of_option mbind result_bind].
  assert (exists mm,
             (if bool_decide (species ∈ ["ions"; "i"]%string) then Ok (Fin 1)
              else if bool_decide (species ∈ ["electrons"; "e"]%string)
                   then Ok (fdiv m_e m_p) else Raise ValueError) = Ok mm)
    as [mm ->].
  { destruct Hv as [Hv|Hv].
    - rewrite (bool_decide_eq_true_2 _ Hv). now eexists.
    - rewrite (bool_decide_eq_true_2 _ Hv).
      destruct (bool_decide (species ∈ ["ions"; "i"]%string)); now eexists. }
  cbn [mbind result_bind]. rewrite Hu. cbn [of_option mbind result_bind].
  reflexivity.
Qed.

(** X25. [deflux_to_vdf] cannot be applied to its own result: whenever it
    returns a dataset, calling it on that dataset raises ValueError (the
    unit of the result is not the one that is accepted) and leaves the store
    as it is. *)
Theorem deflux_to_vdf_twice `{Spectr} (deflux : dataset_arg) (h h' h'' : heap)
    (vdf : Dataset) :
  deflux_to_vdf deflux h = (h', Ok vdf) ->
  deflux_to_vdf (ADataset vdf) h'' = (h'', Raise ValueError).
Proof.
  intros Hfirst.
  assert (exists ds h0, deflux_to_vdf_dataset ds h0 = (h', Ok vdf))
    as (ds & h0 & Hds).
  { destruct deflux as [| |d|ds]; try discriminate.
    - unfold deflux_to_vdf in Hfirst.
      destruct (spectr_to_dataset d h) as [h1 [ds|e]]; [|discriminate].
      now exists ds, h1.
    - now exists ds, h. }
  apply deflux_to_vdf_dataset_Ok in Hds as (data & Hdata & Hcopy).
  destruct (deflux_to_vdf_data_species _ _ _ Hdata) as (species & Hs & Hv).
  pose proof (deflux_to_vdf_copy_attrs ds h0 data) as Hattrs.
  rewrite <- Hcopy in Hattrs. cbn [snd] in Hattrs.
  unfold deflux_to_vdf, deflux_to_vdf_dataset.
  rewrite (deflux_to_vdf_data_units vdf h'' species); [reflexivity| |exact Hv|].
  - rewrite Hattrs, lookup_insert_ne by discriminate. exact Hs.
  - rewrite Hattrs. apply lookup_insert_eq.
Qed.


Lemma deflux_to_vdf_twice_witness :
  exists h' vdf,
    @deflux_to_vdf no_spectr (ADataset example_deflux) example_deflux_heap
    = (h', Ok vdf) /\
    @deflux_to_vdf no_spectr (ADataset vdf) h' = (h', Raise ValueError).
Proof.
  eexists _, _. split; [reflexivity|].
  eapply (@deflux_to_vdf_twice no_spectr (ADataset example_deflux)
            example_deflux_heap).
  reflexivity.
Defined.

Lemma dataset_get_mono (h h' : heap) (ds : Dataset) (name : string) (a : farr) :
  (forall l b, h !! l = Some b -> h' !! l = Some b) ->
  dataset_get h ds name = Ok a -> dataset_get h' ds name = Ok a.
Proof.
  intros Hh. unfold dataset_get.
  destruct (match ds_vars ds !! name with
            | Some l => Some l
            | None => ds_coords ds !! name
            end) as [l|]; [|discriminate].
  cbn [of_option mbind result_bind].
  destruct (h !! l) as [b|] eqn:Hl; [|discriminate].
  now rewrite (Hh _ _ Hl).
Qed.

(** X26. [deflux_to_vdf] leaves its input as it is: when it returns for a
    dataset, every array of the store is unchanged, so that the input reads
    as before; the result has the time line of the input, shares with it
    every variable other than [data], and its [data] is a new array. *)
Theorem deflux_to_vdf_input_kept `{Spectr} (deflux : Dataset) (h h' : heap)
    (vdf : Dataset) :
  deflux_to_vdf (ADataset deflux) h = (h', Ok vdf) ->
  (forall l a, h !! l = Some a -> h' !! l = Some a) /\
  (forall name a, dataset_get h deflux name = Ok a ->
                  dataset_get h' deflux name = Ok a) /\
  (forall name a, name <> "data"%string ->
                  dataset_get h deflux name = Ok a ->
                  dataset_get h' vdf name = Ok a) /\
  deflux_to_vdf_data deflux h = dataset_get h' vdf "data" /\
  ds_time vdf = ds_time deflux /\
  ds_attrs deflux !! "UNITS"%string = Some "keV/(cm^2 s sr keV)"%string /\
  ds_attrs vdf !! "UNITS"%string = Some "s^3/m^6"%string.
Proof.
  intros Hr. cbn [deflux_to_vdf] in Hr.
  apply deflux_to_vdf_dataset_Ok in Hr as (data & Hdata & Hcopy).
  unfold deflux_to_vdf_copy in Hcopy.
  assert (h !! fresh (dom h) = None) as Hfresh.
  { apply not_elem_of_dom, is_fresh. }
  assert (forall l a, h !! l = Some a -> h' !! l = Some a) as Hmono.
  { intros l a Hl. injection Hcopy as -> _.
    rewrite lookup_insert_ne; [exact Hl|]. intros <-. congruence. }
  assert (ds_attrs deflux !! "UNITS"%string = Some "keV/(cm^2 s sr keV)"%string)
    as Hunits.
  { revert Hdata. unfold deflux_to_vdf_data.
    destruct (ds_attrs deflux !! "species"%string); [|discriminate].
    cbn [of_option mbind result_bind].
    destruct (if bool_decide _ then _ else _); [|discriminate].
    cbn [mbind result_bind].
    destruct (ds_attrs deflux !! "UNITS"%string) as [u|]; [|discriminate].
    cbn [of_option mbind result_bind].
    destruct (decide (u = "keV/(cm^2 s sr keV)"%string)) as [->|]; [|discriminate].
    reflexivity. }
  split; [exact Hmono|].
  split; [intros name a; now apply dataset_get_mono|].
  split; [|split; [|split; [|split; [exact Hunits|]]]].
  - intros name a Hname Ha. apply (dataset_get_mono h h') in Ha; [|exact Hmono].
    rewrite <- Ha. unfold dataset_get.
    destruct (ds_vars deflux !! "data"%string); injection Hcopy as _ ->;
      cbn [ds_vars ds_coords]; rewrite lookup_insert_ne by congruence;
      reflexivity.
  - rewrite Hdata. unfold dataset_get.
    destruct (ds_vars deflux !! "data"%string) eqn:Hv;
      injection Hcopy as -> ->; cbn [ds_vars ds_coords].
    + rewrite lookup_insert_eq. cbn [of_option mbind result_bind].
      now rewrite lookup_insert_eq.
    + rewrite Hv, lookup_insert_eq. cbn [of_option mbind result_bind].
      now rewrite lookup_insert_eq.
  - destruct (ds_vars deflux !! "data"%string); now injection Hcopy as _ ->.
  - destruct (ds_vars deflux !! "data"%string); injection Hcopy as _ ->;
      cbn [ds_attrs]; apply lookup_insert_eq.
Qed.

Lemma deflux_to_vdf_input_kept_witness :
  exists h' vdf,
    @deflux_to_vdf no_spectr (ADataset example_deflux) example_deflux_heap
    = (h', Ok vdf) /\
    (forall l a, example_deflux_heap !! l = Some a -> h' !! l = Some a) /\
    ds_time vdf = [0; 1]%Z.
Proof.
  eexists _, _. split; [reflexivity|].
  split; [|reflexivity].
  eapply (@deflux_to_vdf_input_kept no_spectr example_deflux example_deflux_heap).
  reflexivity.
Defined.

Lemma row_len_map {X Y} (g : X -> Y) (l : list (list X)) :
  row_len (map (map g) l) = row_len l.
Proof. destruct l as [|r l]; [reflexivity|]. cbn. apply length_map. Qed.

Lemma concat_map_map {X Y} (g : X -> Y) (l : list (list X)) :
  concat (map (map g) l) = map g (concat l).
Proof.
  induction l as [|r l IH]; [reflexivity|].
  cbn. now rewrite map_app, IH.
Qed.

Lemma farr_shape_map (f : fnum -> fnum) (a : farr) :
  farr_shape (farr_map f a) = farr_shape a.
Proof.
  destruct a as [l|l|l|l]; cbn [farr_map farr_shape];
    rewrite ?length_map, ?concat_map_map, ?row_len_map; reflexivity.
Qed.

Lemma squeeze_shape_fixed (s t : list nat) :
  squeeze_shape (s ++ t) = s -> 1 ∉ s.
Proof.
  unfold squeeze_shape. intros Hs Hin.
  assert (Forall (fun n => n <> 1) s) as Hall.
  { rewrite <- Hs. apply Forall_forall. intros n Hn.
    now apply list_elem_of_filter in Hn as [? _]. }
  rewrite Forall_forall in Hall. now apply (Hall 1).
Qed.

(** X27. A spectrum with an axis of length one, for instance a single
    instant or a single energy, is refused: [deflux_to_vdf] returns no
    dataset for it, since the squeezed array no longer has the shape of the
    variable it is assigned to. *)
Theorem deflux_to_vdf_single_sample `{Spectr} (deflux : Dataset) (h : heap)
    (data : farr) (vdf : Dataset) :
  dataset_get h deflux "data" = Ok data ->
  1 ∈ farr_shape data ->
  (deflux_to_vdf (ADataset deflux) h).2 <> Ok vdf.
Proof.
  intros Hget Hone. cbn [deflux_to_vdf]. unfold deflux_to_vdf_dataset.
  destruct (deflux_to_vdf_data deflux h) as [out|e] eqn:Hdata;
    [|cbn; discriminate].
  exfalso. revert Hdata. unfold deflux_to_vdf_data.
  destruct (ds_attrs deflux !! "species"%string); [|discriminate].
  cbn [of_option mbind result_bind].
  destruct (if bool_decide _ then _ else _) as [mm|]; [|discriminate].
  cbn [mbind result_bind].
  destruct (ds_attrs deflux !! "UNITS"%string) as [u|]; [|discriminate].
  cbn [of_option mbind result_bind].
  destruct (decide _) as [_|]; [|discriminate].
  rewrite Hget. cbn [mbind result_bind].
  destruct (dataset_get h deflux "energy") as [energy|]; [|discriminate].
  cbn [mbind result_bind].
  set (tmp_data := farr_map _ data).
  assert (farr_shape tmp_data = farr_shape data) as Hshape
    by apply farr_shape_map.
  destruct (match farr_shape tmp_data with
            | s0 :: s1 :: _ => Ok (s0, s1)
            | _ => Raise IndexError
            end); [|discriminate].
  cbn [mbind result_bind].
  destruct (energy_mat_shape _ energy); [|discriminate].
  cbn [mbind result_bind].
  destruct (decide (_ /\ _)); [|discriminate].
  destruct (decide (squeeze_shape _ = _)) as [Hsq|]; [|discriminate].
  intros _. rewrite <- Hshape in Hone.
  destruct tmp_data as [l|l|l|l].
  - rewrite <- (app_nil_r (farr_shape (F1 l))) in Hsq at 1.
    now apply squeeze_shape_fixed in Hsq.
  - now apply squeeze_shape_fixed in Hsq.
  - rewrite <- (app_nil_r (farr_shape (F3 l))) in Hsq at 1.
    now apply squeeze_shape_fixed in Hsq.
  - rewrite <- (app_nil_r (farr_shape (F4 l))) in Hsq at 1.
    now apply squeeze_shape_fixed in Hsq.
Qed.

Lemma deflux_to_vdf_single_sample_witness :
  ~ exists vdf,
      (@deflux_to_vdf no_spectr (ADataset example_deflux_one)
         example_deflux_heap_one).2 = Ok vdf.
Proof.
  intros [vdf Hvdf]. revert Hvdf.
  apply (@deflux_to_vdf_single_sample no_spectr example_deflux_one
           example_deflux_heap_one (F2 [[Fin 1; Fin 2]]) vdf).
  - reflexivity.
  - cbn. apply list_elem_of_here.
Defined.

(** ** vdf_omni *)

Lemma rsum_cons (x : R) (l : list R) : rsum (x :: l) = (x + rsum l)%R.
Proof. unfold rsum. simpl. rewrite foldl_Rplus_from. lra. Qed.

Lemma rsum_app (a b : list R) : rsum (a ++ b) = (rsum a + rsum b)%R.
Proof.
  induction a as [|x a IH]; [unfold rsum at 2; simpl; lra|].
  simpl app. rewrite !rsum_cons, IH. lra.
Qed.

Lemma rsum_replicate (n : nat) (m : R) : rsum (replicate n m) = (INR n * m)%R.
Proof.
  induction n as [|n IH]; [unfold rsum; simpl; lra|].
  cbn [replicate]. rewrite rsum_cons, IH, S_INR. lra.
Qed.

Lemma rsum_concat_replicate (n : nat) (ws : list R) :
  rsum (concat (replicate n ws)) = (INR n * rsum ws)%R.
Proof.
  induction n as [|n IH]; [unfold rsum; simpl; lra|].
  cbn [replicate concat]. rewrite rsum_app, IH, S_INR. lra.
Qed.

Lemma rsum_scale (c : R) (ws : list R) :
  rsum (map (fun w => (c * w)%R) ws) = (c * rsum ws)%R.
Proof.
  induction ws as [|w ws IH]; [unfold rsum; simpl; lra|].
  simpl map. rewrite !rsum_cons, IH. lra.
Qed.

Lemma fmean_Fin (l : list R) :
  l <> [] -> fmean (map Fin l) = Fin (rsum l / INR (length l)).
Proof.
  intros Hl. unfold fmean, fsum. rewrite fsum_Fin_from, length_map.
  unfold fdiv. destruct (Req_dec_T (INR (length l)) 0) as [E|_]; [|reflexivity].
  exfalso. destruct l as [|x l]; [contradiction|].
  now apply (not_0_INR (length (x :: l))) in E.
Qed.

Lemma fnanmean_Fin (l : list R) : fnanmean (map Fin l) = fmean (map Fin l).
Proof.
  unfold fnanmean. f_equal.
  induction l as [|x l IH]; [reflexivity|].
  simpl map. rewrite filter_cons_True by reflexivity. now rewrite IH.
Qed.

Lemma zip_with_fmul_const (c : R) (ws : list R) :
  zip_with fmul (replicate (length ws) (Fin c)) (map Fin ws)
  = map Fin (map (fun w => (c * w)%R) ws).
Proof.
  induction ws as [|w ws IH]; [reflexivity|].
  cbn [length replicate map zip_with]. now rewrite IH.
Qed.

Lemma map_replicate_const {X Y} (g : X -> Y) (n : nat) (x : X) :
  map g (replicate n x) = replicate n (g x).
Proof. induction n as [|n IH]; [reflexivity|]. cbn. now rewrite IH. Qed.

Lemma concat_replicate_map {X Y} (g : X -> Y) (n : nat) (l : list X) :
  concat (replicate n (map g l)) = map g (concat (replicate n l)).
Proof.
  induction n as [|n IH]; [reflexivity|].
  cbn [replicate concat]. now rewrite map_app, IH.
Qed.

(** The weights of the elevation angles. *)
Lemma solid_angle_row (thetas : list R) :
  map (fmul (fmul (fdiv (Fin PI) (Fin 16)) (fdiv (Fin PI) (Fin 16))))
      (map (fun t => fmul (Fin 1) (fsin (fdiv (fmul t (Fin PI)) (Fin 180))))
           (map Fin thetas))
  = map Fin (map (fun t => (PI / 16 * (PI / 16) * (1 * sin (t * PI / 180)))%R)
                 thetas).
Proof.
  rewrite !map_map. apply map_ext. intros t.
  unfold fdiv. destruct (Req_dec_T 16 0); [lra|].
  destruct (Req_dec_T 180 0); [lra|]. reflexivity.
Qed.

Lemma rsum_solid_angle_row (thetas : list R) :
  rsum (map (fun t => (PI / 16 * (PI / 16) * (1 * sin (t * PI / 180)))%R) thetas)
  = (PI / 16 * (PI / 16) * rsum (map (fun t => sin (t * PI / 180)) thetas))%R.
Proof.
  induction thetas as [|t thetas IH]; [unfold rsum; simpl; lra|].
  simpl map. rewrite !rsum_cons, IH. lra.
Qed.

(** One entry of the result for a plane of equal values. *)
Lemma omni_of_constant_plane (n : nat) (thetas : list R) (c : R) :
  n <> 0 ->
  rsum (map (fun t => sin (t * PI / 180)) thetas) <> 0%R ->
  let solid_angles :=
    map (map (fmul (fmul (fdiv (Fin PI) (Fin 16)) (fdiv (Fin PI) (Fin 16)))))
        (replicate n
           (map (fun t => fmul (Fin 1) (fsin (fdiv (fmul t (Fin PI)) (Fin 180))))
                (map Fin thetas))) in
  fdiv (fnanmean (map fnanmean
                    (zip_with (zip_with fmul)
                       (replicate n (replicate (length thetas) (Fin c)))
                       solid_angles)))
       (fmean [fmean (concat solid_angles)])
  = Fin c.
Proof.
  intros Hn HS. cbv zeta.
  set (ws := map (fun t => (PI / 16 * (PI / 16) * (1 * sin (t * PI / 180)))%R) thetas).
  assert (length ws = length thetas) as Hlen by apply length_map.
  assert (thetas <> []) as Hne.
  { intros ->. apply HS. reflexivity. }
  assert (ws <> []) as Hwne.
  { intros E. apply Hne. destruct thetas; [reflexivity|discriminate]. }
  assert (rsum ws <> 0%R) as HW.
  { unfold ws. rewrite rsum_solid_angle_row. pose proof PI_RGT_0 as Hpi.
    intros E. apply HS.
    apply (Rmult_eq_reg_l (PI / 16 * (PI / 16))); [rewrite Rmult_0_r; exact E|].
    nra. }
  assert (0 < INR n)%R as Hn' by (apply lt_0_INR; lia).
  assert (0 < INR (length ws))%R as Hl'.
  { apply lt_0_INR. destruct ws; [contradiction|simpl; lia]. }
  rewrite map_replicate_const, solid_angle_row. fold ws.
  rewrite zip_with_replicate, <- Hlen, zip_with_fmul_const.
  rewrite map_replicate_const, fnanmean_Fin, fmean_Fin, length_map, rsum_scale.
  2:{ destruct ws; [contradiction|discriminate]. }
  rewrite <- (map_replicate_const Fin), fnanmean_Fin, fmean_Fin, rsum_replicate,
    length_replicate.
  2:{ destruct n; [contradiction|discriminate]. }
  rewrite concat_replicate_map, fmean_Fin, rsum_concat_replicate.
  2:{ destruct n; [contradiction|]. destruct ws; [contradiction|discriminate]. }
  assert (length (concat (replicate n ws)) = n * length ws) as ->.
  { clear. induction n as [|n IH]; [reflexivity|].
    cbn [replicate concat]. rewrite length_app, IH. lia. }
  rewrite mult_INR.
  unfold fmean, fsum. cbn [foldl fadd length]. unfold fdiv at 2.
  destruct (Req_dec_T (INR 1) 0) as [E|_]; [simpl in E; lra|].
  unfold fdiv.
  match goal with |- context [Req_dec_T ?m 0] => destruct (Req_dec_T m 0) as [E|_] end.
  { exfalso. simpl INR in E. revert E.
    assert (INR n * rsum ws / (INR n * INR (length ws)) <> 0)%R as Hm.
    { intros E. apply HW.
      apply (Rmult_eq_reg_r (/ INR (length ws))); [|apply Rinv_neq_0_compat; lra].
      rewrite Rmult_0_l. rewrite <- E. field. lra. }
    intros E. apply Hm. lra. }
  f_equal. simpl INR. field. lra.
Qed.

(** X28. [vdf_omni] conserves the unit: for a distribution that has, at
    each instant and energy, the same finite value in all 32 azimuths and at
    every elevation angle, the omnidirectional spectrum is that value,
    provided that the sines of the elevation angles do not sum to zero and
    that neither the number of instants nor the number of energies is
    one. *)
Theorem vdf_omni_isotropic (vdf : Dataset) (h : heap)
    (energy : list (list fnum)) (thetas : list R) (values : list (list R)) :
  dataset_get h vdf "energy" = Ok (F2 energy) ->
  dataset_get h vdf "theta" = Ok (F1 (map Fin thetas)) ->
  dataset_get h vdf "data"
  = Ok (F4 (map (map (fun c => replicate 32 (replicate (length thetas) (Fin c))))
                values)) ->
  length values = length (ds_time vdf) ->
  Forall (fun row => length row = row_len energy) values ->
  length (ds_time vdf) <> 1 -> row_len energy <> 1 ->
  rsum (map (fun t => sin (t * PI / 180)) thetas) <> 0%R ->
  exists out,
    vdf_omni (ADataset vdf) h = Ok out /\
    sp_data out = map (map Fin) values /\
    sp_time out = ds_time vdf /\
    length (sp_energy out) = row_len energy /\
    sp_attrs out = ds_attrs vdf.
Proof.
  intros He Ht Hd Hnt Hne Ht1 He1 HS.
  unfold vdf_omni. rewrite He, Ht. cbn [mbind result_bind]. rewrite Hd.
  cbn [mbind result_bind].
  destruct (decide (_ /\ _)) as [_|Hshape].
  2:{ exfalso. apply Hshape. rewrite !length_map. split; [exact Hnt|].
      apply Forall_map. eapply Forall_impl; [exact Hne|].
      intros row Hrow. cbn beta. rewrite length_map. split; [exact Hrow|].
      apply Forall_map, Forall_forall. intros c _. cbn beta.
      rewrite length_replicate. split; [reflexivity|].
      apply Forall_forall. intros r Hr.
      apply elem_of_replicate in Hr as [-> _]. apply length_replicate. }
  cbn [mbind result_bind].
  destruct (decide (squeeze_shape _ = _)) as [_|Hsq].
  2:{ exfalso. apply Hsq. unfold squeeze_shape.
      rewrite filter_cons_True by exact Ht1.
      rewrite filter_cons_True by exact He1. reflexivity. }
  eexists. split; [reflexivity|]. cbn [sp_data sp_time sp_energy sp_attrs].
  split; [|split; [reflexivity|split; [|reflexivity]]].
  - rewrite !map_map. apply map_ext. intros row.
    rewrite !map_map. apply map_ext. intros c.
    pose proof (omni_of_constant_plane 32 thetas c ltac:(discriminate) HS) as Hp.
    cbv zeta in Hp. rewrite !map_map in Hp. exact Hp.
  - now rewrite length_map, length_seq.
Qed.

Lemma vdf_omni_isotropic_witness :
  exists out,
    vdf_omni (ADataset example_iso) example_iso_heap = Ok out /\
    sp_data out = map (map Fin) example_iso_values /\
    sp_time out = [0; 1]%Z /\
    length (sp_energy out) = 2 /\
    sp_attrs out = ∅.
Proof.
  apply (vdf_omni_isotropic example_iso example_iso_heap
           [[Fin 10; Fin 20]; [Fin 10; Fin 20]] [45; 135]%R example_iso_values);
    try reflexivity; try (cbn; lia).
  - repeat constructor.
  - unfold rsum. cbn [map foldl].
    assert (0 < sin (45 * PI / 180))%R as H1.
    { apply sin_gt_0; pose proof PI_RGT_0; lra. }
    assert (0 < sin (135 * PI / 180))%R as H2.
    { apply sin_gt_0; pose proof PI_RGT_0; lra. }
    lra.
Defined.
